(** * A real-estate search agent: tool executor, agent loop and entry points

    Shallow embedding of [scraper.py], [workflow.py], the request
    handlers of [uagent_bridge.py] and the credentials of [sheets.py].

    - Everything outside the process (the clock, the language model, the
      HomeHarvest scraper, the Google Sheets export) is an oracle of the
      environment [Env].  An oracle answers from the history of effects so
      far, so two calls with the same arguments may answer differently.
    - Process-wide state ([_last_search_time], [_sessions]) lives in [World],
      next to the trace of effects in program order.  A call runs to its
      end: no other coroutine is interleaved at its [await]s.
    - Python exceptions are the [Raise] case of [Result]; [try]/[except]
      is [attempt].  The texts of the exceptions pandas and Python raise by
      themselves are abridged; no statement reads them.
    - [time.time()] readings are exact rationals: for the timestamps a real
      clock gives, the two subtractions of the rate gate are exact in binary
      floating point, so the comparisons below decide as the source does. *)

From Stdlib Require Import QArith ZArith List String Ascii Sorted Bool Lia Lqa.
From Stdlib Require OrderedTypeEx.
From stdpp Require Import gmap strings list pretty.

Close Scope Q_scope.
Local Open Scope string_scope.
Local Open Scope list_scope.
Local Open Scope Z_scope.

(* ------------------------------------------------------------------ *)
(** ** Python strings *)

Module PyStr.

(** A Python string is held as the bytes of its UTF-8 encoding. *)

(** The characters for which [str.isspace] is true, each as its bytes:
    U+0009 to U+000D, U+001C to U+0020, U+0085, U+00A0, U+1680, U+2000 to
    U+200A, U+2028, U+2029, U+202F, U+205F and U+3000. *)
Definition spaces : list (list ascii) :=
  map (map ascii_of_nat)
    ([ [9]; [10]; [11]; [12]; [13]; [28]; [29]; [30]; [31]; [32];
       [194; 133]; [194; 160]; [225; 154; 128] ]
     ++ map (fun k => [226; 128; k]) (seq 128 11)
     ++ [ [226; 128; 168]; [226; 128; 169]; [226; 128; 175];
          [226; 129; 159]; [227; 128; 128] ])%nat.

(** What is left of [s] after [p], when [s] starts with [p]. *)
Fixpoint after (p s : list ascii) : option (list ascii) :=
  match p, s with
  | [], _ => Some s
  | a :: p', b :: s' => if Ascii.eqb a b then after p' s' else None
  | _ :: _, [] => None
  end.

(** [s] without its first character, when that is one of [codes]. *)
Fixpoint drop_first (codes : list (list ascii)) (s : list ascii)
  : option (list ascii) :=
  match codes with
  | [] => None
  | p :: rest =>
      match after p s with
      | Some s' => Some s'
      | None => drop_first rest s
      end
  end.

(** Drop characters of [codes] from the front of [s], at most [n]. *)
Fixpoint drop_while (codes : list (list ascii)) (n : nat) (s : list ascii)
  : list ascii :=
  match n with
  | O => s
  | S n' =>
      match drop_first codes s with
      | Some s' => drop_while codes n' s'
      | None => s
      end
  end.

Definition lstrip_bytes (s : list ascii) : list ascii :=
  drop_while spaces (length s) s.

(** From the end: the same on the reversed bytes. *)
Definition rstrip_bytes (s : list ascii) : list ascii :=
  List.rev (drop_while (map (@List.rev ascii) spaces) (length s) (List.rev s)).

Definition lstrip (s : string) : string :=
  string_of_list_ascii (lstrip_bytes (list_ascii_of_string s)).

Definition rstrip (s : string) : string :=
  string_of_list_ascii (rstrip_bytes (list_ascii_of_string s)).

(** [s.strip()]: white space is removed at both ends. *)
Definition strip (s : string) : string := rstrip (lstrip s).

Definition lower_char (c : ascii) : ascii :=
  let n := nat_of_ascii c in
  if ((65 <=? n) && (n <=? 90))%nat then ascii_of_nat (n + 32) else c.

(** [s.lower()], as far as a comparison with a text of ASCII characters can
    tell: the ASCII capitals become small letters, and so does the Kelvin
    sign (U+212A, the one other character whose lower case is in ASCII).
    The other characters are kept: Python lowers some of them, always to
    a text that holds a character outside ASCII, so that no text of ASCII
    characters is equal to it either way. *)
Fixpoint lower (s : string) : string :=
  match s with
  | String c t =>
      match t with
      | String c1 (String c2 t') =>
          if ((nat_of_ascii c =? 226) && (nat_of_ascii c1 =? 132)
              && (nat_of_ascii c2 =? 170))%nat
          then String "k" (lower t')
          else String (lower_char c) (lower t)
      | _ => String (lower_char c) (lower t)
      end
  | EmptyString => EmptyString
  end.

(** [needle in hay]. *)
Fixpoint contains (needle hay : string) : bool :=
  String.prefix needle hay ||
  match hay with
  | String _ t => contains needle t
  | EmptyString => false
  end.

Definition startswith (s p : string) : bool := String.prefix p s.

(** [sep.join(l)]. *)
Fixpoint join (sep : string) (l : list string) : string :=
  match l with
  | [] => EmptyString
  | [x] => x
  | x :: t => x +:+ sep +:+ join sep t
  end.

(** Truth value of a string: empty is false. *)
Definition truthy (s : string) : bool :=
  match s with EmptyString => false | _ => true end.

Definition nl : string := String (ascii_of_nat 10) EmptyString.

End PyStr.

(** Truth value of an [Optional[int]]: [None] and [0] are false. *)
Definition truthy_int (o : option Z) : bool :=
  match o with Some z => negb (z =? 0) | None => false end.

(** [x or 'any'] inside an f-string. *)
Definition or_any (o : option Z) : string :=
  if truthy_int o then pretty (default 0 o) else "any".

(* ------------------------------------------------------------------ *)
(** ** Exceptions *)

(** An exception is its text ([str(e)]) and whether it is a
    [GoogleAuthRequiredError], the one class the code tells apart. *)
Record Exn := { auth_required : bool; text : string }.

Inductive Result (A : Type) : Type :=
| Ok (a : A)
| Raise (e : Exn).
Arguments Ok {A} a.
Arguments Raise {A} e.

Definition Exception (msg : string) : Exn :=
  {| auth_required := false; text := msg |}.

(* ------------------------------------------------------------------ *)
(** ** scraper.py: search criteria and frames *)

Record SearchInput := {
  location : string;
  listing_type : string;
  min_price : option Z;
  max_price : option Z;
  min_beds : option Z;
  max_beds : option Z;
  min_sqft : option Z;
  max_sqft : option Z;
  property_type : option (list string);
  past_days : Z
}.

(** A JSON object written by the language model (the parser's answer, or
    the input of a tool call): which of the ten keys are present, each with
    a value of the type the schema gives it. *)
Record Fields := {
  d_location : option string;
  d_listing_type : option string;
  d_min_price : option Z;
  d_max_price : option Z;
  d_min_beds : option Z;
  d_max_beds : option Z;
  d_min_sqft : option Z;
  d_max_sqft : option Z;
  d_property_type : option (list string);
  d_past_days : option Z
}.

Definition no_fields : Fields :=
  {| d_location := None; d_listing_type := None; d_min_price := None;
     d_max_price := None; d_min_beds := None; d_max_beds := None;
     d_min_sqft := None; d_max_sqft := None; d_property_type := None;
     d_past_days := None |}.

(** A cell of a pandas frame: a number, a text, or missing (NaN). *)
Inductive Cell := CNum (z : Z) | CStr (s : string) | CNaN.

(** A frame is its column labels and its rows, each row holding one cell
    per column, in column order.  Labels are looked up by first match. *)
Record DataFrame := { columns : list string; rows : list (list Cell) }.

Module Pandas.

(** [len(df)]. *)
Definition len (df : DataFrame) : nat := length (rows df).

(** [df.empty]: some axis has length 0. *)
Definition empty (df : DataFrame) : bool :=
  match columns df, rows df with
  | [], _ | _, [] => true
  | _, _ => false
  end.

Fixpoint col_index (c : string) (cols : list string) : option nat :=
  match cols with
  | [] => None
  | x :: t => if String.eqb c x then Some 0%nat else S <$> col_index c t
  end.

(** [c in df.columns]. *)
Definition has_column (c : string) (df : DataFrame) : bool :=
  bool_decide (is_Some (col_index c (columns df))).

Definition cell_at (i : nat) (r : list Cell) : Cell := nth i r CNaN.

(** [df[c]] as the list of its cells, when the column exists. *)
Definition series (c : string) (df : DataFrame) : option (list Cell) :=
  (fun i => map (cell_at i) (rows df)) <$> col_index c (columns df).

Definition is_text (c : Cell) : bool :=
  match c with CStr _ => true | _ => false end.

Definition KeyError (c : string) : Exn := Exception ("'" +:+ c +:+ "'").
Definition TypeError (op : string) : Exn :=
  Exception ("'" +:+ op +:+ "' not supported between instances of 'str' and 'int'").

(** [df[df[c] >= v]] and [df[df[c] <= v]]: a missing column raises
    [KeyError], a text cell compared with an integer raises [TypeError],
    and a missing value compares false. *)
Definition mask_filter (ge : bool) (c : string) (v : Z) (df : DataFrame)
  : Result DataFrame :=
  match col_index c (columns df) with
  | None => Raise (KeyError c)
  | Some i =>
      if existsb (fun r => is_text (cell_at i r)) (rows df)
      then Raise (TypeError (if ge then ">=" else "<="))
      else Ok {| columns := columns df;
                 rows := List.filter
                   (fun r => match cell_at i r with
                             | CNum z => if ge then v <=? z else z <=? v
                             | _ => false
                             end) (rows df) |}
  end.

(** [df[keys].rename(columns=renames)] for keys that are all present. *)
Definition select_rename (renames : list (string * string)) (df : DataFrame)
  : DataFrame :=
  let idx := omap (fun kv => col_index (fst kv) (columns df)) renames in
  {| columns := map snd renames;
     rows := map (fun r => map (fun i => cell_at i r) idx) (rows df) |}.

(** The order [sort_values(ascending=True)] sorts by: numbers by value,
    texts by code points, missing values last.  A number is never
    compared with a text: [sort_values] raises first. *)
Definition cell_le (a b : Cell) : bool :=
  match a, b with
  | _, CNaN => true
  | CNaN, _ => false
  | CNum x, CNum y => x <=? y
  | CStr x, CStr y => String.leb x y
  | CNum _, CStr _ => true
  | CStr _, CNum _ => false
  end.

Fixpoint insert_row (i : nat) (r : list Cell) (l : list (list Cell))
  : list (list Cell) :=
  match l with
  | [] => [r]
  | x :: t =>
      if cell_le (cell_at i x) (cell_at i r) then x :: insert_row i r t
      else r :: x :: t
  end.

Definition sort_rows (i : nat) (l : list (list Cell)) : list (list Cell) :=
  fold_right (insert_row i) [] l.

Definition is_num (c : Cell) : bool :=
  match c with CNum _ => true | _ => false end.

(** [df.sort_values(c, ascending=True)].  pandas leaves the order of rows
    with equal keys open; the model keeps them in their order. *)
Definition sort_values (c : string) (df : DataFrame) : Result DataFrame :=
  match col_index c (columns df) with
  | None => Raise (KeyError c)
  | Some i =>
      if existsb (fun r => is_text (cell_at i r)) (rows df)
         && existsb (fun r => is_num (cell_at i r)) (rows df)
      then Raise (TypeError "<")
      else Ok {| columns := columns df; rows := sort_rows i (rows df) |}
  end.

(** [df.head(n)]. *)
Definition head (n : nat) (df : DataFrame) : DataFrame :=
  {| columns := columns df; rows := firstn n (rows df) |}.

Definition key_le (i : nat) (a b : list Cell) : Prop :=
  cell_le (cell_at i a) (cell_at i b) = true.

(** The rows of [df] are in the order of [cell_le] on column [c]: every
    row comes before all the rows below it. *)
Definition sorted_by (c : string) (df : DataFrame) : Prop :=
  forall i, col_index c (columns df) = Some i ->
    StronglySorted (key_le i) (rows df).

End Pandas.

(** The keyword arguments of HomeHarvest's [scrape_property]. *)
Record ScrapeArgs := {
  a_location : string;
  a_listing_type : string;
  a_past_days : Z;
  a_beds_min : option Z;
  a_beds_max : option Z;
  a_sqft_min : option Z;
  a_sqft_max : option Z;
  a_price_min : option Z;
  a_price_max : option Z;
  a_property_type : option (list string)
}.

(* ------------------------------------------------------------------ *)
(** ** workflow.py: data *)

(** What [json.dumps] is given: a tool outcome is kept as the JSON value,
    its serialisation being one-to-one. *)
#[warnings="-register-all"]
Inductive Json :=
| JNull
| JNaN
| JInt (z : Z)
| JStr (s : string)
| JArr (l : list Json)
| JObj (kv : list (string * Json)).

Fixpoint assoc {A} (k : string) (kv : list (string * A)) : option A :=
  match kv with
  | [] => None
  | (k', v) :: t => if String.eqb k k' then Some v else assoc k t
  end.

(** The ["status"] entry of an outcome, when it has one. *)
Definition status (j : Json) : option string :=
  match j with
  | JObj kv => match assoc "status" kv with Some (JStr s) => Some s | _ => None end
  | _ => None
  end.

(** A content block of a planner turn. *)
Inductive Block :=
| TextBlock (text : string)
| ToolUseBlock (id name : string) (input : Fields)
| OtherBlock (type : string).

(** [client.messages.create(...)]'s answer, as far as the loop reads it. *)
Record Response := { content : list Block; stop_reason : string }.

(** [{"type": "tool_result", "tool_use_id": ..., "content": ...}]. *)
Record ToolResult := { tool_use_id : string; result : Json }.

Inductive Content :=
| Text (s : string)
| Blocks (bs : list Block)
| ToolResults (rs : list ToolResult).

(** [{"role": ..., "content": ...}]. *)
Record Message := { role : string; body : Content }.

Record WorkflowInput := { user_request : string; wi_user_id : string }.

Record WorkflowResult := {
  wr_sheet_url : string;
  summary : string;
  wr_num_results : nat;
  session_id : option string
}.

(** Shared state within a single workflow run. *)
Record _RunState := {
  search : option SearchInput;
  user_id : string;
  df : option DataFrame;
  sheet_url : string;
  num_results : nat;
  last_error : string
}.

(* ------------------------------------------------------------------ *)
(** ** Effects *)

(** One entry per effect, in program order: clock readings, writes to the
    process-wide timestamp and session map, and calls to the outside, each
    with what it was given and what it answered. *)
Inductive Event :=
| EvTime (t : Q)
| EvStamp (t : Q)
| EvSessionPop (uid : string)
| EvSessionSet (uid : string) (msgs : list Message)
| EvExtract (request : string) (r : Result Fields)
| EvPlanner (msgs : list Message) (r : Result Response)
| EvScrape (a : ScrapeArgs) (r : Result DataFrame)
| EvSheet (d : DataFrame) (loc ltype uid : string) (r : Result string)
| EvCredentials (uid : string) (r : Result unit).

Definition Trace := list Event.

Definition is_planner (e : Event) : bool :=
  match e with EvPlanner _ _ => true | _ => false end.

(** How many times a stretch of the trace invoked the planner. *)
Definition planner_calls (h : Trace) : nat := length (List.filter is_planner h).

(** The outside world.  [extract] is the parser's model call together with
    the decoding of its answer; [plan] is the planner's model call;
    [_get_user_credentials] stands for the OAuth check of [sheets.py],
    the credentials it returns being of no use here; [float64_mean] is
    [int(series.mean())] for the numbers of a column whose sum binary
    floating point does not hold exactly: what pandas' float arithmetic
    gives there, or the exception [int] raises. *)
Record Env := {
  time_time : Trace -> Q;
  extract : Trace -> string -> Result Fields;
  plan : Trace -> list Message -> Result Response;
  scrape_property : Trace -> ScrapeArgs -> Result DataFrame;
  create_listings_sheet :
    Trace -> DataFrame -> string -> string -> string -> Result string;
  _get_user_credentials : Trace -> string -> Result unit;
  float64_mean : list Z -> Result Z
}.

(** The process: the two module-level globals of [workflow.py] and the
    trace so far. *)
Record World := {
  _last_search_time : Q;
  _sessions : gmap string (list Message);
  trace : Trace
}.

Definition SEARCH_COOLDOWN_SECONDS : Q := 8 # 1.

(** A process that has just started. *)
Definition boot : World :=
  {| _last_search_time := 0 # 1; _sessions := ∅; trace := [] |}.

Definition M (A : Type) : Type := World -> Result A * World.

Definition ret {A} (a : A) : M A := fun w => (Ok a, w).

Definition bind {A B} (m : M A) (k : A -> M B) : M B :=
  fun w => match m w with
           | (Ok a, w') => k a w'
           | (Raise e, w') => (Raise e, w')
           end.

Definition raise {A} (e : Exn) : M A := fun w => (Raise e, w).

(** [try: m  except Exception as e: ...], with the outcome as a value. *)
Definition attempt {A} (m : M A) : M (Result A) :=
  fun w => let '(r, w') := m w in (Ok r, w').

Definition lift {A} (r : Result A) : M A := fun w => (r, w).

Declare Scope m_scope.
Delimit Scope m_scope with M.
Notation "x <- m ;; k" := (bind m (fun x => k))
  (at level 100, m at next level, right associativity) : m_scope.
Notation "m ;; k" := (bind m (fun _ => k))
  (at level 100, right associativity) : m_scope.

(** The world after further effects. *)
Definition extend (w : World) (es : Trace) : World :=
  {| _last_search_time := _last_search_time w;
     _sessions := _sessions w;
     trace := trace w ++ es |}.

Definition log (e : Event) : M unit := fun w => (Ok tt, extend w [e]).

Definition history : M Trace := fun w => (Ok (trace w), w).

Definition get_last_search_time : M Q := fun w => (Ok (_last_search_time w), w).

(** [_last_search_time = t]. *)
Definition set_last_search_time (t : Q) : M unit :=
  fun w => (Ok tt, {| _last_search_time := t;
                      _sessions := _sessions w;
                      trace := trace w ++ [EvStamp t] |}).

(** [_sessions.get(uid)]. *)
Definition sessions_get (uid : string) : M (option (list Message)) :=
  fun w => (Ok (_sessions w !! uid), w).

(** [_sessions.pop(uid, None)]. *)
Definition sessions_pop (uid : string) : M unit :=
  fun w => (Ok tt, {| _last_search_time := _last_search_time w;
                      _sessions := delete uid (_sessions w);
                      trace := trace w ++ [EvSessionPop uid] |}).

(** [_sessions[uid] = msgs]. *)
Definition sessions_set (uid : string) (msgs : list Message) : M unit :=
  fun w => (Ok tt, {| _last_search_time := _last_search_time w;
                      _sessions := <[uid := msgs]> (_sessions w);
                      trace := trace w ++ [EvSessionSet uid msgs] |}).

(* ------------------------------------------------------------------ *)
(** ** scraper.py *)

Definition type_map : list (string * string) :=
  [ ("single_family", "single_family");
    ("condo", "condos");
    ("condos", "condos");
    ("townhouse", "townhomes");
    ("townhomes", "townhomes");
    ("multi_family", "multi_family") ].

(** [list(dict.fromkeys(l))]: first occurrences, in order. *)
Definition fromkeys (l : list string) : list string :=
  fold_left (fun acc x => if existsb (String.eqb x) acc then acc else acc ++ [x])
            l [].

(** Map user-friendly types to HomeHarvest property_type values. *)
Definition _normalize_property_types (property_types : option (list string))
  : option (list string) :=
  match property_types with
  | None | Some [] => None
  | Some l =>
      let normalized :=
        omap (fun item => assoc (PyStr.lower (PyStr.strip item)) type_map) l in
      match normalized with
      | [] => None
      | _ => Some (fromkeys normalized)
      end
  end.

Definition keep_cols : list (string * string) :=
  [ ("property_url", "Listing Link");
    ("list_price", "Price ($)");
    ("street_address", "Street Address");
    ("city", "City");
    ("state", "State");
    ("zip_code", "Zip Code");
    ("beds", "Beds");
    ("full_baths", "Baths");
    ("sqft", "Size (sqft)");
    ("style", "Property Type");
    ("site_name", "Source") ].

(** [if bound: properties = properties[properties[c] >= bound]]. *)
Definition apply_bound (bound : option Z) (ge : bool) (c : string)
  (properties : DataFrame) : Result DataFrame :=
  if truthy_int bound
  then Pandas.mask_filter ge c (default 0 bound) properties
  else Ok properties.

Definition rbind {A B} (r : Result A) (k : A -> Result B) : Result B :=
  match r with Ok a => k a | Raise e => Raise e end.

(** Lines 90 to 129 of [fetch_listings]: what happens to a frame that is
    not empty. *)
Definition shape_listings (s : SearchInput) (properties : DataFrame)
  : Result DataFrame :=
  rbind (apply_bound (min_price s) true "list_price" properties) (fun properties =>
  rbind (apply_bound (max_price s) false "list_price" properties) (fun properties =>
  rbind (apply_bound (min_beds s) true "beds" properties) (fun properties =>
  rbind (apply_bound (max_beds s) false "beds" properties) (fun properties =>
  rbind (apply_bound (min_sqft s) true "sqft" properties) (fun properties =>
  rbind (apply_bound (max_sqft s) false "sqft" properties) (fun properties =>
  let available :=
    List.filter (fun kv => Pandas.has_column (fst kv) properties) keep_cols in
  let result := Pandas.select_rename available properties in
  rbind (if Pandas.has_column "Price ($)" result
         then Pandas.sort_values "Price ($)" result
         else Ok result) (fun result =>
  Ok (Pandas.head 20 result)))))))).

(** What [fetch_listings] makes of the scraper's answer. *)
Definition fetched (s : SearchInput) (r : Result DataFrame) : Result DataFrame :=
  rbind r (fun properties =>
    if Pandas.empty properties then Ok properties else shape_listings s properties).

Definition scrape_args (s : SearchInput) : ScrapeArgs :=
  {| a_location := location s;
     a_listing_type := listing_type s;
     a_past_days := past_days s;
     a_beds_min := min_beds s;
     a_beds_max := max_beds s;
     a_sqft_min := min_sqft s;
     a_sqft_max := max_sqft s;
     a_price_min := min_price s;
     a_price_max := max_price s;
     a_property_type := _normalize_property_types (property_type s) |}.

Section Program.

Variable env : Env.

Local Open Scope m_scope.

(** [time.time()]. *)
Definition now : M Q :=
  h <- history ;;
  let t := time_time env h in
  log (EvTime t) ;; ret t.

Definition call_scrape (a : ScrapeArgs) : M DataFrame :=
  h <- history ;;
  let r := scrape_property env h a in
  log (EvScrape a r) ;; lift r.

Definition call_sheet (d : DataFrame) (loc ltype uid : string) : M string :=
  h <- history ;;
  let r := create_listings_sheet env h d loc ltype uid in
  log (EvSheet d loc ltype uid r) ;; lift r.

Definition call_extract (request : string) : M Fields :=
  h <- history ;;
  let r := extract env h request in
  log (EvExtract request r) ;; lift r.

Definition call_planner (msgs : list Message) : M Response :=
  h <- history ;;
  let r := plan env h msgs in
  log (EvPlanner msgs r) ;; lift r.

Definition call_credentials (uid : string) : M unit :=
  h <- history ;;
  let r := _get_user_credentials env h uid in
  log (EvCredentials uid r) ;; lift r.

(** Fetch real estate listings using HomeHarvest. *)
Definition fetch_listings (s : SearchInput) : M DataFrame :=
  properties <- call_scrape (scrape_args s) ;;
  if Pandas.empty properties then ret properties
  else lift (shape_listings s properties).

(* ---------------------------------------------------------------- *)
(** *** workflow.py: the intent parser *)

(** [SearchInput(location=parsed.get("location", ""), ...)]. *)
Definition criteria (parsed : Fields) : SearchInput :=
  {| location := default EmptyString (d_location parsed);
     listing_type := default "for_sale" (d_listing_type parsed);
     min_price := d_min_price parsed;
     max_price := d_max_price parsed;
     min_beds := d_min_beds parsed;
     max_beds := d_max_beds parsed;
     min_sqft := d_min_sqft parsed;
     max_sqft := d_max_sqft parsed;
     property_type := d_property_type parsed;
     past_days := default 30 (d_past_days parsed) |}.

Definition parse_search_intent (request : string) : M SearchInput :=
  parsed <- call_extract request ;;
  ret (criteria parsed).

(* ---------------------------------------------------------------- *)
(** *** workflow.py: the tool executor *)

(** The [SearchInput] built from the planner's [tool_input]. *)
Definition build_search (tool_input : Fields) (state : _RunState) : SearchInput :=
  {| location :=
       default (match search state with
                | Some s => location s
                | None => EmptyString
                end) (d_location tool_input);
     listing_type := default "for_sale" (d_listing_type tool_input);
     min_price := d_min_price tool_input;
     max_price := d_max_price tool_input;
     min_beds := d_min_beds tool_input;
     max_beds := d_max_beds tool_input;
     min_sqft := d_min_sqft tool_input;
     max_sqft := d_max_sqft tool_input;
     property_type := d_property_type tool_input;
     past_days := default 30 (d_past_days tool_input) |}.

(** [state.search = s]. *)
Definition set_search (state : _RunState) (s : SearchInput) : _RunState :=
  {| search := Some s; user_id := user_id state; df := df state;
     sheet_url := sheet_url state; num_results := num_results state;
     last_error := last_error state |}.

(** [state.df = d; state.num_results = n; state.last_error = err]. *)
Definition set_fetched (state : _RunState) (d : option DataFrame) (n : nat)
  (err : string) : _RunState :=
  {| search := search state; user_id := user_id state; df := d;
     sheet_url := sheet_url state; num_results := n; last_error := err |}.

(** [state.sheet_url = url; state.last_error = ""]. *)
Definition set_sheet (state : _RunState) (url : string) : _RunState :=
  {| search := search state; user_id := user_id state; df := df state;
     sheet_url := url; num_results := num_results state;
     last_error := EmptyString |}.

(** [state.last_error = err]. *)
Definition set_error (state : _RunState) (err : string) : _RunState :=
  {| search := search state; user_id := user_id state; df := df state;
     sheet_url := sheet_url state; num_results := num_results state;
     last_error := err |}.

Definition Qlt_bool (x y : Q) : bool := negb (Qle_bool y x).

(** [_last_search_time > 0 and elapsed < SEARCH_COOLDOWN_SECONDS], for
    [elapsed = now - _last_search_time]. *)
Definition gate_closed (t last : Q) : bool :=
  Qlt_bool (0 # 1) last && Qlt_bool (Qminus t last) SEARCH_COOLDOWN_SECONDS.

(** The tenths of [round(x, 1)]: [x * 10] rounded to the nearest integer,
    ties to the even one. *)
Definition round_tenths (x : Q) : Z :=
  let n := Qnum x * 10 in
  let d := Z.pos (Qden x) in
  let q := n / d in
  match 2 * (n mod d) ?= d with
  | Lt => q
  | Gt => q + 1
  | Eq => if Z.even q then q else q + 1
  end.

(** How an f-string prints the float [k / 10], for [0 <= k]. *)
Definition show_tenths (k : Z) : string :=
  pretty (k / 10) +:+ "." +:+ pretty (k mod 10).

Definition rate_limited (wait : Z) : Json :=
  JObj [ ("status", JStr "rate_limited");
         ("message", JStr ("Please wait " +:+ show_tenths wait
                           +:+ "s before searching again.")) ].

Definition cell_json (c : Cell) : Json :=
  match c with CNum z => JInt z | CStr s => JStr s | CNaN => JNaN end.

(** [df.head(5).to_dict(orient="records")]. *)
Definition preview (d : DataFrame) : Json :=
  JArr (map (fun r => JObj (zip_with (fun c i => (c, cell_json (Pandas.cell_at i r)))
                                     (columns d) (seq 0 (length (columns d)))))
            (rows (Pandas.head 5 d))).

Definition numbers (cells : list Cell) : list Z :=
  omap (fun c => match c with CNum z => Some z | _ => None end) cells.

(** [int(df["Price ($)"].agg()) if "Price ($)" in df.columns else None]:
    a column of missing values aggregates to NaN, which [int] refuses;
    a text in the column fails one of the three aggregations. *)
Definition price_stat (agg : Z -> list Z -> Result Z) (d : DataFrame)
  : Result Json :=
  match Pandas.series "Price ($)" d with
  | None => Ok JNull
  | Some cells =>
      if existsb Pandas.is_text cells
      then Raise (Exception "Could not convert string to numeric")
      else match numbers cells with
           | [] => Raise (Exception "cannot convert float NaN to integer")
           | z :: zs => rbind (agg z zs) (fun v => Ok (JInt v))
           end
  end.

Definition agg_min (z : Z) (zs : list Z) : Z := fold_left Z.min zs z.
Definition agg_max (z : Z) (zs : list Z) : Z := fold_left Z.max zs z.

(** The magnitudes of the numbers add up to less than [2 ^ 53]: binary
    floating point then holds every number and every partial sum as it
    is, in whatever order they are added. *)
Definition held_exactly (z : Z) (zs : list Z) : bool :=
  fold_left (fun acc x => acc + Z.abs x) zs (Z.abs z) <? 2 ^ 53.

(** [int(series.mean())].  pandas adds the numbers in binary floating
    point and divides by their count.  When the sum is held exactly, the
    quotient is rounded by less than the distance of the true quotient to
    the next integer, so [int] gives the true quotient truncated; when it
    is not, the result is the environment's. *)
Definition agg_mean (z : Z) (zs : list Z) : Result Z :=
  if held_exactly z zs
  then Ok (Z.quot (fold_left Z.add zs z) (Z.of_nat (S (length zs))))
  else float64_mean env (z :: zs).

Definition success_json (s : SearchInput) (d : DataFrame) : Result Json :=
  rbind (price_stat (fun z zs => Ok (agg_min z zs)) d) (fun price_min =>
  rbind (price_stat (fun z zs => Ok (agg_max z zs)) d) (fun price_max =>
  rbind (price_stat agg_mean d) (fun price_avg =>
  Ok (JObj [ ("status", JStr "success");
             ("num_results", JInt (Z.of_nat (Pandas.len d)));
             ("location", JStr (location s));
             ("listing_type", JStr (listing_type s));
             ("price_min", price_min);
             ("price_max", price_max);
             ("price_avg", price_avg);
             ("sample_listings", preview d) ])))).

Definition no_results_json (s : SearchInput) : Json :=
  JObj [ ("status", JStr "no_results");
         ("message", JStr ("No listings found in " +:+ location s
                           +:+ " with the given filters."));
         ("num_results", JInt 0);
         ("location", JStr (location s)) ].

Definition search_error_json (e : Exn) : Json :=
  JObj [ ("status", JStr "error"); ("error", JStr (text e));
         ("num_results", JInt 0) ].

(** The [try] block of the [search_listings] branch once [fetch_listings]
    has returned or raised, and its [except] block. *)
Definition settle_search (s : SearchInput) (state : _RunState)
  (fetched : Result DataFrame) : Json * _RunState :=
  match fetched with
  | Ok d =>
      if Pandas.empty d
      then (no_results_json s, set_fetched state (Some d) 0 EmptyString)
      else match success_json s d with
           | Ok j => (j, set_fetched state (Some d) (Pandas.len d) EmptyString)
           | Raise e => (search_error_json e, set_fetched state None 0 (text e))
           end
  | Raise e => (search_error_json e, set_fetched state None 0 (text e))
  end.

(** The [search_listings] branch of [_execute_tool]. *)
Definition search_listings (tool_input : Fields) (state : _RunState)
  : M (Json * _RunState) :=
  t <- now ;;
  last <- get_last_search_time ;;
  let elapsed := Qminus t last in
  if gate_closed t last then
    let wait := round_tenths (Qminus SEARCH_COOLDOWN_SECONDS elapsed) in
    ret (rate_limited wait, state)
  else
    t' <- now ;;
    set_last_search_time t' ;;
    let s := build_search tool_input state in
    let state := set_search state s in
    fetched <- attempt (fetch_listings s) ;;
    ret (settle_search s state fetched).

Definition no_data_json : Json :=
  JObj [ ("status", JStr "error");
         ("error", JStr "No listings data — run search_listings first.") ].

(** The [create_sheet] branch of [_execute_tool]. *)
Definition create_sheet (state : _RunState) : M (Json * _RunState) :=
  match df state with
  | None => ret (no_data_json, state)
  | Some d =>
      if Pandas.empty d then ret (no_data_json, state)
      else
        made <- attempt
          (match search state with
           | Some s => call_sheet d (location s) (listing_type s) (user_id state)
           | None => raise (Exception "'NoneType' object has no attribute 'location'")
           end) ;;
        match made with
        | Ok url =>
            ret (JObj [ ("status", JStr "success"); ("sheet_url", JStr url);
                        ("num_rows", JInt (Z.of_nat (Pandas.len d))) ],
                 set_sheet state url)
        | Raise e =>
            ret (JObj [ ("status", JStr (if auth_required e then "auth_required"
                                         else "error"));
                        ("error", JStr (text e)) ],
                 set_error state (text e))
        end
  end.

(** Execute a tool call from Claude and return result as a JSON string. *)
Definition _execute_tool (tool_name : string) (tool_input : Fields)
  (state : _RunState) : M (Json * _RunState) :=
  if String.eqb tool_name "search_listings" then search_listings tool_input state
  else if String.eqb tool_name "create_sheet" then create_sheet state
  else ret (JObj [ ("error", JStr ("Unknown tool: " +:+ tool_name)) ], state).

(* ---------------------------------------------------------------- *)
(** *** workflow.py: the agent loop *)

Definition user_prompt (s : SearchInput) : string :=
  "Find real estate listings and create a Google Sheet:" +:+ PyStr.nl
  +:+ "- Location     : " +:+ location s +:+ PyStr.nl
  +:+ "- Listing type : " +:+ listing_type s +:+ PyStr.nl
  +:+ "- Price range  : $" +:+ or_any (min_price s) +:+ " – "
  +:+ or_any (max_price s) +:+ PyStr.nl
  +:+ "- Beds         : " +:+ or_any (min_beds s) +:+ "+" +:+ PyStr.nl
  +:+ "- Property type: "
  +:+ match property_type s with
      | Some (t :: ts) => PyStr.join ", " (t :: ts)
      | _ => "any"
      end +:+ PyStr.nl +:+ PyStr.nl
  +:+ "Call search_listings first, then create_sheet.".

Definition user_turn (c : Content) : Message := {| role := "user"; body := c |}.
Definition assistant_turn (r : Response) : Message :=
  {| role := "assistant"; body := Blocks (content r) |}.

(** The text of the last block that has one, or the empty string. *)
Definition last_text (bs : list Block) : string :=
  fold_left (fun acc b => match b with TextBlock t => t | _ => acc end)
            bs EmptyString.

(** Execute all tool calls of one planner turn, in order. *)
Fixpoint run_tools (bs : list Block) (state : _RunState)
  : M (list ToolResult * _RunState) :=
  match bs with
  | [] => ret ([], state)
  | ToolUseBlock id name input :: rest =>
      o <- _execute_tool name input state ;;
      rs <- run_tools rest (snd o) ;;
      ret ({| tool_use_id := id; result := fst o |} :: fst rs, snd rs)
  | _ :: rest => run_tools rest state
  end.

(** What the [for] loop leaves behind. *)
Record LoopExit := {
  final_summary : string;
  messages : list Message;
  state_out : _RunState
}.

(** [for iteration in range(n): ...]. *)
Fixpoint iterations (n : nat) (msgs : list Message) (state : _RunState)
  : M LoopExit :=
  match n with
  | O => ret {| final_summary := EmptyString; messages := msgs; state_out := state |}
  | S n' =>
      response <- call_planner msgs ;;
      let msgs := msgs ++ [assistant_turn response] in
      if String.eqb (stop_reason response) "end_turn" then
        ret {| final_summary := last_text (content response);
               messages := msgs; state_out := state |}
      else if String.eqb (stop_reason response) "tool_use" then
        rs <- run_tools (content response) state ;;
        iterations n' (msgs ++ [user_turn (ToolResults (fst rs))]) (snd rs)
      else
        ret {| final_summary := EmptyString; messages := msgs; state_out := state |}
  end.

Definition max_iterations : nat := 8.

(** The summary written when the planner left none. *)
Definition fallback_summary (s : SearchInput) (state : _RunState) : string :=
  if PyStr.truthy (sheet_url state) && (0 <? num_results state)%nat then
    "Found " +:+ pretty (num_results state) +:+ " listings in " +:+ location s
    +:+ ". Google Sheet: " +:+ sheet_url state
  else if PyStr.truthy (last_error state) then
    "Found " +:+ pretty (num_results state) +:+ " listings in " +:+ location s
    +:+ ", but sheet creation failed. " +:+ last_error state
  else
    "No listings found in " +:+ location s +:+ " matching your criteria.".

Definition new_state (s : SearchInput) (uid : string) : _RunState :=
  {| search := Some s; user_id := uid; df := None; sheet_url := EmptyString;
     num_results := 0; last_error := EmptyString |}.

(** The seed of a run: [list(prior_messages or [])] and the instruction. *)
Definition seed (s : SearchInput) (prior_messages : option (list Message))
  : list Message :=
  default [] prior_messages ++ [user_turn (Text (user_prompt s))].

(** The [WorkflowResult] built after the loop. *)
Definition assemble (s : SearchInput) (uid : string) (out : LoopExit)
  : WorkflowResult :=
  let state := state_out out in
  {| wr_sheet_url := sheet_url state;
     summary := if PyStr.truthy (final_summary out) then final_summary out
                else fallback_summary s state;
     wr_num_results := num_results state;
     session_id := Some uid |}.

Definition run_agent_loop (s : SearchInput) (uid : string)
  (prior_messages : option (list Message)) : M WorkflowResult :=
  out <- iterations max_iterations (seed s prior_messages) (new_state s uid) ;;
  sessions_set uid (messages out) ;;
  ret (assemble s uid out).

(* ---------------------------------------------------------------- *)
(** *** workflow.py: entry points *)

Definition no_location : WorkflowResult :=
  {| wr_sheet_url := EmptyString;
     summary := "Could not determine a location. Please include a city, state, or zip code.";
     wr_num_results := 0;
     session_id := None |}.

(** Start a fresh search. *)
Definition run_workflow (input_data : WorkflowInput) : M WorkflowResult :=
  s <- parse_search_intent (user_request input_data) ;;
  if negb (PyStr.truthy (location s)) then ret no_location
  else
    sessions_pop (wi_user_id input_data) ;;
    run_agent_loop s (wi_user_id input_data) None.

(** Resume a previous search session for this user_id. *)
Definition resume_workflow (input_data : WorkflowInput) : M WorkflowResult :=
  prior_messages <- sessions_get (wi_user_id input_data) ;;
  match prior_messages with
  | Some (m :: ms) =>
      s <- parse_search_intent (user_request input_data) ;;
      run_agent_loop s (wi_user_id input_data) (Some (m :: ms))
  | _ => run_workflow input_data
  end.

End Program.

(* ------------------------------------------------------------------ *)
(** ** uagent_bridge.py: the two request handlers *)

Record SearchRequest := { query : string; sr_user_id : string }.
Record FollowUpRequest := { fu_query : string; fu_user_id : string }.

Record SearchResponse := {
  r_sheet_url : string;
  r_summary : string;
  r_num_results : nat;
  r_session_id : string;
  error : string
}.

Definition _resolve_user_id (message_user_id sender : string) : string :=
  let value := PyStr.strip message_user_id in
  if PyStr.truthy value then value else sender.

(** [result.session_id or user_id]. *)
Definition session_or (sid : option string) (uid : string) : string :=
  match sid with
  | Some s => if PyStr.truthy s then s else uid
  | None => uid
  end.

Definition auth_queries : list string :=
  [ "/google-auth"; "google auth"; "connect google" ].

(** The query, stripped and lower-cased, is one of the authorization
    commands. *)
Definition is_auth_query (q : string) : bool :=
  let normalized_query := PyStr.lower (PyStr.strip q) in
  existsb (String.eqb normalized_query) auth_queries.

(** [SearchResponse(error=str(exc), session_id=user_id)]. *)
Definition failure_response (e : Exn) (uid : string) : SearchResponse :=
  {| r_sheet_url := EmptyString; r_summary := EmptyString; r_num_results := 0;
     r_session_id := uid; error := text e |}.

Section Bridge.

Variable env : Env.

Local Open Scope m_scope.

(** sheets.py: return either connected status or auth steps for this user. *)
Definition get_google_auth_message (uid : string) : M string :=
  checked <- attempt (call_credentials env uid) ;;
  match checked with
  | Ok _ => ret "Google is already connected for this user."
  | Raise e => if auth_required e then ret (text e) else raise e
  end.

(** The reply sent for a [SearchRequest]. *)
Definition handle_search (sender : string) (msg : SearchRequest)
  : M SearchResponse :=
  let uid := _resolve_user_id (sr_user_id msg) sender in
  if is_auth_query (query msg) then
    instructions <- get_google_auth_message uid ;;
    ret {| r_sheet_url := EmptyString;
           r_summary := instructions;
           r_num_results := 0;
           r_session_id := uid;
           error := if PyStr.startswith instructions "Google is already connected"
                    then EmptyString else instructions |}
  else
    ran <- attempt (run_workflow env {| user_request := query msg;
                                        wi_user_id := uid |}) ;;
    match ran with
    | Ok res =>
        ret {| r_sheet_url := wr_sheet_url res;
               r_summary := summary res;
               r_num_results := wr_num_results res;
               r_session_id := session_or (session_id res) uid;
               error := if negb (PyStr.truthy (wr_sheet_url res))
                           && PyStr.contains "Google authorization required"
                                             (summary res)
                        then summary res else EmptyString |}
    | Raise e => ret (failure_response e uid)
    end.

(** The reply sent for a [FollowUpRequest]. *)
Definition handle_followup (sender : string) (msg : FollowUpRequest)
  : M SearchResponse :=
  let uid := _resolve_user_id (fu_user_id msg) sender in
  ran <- attempt (resume_workflow env {| user_request := fu_query msg;
                                         wi_user_id := uid |}) ;;
  match ran with
  | Ok res =>
      ret {| r_sheet_url := wr_sheet_url res;
             r_summary := summary res;
             r_num_results := wr_num_results res;
             r_session_id := session_or (session_id res) uid;
             error := EmptyString |}
  | Raise e => ret (failure_response e uid)
  end.

End Bridge.

(* ------------------------------------------------------------------ *)
(** ** A scripted environment, to run the program on concrete inputs *)

Module Script.

(** The prices of the scenarios are small: [float64_mean] is not reached. *)
Definition no_float (_ : list Z) : Result Z :=
  Raise (Exception "cannot convert float infinity to integer").

Definition count_time (h : Trace) : nat :=
  length (List.filter (fun e => match e with EvTime _ => true | _ => false end) h).

Definition frame (prices : list Z) : DataFrame :=
  {| columns := ["list_price"; "city"; "beds"; "sqft"];
     rows := map (fun p => [CNum p; CStr "Austin"; CNum 3; CNum 1500]) prices |}.

Definition austin : Fields :=
  {| d_location := Some "Austin, TX"; d_listing_type := Some "for_sale";
     d_min_price := None; d_max_price := Some 600000; d_min_beds := Some 3;
     d_max_beds := None; d_min_sqft := None; d_max_sqft := None;
     d_property_type := None; d_past_days := None |}.

(** The planner searches, then exports, then answers [answer]. *)
Definition plan3 (answer : string) (h : Trace) (_ : list Message) : Result Response :=
  match planner_calls h with
  | O => Ok {| content := [ToolUseBlock "t1" "search_listings" austin];
               stop_reason := "tool_use" |}
  | 1%nat => Ok {| content := [ToolUseBlock "t2" "create_sheet" no_fields];
               stop_reason := "tool_use" |}
  | _ => Ok {| content := [TextBlock answer]; stop_reason := "end_turn" |}
  end.

(** A clock that starts at [t0] seconds and advances [step] per reading. *)
Definition ticking (t0 step : Z) (h : Trace) : Q :=
  (t0 + step * Z.of_nat (count_time h)) # 1.

Definition env0 : Env :=
  {| time_time := ticking 1700000000 1;
     extract := fun _ _ => Ok austin;
     plan := plan3 "Found 3 listings.";
     scrape_property := fun _ _ => Ok (frame [500000; 300000; 400000]);
     create_listings_sheet := fun _ _ _ _ _ => Ok "https://sheet/abc";
     _get_user_credentials := fun _ _ => Ok tt;
     float64_mean := no_float |}.

(** No location in the request: the parser's answer has no key at all. *)
Definition env_noloc : Env :=
  {| time_time := ticking 1700000000 1;
     extract := fun _ _ => Ok no_fields;
     plan := fun _ _ => Ok {| content := [TextBlock "Here are cheaper ones."];
                              stop_reason := "end_turn" |};
     scrape_property := fun _ _ => Ok (frame [500000; 300000; 400000]);
     create_listings_sheet := fun _ _ _ _ _ => Ok "https://sheet/abc";
     _get_user_credentials := fun _ _ => Ok tt;
     float64_mean := no_float |}.

(** The planner never stops asking for a tool. *)
Definition env_loop : Env :=
  {| time_time := ticking 1700000000 1;
     extract := fun _ _ => Ok austin;
     plan := fun _ _ => Ok {| content := [ToolUseBlock "t" "create_sheet" no_fields];
                              stop_reason := "tool_use" |};
     scrape_property := fun _ _ => Ok (frame []);
     create_listings_sheet := fun _ _ _ _ _ => Ok "https://sheet/abc";
     _get_user_credentials := fun _ _ => Ok tt;
     float64_mean := no_float |}.

(** The planner searches, exports and stops without a word. *)
Definition plan_silent (h : Trace) (_ : list Message) : Result Response :=
  match planner_calls h with
  | O => Ok {| content := [ToolUseBlock "t1" "search_listings" austin];
               stop_reason := "tool_use" |}
  | 1%nat => Ok {| content := [ToolUseBlock "t2" "create_sheet" no_fields];
               stop_reason := "tool_use" |}
  | _ => Ok {| content := []; stop_reason := "end_turn" |}
  end.

(** The user has not authorized the export yet. *)
Definition env_auth : Env :=
  {| time_time := ticking 1700000000 1;
     extract := fun _ _ => Ok austin;
     plan := plan_silent;
     scrape_property := fun _ _ => Ok (frame [500000; 300000; 400000]);
     create_listings_sheet := fun _ _ _ _ _ =>
       Raise {| auth_required := true;
                text := "Google authorization required for sheet creation." |};
     _get_user_credentials := fun _ _ =>
       Raise {| auth_required := true;
                text := "Google authorization required for sheet creation." |};
     float64_mean := no_float |}.

Definition earlier : list Message :=
  [ {| role := "user"; body := Text "3 bed house in Austin TX under 600k" |} ].

(** A process that holds a session for user [u]. *)
Definition with_session : World :=
  {| _last_search_time := 0 # 1;
     _sessions := {[ "u" := earlier ]};
     trace := [] |}.

(** The current criteria of a run: two bedrooms to rent. *)
Definition renting : SearchInput :=
  {| location := "San Diego, CA"; listing_type := "for_rent";
     min_price := None; max_price := None; min_beds := Some 2;
     max_beds := Some 2; min_sqft := None; max_sqft := None;
     property_type := None; past_days := 7 |}.

(** A tool input that supplies the location and nothing else. *)
Definition only_location : Fields :=
  {| d_location := Some "San Diego, CA"; d_listing_type := None;
     d_min_price := None; d_max_price := None; d_min_beds := None;
     d_max_beds := None; d_min_sqft := None; d_max_sqft := None;
     d_property_type := None; d_past_days := None |}.

End Script.

(* ------------------------------------------------------------------ *)
(** ** Vocabulary of the statements *)

(** [m] only appends to the trace, invokes the planner at most [n] times
    and leaves the session map alone. *)
Definition bounded {A} (n : nat) (m : M A) : Prop :=
  forall w, exists d,
    trace (snd (m w)) = trace w ++ d
    /\ _sessions (snd (m w)) = _sessions w
    /\ (planner_calls d <= n)%nat.

(** [m] returns without raising, only appends to the trace, does not
    invoke the planner and leaves the session map alone. *)
Definition quiet {A} (m : M A) : Prop :=
  forall w, exists a d,
    m w = (Ok a, {| _last_search_time := _last_search_time (snd (m w));
                    _sessions := _sessions w;
                    trace := trace w ++ d |})
    /\ planner_calls d = 0%nat.

(** The planner asks for tools whenever it is invoked. *)
Definition always_tool_use (env : Env) : Prop :=
  forall h msgs, exists response,
    plan env h msgs = Ok response /\ stop_reason response = "tool_use".

(** The stored result set is absent or empty. *)
Definition no_data (state : _RunState) : Prop :=
  match df state with
  | None => True
  | Some d => Pandas.empty d = true
  end.

(** The merge as the specification words it: an override where one is
    supplied, the run's current value where none is. *)
Definition merge_onto_current (overrides : Fields) (current : SearchInput)
  : SearchInput :=
  let or_current {A} (o : option A) (c : option A) : option A :=
    match o with Some v => Some v | None => c end in
  {| location := default (location current) (d_location overrides);
     listing_type := default (listing_type current) (d_listing_type overrides);
     min_price := or_current (d_min_price overrides) (min_price current);
     max_price := or_current (d_max_price overrides) (max_price current);
     min_beds := or_current (d_min_beds overrides) (min_beds current);
     max_beds := or_current (d_max_beds overrides) (max_beds current);
     min_sqft := or_current (d_min_sqft overrides) (min_sqft current);
     max_sqft := or_current (d_max_sqft overrides) (max_sqft current);
     property_type := or_current (d_property_type overrides) (property_type current);
     past_days := default (past_days current) (d_past_days overrides) |}.

(** The user has no stored turns: no entry, or an empty one. *)
Definition no_session (w : World) (uid : string) : Prop :=
  match _sessions w !! uid with
  | Some (_ :: _) => False
  | _ => True
  end.

(** The planner answers whenever it is invoked. *)
Definition planner_answers (env : Env) : Prop :=
  forall h msgs, exists response, plan env h msgs = Ok response.

Fixpoint tool_use_ids (bs : list Block) : list string :=
  match bs with
  | [] => []
  | ToolUseBlock id _ _ :: rest => id :: tool_use_ids rest
  | _ :: rest => tool_use_ids rest
  end.

(** [rs] holds one result for each tool call of [bs], in order, under the
    call's id. *)
Definition answers (bs : list Block) (rs : list ToolResult) : Prop :=
  map tool_use_id rs = tool_use_ids bs.

(** Every planner call in the stretch [d] of the trace returned, and the
    conversation [msgs] starts with the context the planner was given
    followed by the planner's turn and, when that turn asked for tools, by
    one turn with all their results. *)
Definition recorded (d : Trace) (msgs : list Message) : Prop :=
  forall ctx r, In (EvPlanner ctx r) d ->
    exists response,
      r = Ok response
      /\ (ctx ++ [assistant_turn response]) `prefix_of` msgs
      /\ (stop_reason response = "tool_use" ->
          exists rs,
            answers (content response) rs
            /\ (ctx ++ [assistant_turn response; user_turn (ToolResults rs)])
                 `prefix_of` msgs).

(** One planner turn of a run: the planner's answer and, when the loop
    ran the tools it asked for, their results. *)
Definition Turn : Type := Response * option (list ToolResult).

(** The messages a turn adds to the conversation. *)
Definition turn_messages (t : Turn) : list Message :=
  {| role := "assistant"; body := Blocks (content (fst t)) |}
  :: match snd t with
     | Some rs => [ {| role := "user"; body := ToolResults rs |} ]
     | None => []
     end.

Definition transcript (turns : list Turn) : list Message :=
  concat (map turn_messages turns).

(** The planner calls of a run that starts from the conversation [ctx]
    and goes through [turns]: each call is given the conversation so far. *)
Fixpoint calls (ctx : list Message) (turns : list Turn)
  : list (list Message * Result Response) :=
  match turns with
  | [] => []
  | t :: rest => (ctx, Ok (fst t)) :: calls (ctx ++ turn_messages t) rest
  end.

(** The planner calls of a stretch of the trace, in order. *)
Definition planner_events (d : Trace) : list (list Message * Result Response) :=
  omap (fun e => match e with EvPlanner ctx r => Some (ctx, r) | _ => None end) d.

Definition is_tool_use (b : Block) : bool :=
  match b with ToolUseBlock _ _ _ => true | _ => false end.

(** [rs] holds one result for each tool call of [bs], in order: the id of
    the call and the outcome the tool executor returned for its name and
    input. *)
Inductive results_of (env : Env) : list Block -> list ToolResult -> Prop :=
| results_nil : results_of env [] []
| results_tool id name input rest j rs state w state' w' :
    _execute_tool env name input state w = (Ok (j, state'), w') ->
    results_of env rest rs ->
    results_of env (ToolUseBlock id name input :: rest)
               ({| tool_use_id := id; result := j |} :: rs)
| results_skip b rest rs :
    is_tool_use b = false ->
    results_of env rest rs ->
    results_of env (b :: rest) rs.

(** A turn has tool results exactly when the planner stopped to use
    tools, and they are the results of the tools it asked for. *)
Definition turn_ok (env : Env) (t : Turn) : Prop :=
  match snd t with
  | Some rs => stop_reason (fst t) = "tool_use" /\ results_of env (content (fst t)) rs
  | None => stop_reason (fst t) <> "tool_use"
  end.

(** A turn without tool results is the last one. *)
Definition ends_at_answer (turns : list Turn) : Prop :=
  forall pre t post, turns = pre ++ t :: post -> snd t = None -> post = [].

(** The frame holds listings: when it has a row it has a column. *)
Definition holds_listings (p : DataFrame) : Prop :=
  rows p <> [] -> columns p <> [].

(** Every frame the scraper gives holds listings. *)
Definition scraper_frames (env : Env) : Prop :=
  forall h a p, scrape_property env h a = Ok p -> holds_listings p.


(* ------------------------------------------------------------------ *)
(** ** Further vocabulary *)

(** The property types HomeHarvest knows. *)
Definition homeharvest_types : list string :=
  [ "single_family"; "condos"; "townhomes"; "multi_family" ].

(** The step of [fromkeys]. *)
Definition add_key (acc : list string) (x : string) : list string :=
  if existsb (String.eqb x) acc then acc else acc ++ [x].

(** The cell is a number on the right side of the bound [b]: not below it
    ([ge]), or not above it. *)
Definition meets (b : option Z) (ge : bool) (c : Cell) : Prop :=
  exists z, c = CNum z /\ if ge then default 0 b <= z else z <= default 0 b.

(** The cell meets the bounds that are set. *)
Definition within (lo hi : option Z) (c : Cell) : Prop :=
  (truthy_int lo = true -> meets lo true c)
  /\ (truthy_int hi = true -> meets hi false c).

(** Every row of [d] has, in its column [v] when there is one, a cell that
    meets the bounds. *)
Definition column_within (v : string) (lo hi : option Z) (d : DataFrame) : Prop :=
  forall j r,
    Pandas.col_index v (columns d) = Some j -> In r (rows d) ->
    within lo hi (Pandas.cell_at j r).

(** The row [df[keys]] makes of a row, for the positions [idx] of the keys. *)
Definition project (idx : list nat) (r : list Cell) : list Cell :=
  map (fun i => Pandas.cell_at i r) idx.

(** The [try] block of the [create_sheet] branch once the export has
    returned or raised, and its two [except] blocks. *)
Definition settle_sheet (state : _RunState) (d : DataFrame) (made : Result string)
  : Json * _RunState :=
  match made with
  | Ok url =>
      (JObj [ ("status", JStr "success"); ("sheet_url", JStr url);
              ("num_rows", JInt (Z.of_nat (Pandas.len d))) ],
       set_sheet state url)
  | Raise e =>
      (JObj [ ("status", JStr (if auth_required e then "auth_required" else "error"));
              ("error", JStr (text e)) ],
       set_error state (text e))
  end.

(** The number of listings a stored frame stands for. *)
Definition stored_count (d : option DataFrame) : nat :=
  match d with
  | Some d => if Pandas.empty d then 0%nat else Pandas.len d
  | None => 0%nat
  end.

(** An export call is for user [uid] and for a frame that is not empty. *)
Definition sheet_call_ok (uid : string) (e : Event) : Prop :=
  match e with
  | EvSheet d _ _ u _ => u = uid /\ Pandas.empty d = false
  | _ => True
  end.

(** What holds of the run state of user [uid] after the effects [d] of the
    run so far. *)
Definition run_inv (uid : string) (state : _RunState) (d : Trace) : Prop :=
  user_id state = uid
  /\ is_Some (search state)
  /\ num_results state = stored_count (df state)
  /\ (sheet_url state = EmptyString
      \/ exists d0 loc ltype, In (EvSheet d0 loc ltype uid (Ok (sheet_url state))) d)
  /\ Forall (sheet_call_ok uid) d.

Module Cases.

(** The scraper finds three listings, one of them above 600000. *)
Definition env_mixed : Env :=
  {| time_time := Script.ticking 1700000000 1;
     extract := fun _ _ => Ok Script.austin;
     plan := Script.plan3 "Found 2 listings.";
     scrape_property := fun _ _ => Ok (Script.frame [500000; 700000; 300000]);
     create_listings_sheet := fun _ _ _ _ _ => Ok "https://sheet/abc";
     _get_user_credentials := fun _ _ => Ok tt;
     float64_mean := Script.no_float |}.

(** The scraper is down. *)
Definition env_down : Env :=
  {| time_time := Script.ticking 1700000000 1;
     extract := fun _ _ => Ok Script.austin;
     plan := Script.plan3 "Nothing found.";
     scrape_property := fun _ _ => Raise (Exception "403 Forbidden");
     create_listings_sheet := fun _ _ _ _ _ => Ok "https://sheet/abc";
     _get_user_credentials := fun _ _ => Ok tt;
     float64_mean := Script.no_float |}.

End Cases.

(** The six bounds of a search, each with the scraper's column it filters. *)
Definition bounds_of (s : SearchInput) : list (option Z * string) :=
  [ (min_price s, "list_price"); (max_price s, "list_price");
    (min_beds s, "beds"); (max_beds s, "beds");
    (min_sqft s, "sqft"); (max_sqft s, "sqft") ].

(** The values written to the process-wide timestamp, oldest first. *)
Fixpoint stamps (h : Trace) : list Q :=
  match h with
  | [] => []
  | EvStamp t :: rest => t :: stamps rest
  | _ :: rest => stamps rest
  end.

(** The clock gives positive readings and never goes back. *)
Definition clock_ok (env : Env) : Prop :=
  forall h,
    (0 < time_time env h)%Q
    /\ forall t, In (EvTime t) h -> (t <= time_time env h)%Q.

(** Two stamps at least the cooldown apart. *)
Definition apart (older newer : Q) : Prop :=
  (older + SEARCH_COOLDOWN_SECONDS <= newer)%Q.

(** The state of the rate gate: every stamp of the trace is at least the
    cooldown after all the stamps before it, the stamps are positive, none
    is later than the timestamp the process holds, and that timestamp, when
    it is set, is a reading of the clock that the trace has. *)
Definition gate_ok (w : World) : Prop :=
  StronglySorted apart (stamps (trace w))
  /\ Forall (fun a => (0 < a)%Q) (stamps (trace w))
  /\ Forall (fun a => (a <= _last_search_time w)%Q) (stamps (trace w))
  /\ ((_last_search_time w <= 0)%Q \/ In (EvTime (_last_search_time w)) (trace w)).

(** [m] keeps the state of the rate gate. *)
Definition keeps {A} (m : M A) : Prop :=
  forall w, gate_ok w -> gate_ok (snd (m w)).

(** The latest reading of the clock in a trace, and [floor] when no reading
    is above it. *)
Fixpoint latest (floor : Q) (h : Trace) : Q :=
  match h with
  | [] => floor
  | EvTime t :: rest => latest (if Qle_bool floor t then t else floor) rest
  | _ :: rest => latest floor rest
  end.

Module Clocks.

(** Every reading is three seconds after the latest one, the first at 4 s;
    the planner keeps asking for a search. *)
Definition env_steady : Env :=
  {| time_time := fun h => (latest (1 # 1) h + (3 # 1))%Q;
     extract := fun _ _ => Ok Script.austin;
     plan := fun _ _ =>
       Ok {| content := [ToolUseBlock "t" "search_listings" Script.austin];
             stop_reason := "tool_use" |};
     scrape_property := fun _ _ => Ok (Script.frame [500000; 300000; 400000]);
     create_listings_sheet := fun _ _ _ _ _ => Ok "https://sheet/abc";
     _get_user_credentials := fun _ _ => Ok tt;
     float64_mean := Script.no_float |}.

(** A process that has searched once, at 7 s. *)
Definition searched_once : World :=
  {| _last_search_time := 7 # 1;
     _sessions := ∅;
     trace := [ EvTime (4 # 1); EvTime (7 # 1); EvStamp (7 # 1);
                EvScrape (scrape_args Script.renting) (Ok (Script.frame [])) ] |}.

End Clocks.

(** The no-break space, U+00A0. *)
Definition nbsp : string :=
  String (ascii_of_nat 194) (String (ascii_of_nat 160) EmptyString).

(* ------------------------------------------------------------------ *)
(** ** uagent_bridge.py: the chat handler *)

(** What [handle_chat] sends to the sender: a [ChatAcknowledgement] of a
    message id, or a [ChatMessage] of one text. *)
Inductive Outgoing :=
| Ack (acknowledged_msg_id : string)
| Chat (said : string).

Definition help_text : string :=
  "Please send a search query, e.g. '3 bed house for sale in Austin TX under $400k'".

(** The reply text of [handle_chat] once the workflow has returned or
    raised. *)
Definition chat_text (ran : Result WorkflowResult) : string :=
  match ran with
  | Ok res =>
      if PyStr.truthy (wr_sheet_url res)
      then summary res +:+ PyStr.nl +:+ PyStr.nl +:+ "Results sheet: "
           +:+ wr_sheet_url res
      else if PyStr.truthy (summary res) then summary res
      else "No results found."
  | Raise exc => "Sorry, something went wrong: " +:+ text exc
  end.

Section Chatting.

Variable env : Env.

Local Open Scope m_scope.

(** Handle messages from ASI:One and other chat-protocol clients: the
    messages sent, in order, for the message [msg_id] whose text
    ([msg.text()]) is [body]. *)
Definition handle_chat (sender msg_id body : string) : M (list Outgoing) :=
  let query := PyStr.strip body in
  if negb (PyStr.truthy query) then ret [Ack msg_id; Chat help_text]
  else
    let user_id := sender in
    ran <- attempt (run_workflow env {| user_request := query;
                                        wi_user_id := user_id |}) ;;
    ret [Ack msg_id; Chat (chat_text ran)].

End Chatting.

(** [m] touches no session but that of [uid]. *)
Definition touches_only {A} (uid : string) (m : M A) : Prop :=
  forall w u, u <> uid -> _sessions (snd (m w)) !! u = _sessions w !! u.

Module Outages.

(** The planner is down. *)
Definition env_planner_down : Env :=
  {| time_time := Script.ticking 1700000000 1;
     extract := fun _ _ => Ok Script.austin;
     plan := fun _ _ => Raise (Exception "529 overloaded");
     scrape_property := fun _ _ => Ok (Script.frame [500000; 300000; 400000]);
     create_listings_sheet := fun _ _ _ _ _ => Ok "https://sheet/abc";
     _get_user_credentials := fun _ _ => Ok tt;
     float64_mean := Script.no_float |}.

End Outages.

(** The entry of a JSON object under a key. *)
Definition field (k : string) (j : Json) : option Json :=
  match j with JObj kv => assoc k kv | _ => None end.

Module Frames.

(** Three listings, as [fetch_listings] shapes them. *)
Definition three : DataFrame :=
  {| columns := ["Price ($)"; "City"];
     rows := [ [CNum 300000; CStr "Austin"]; [CNum 400000; CStr "Austin"];
               [CNum 500001; CStr "Austin"] ] |}.

End Frames.

(* ------------------------------------------------------------------ *)
(** ** sheets.py: the authorization message *)

(** A device flow as [_start_device_flow] writes it to the device store: a
    dictionary over six keys, a key the dictionary lacks being [None].  The
    codes and the URL are the strings Google's endpoint gives. *)
Record Flow := {
  device_code : option string;
  user_code : option string;
  verification_url : option string;
  expires_at : option Z;
  interval : option Z;
  expires_in : option Z
}.

(** [max(1, int((expires_at - int(time.time())) / 60))], for the two
    readings [t1] and [t2] of the clock, in seconds: the first is the
    default of [expires_at], the second is subtracted. *)
Definition minutes_left (flow : Flow) (t1 t2 : Z) : Z :=
  Z.max 1 (Z.quot (default t1 (expires_at flow) - t2) 60).

Definition _build_auth_required_message (flow : Flow) (t1 t2 : Z) : string :=
  "Google authorization required for sheet creation." +:+ PyStr.nl
  +:+ "1) Open: "
  +:+ default "https://www.google.com/device" (verification_url flow) +:+ PyStr.nl
  +:+ "2) Enter code: " +:+ default EmptyString (user_code flow) +:+ PyStr.nl
  +:+ "3) Approve Drive/Sheets access" +:+ PyStr.nl
  +:+ "4) Re-run the same search request" +:+ PyStr.nl
  +:+ "Code expires in about " +:+ pretty (minutes_left flow t1 t2)
  +:+ " minute(s).".

(** The two texts [_get_user_credentials] gives a
    [GoogleAuthRequiredError]: the message, alone or after the notice that
    the authorization was denied or has expired. *)
Definition auth_required_text (denied : bool) (flow : Flow) (t1 t2 : Z) : string :=
  if denied
  then "Google authorization was denied or expired." +:+ PyStr.nl
       +:+ _build_auth_required_message flow t1 t2
  else _build_auth_required_message flow t1 t2.

(* ------------------------------------------------------------------ *)
(** ** sheets.py: the credentials of a user *)

Module Sheets.

(** A JSON object once loaded: a token response, or the token information
    stored for a user. *)
Definition Dict : Type := list (string * Json).

(** Truth value of a loaded JSON value. *)
Definition truthy_json (j : Json) : bool :=
  match j with
  | JNull => false
  | JNaN => true
  | JInt z => negb (z =? 0)
  | JStr s => PyStr.truthy s
  | JArr l => match l with [] => false | _ => true end
  | JObj kv => match kv with [] => false | _ => true end
  end.

Definition truthy_dict (d : Dict) : bool :=
  match d with [] => false | _ => true end.

(** Truth value of a flow: the dictionary has a key. *)
Definition truthy_flow (f : Flow) : bool :=
  bool_decide (is_Some (device_code f)) || bool_decide (is_Some (user_code f))
  || bool_decide (is_Some (verification_url f)) || bool_decide (is_Some (expires_at f))
  || bool_decide (is_Some (interval f)) || bool_decide (is_Some (expires_in f)).

Definition SCOPES : list string :=
  [ "https://www.googleapis.com/auth/spreadsheets";
    "https://www.googleapis.com/auth/drive.file" ].

Definition TOKEN_ENDPOINT : string := "https://oauth2.googleapis.com/token".

(** The two JSON files: the token store and the device store, each a
    dictionary keyed by user id.  The files are taken to be readable and
    writable; every change of a dictionary is saved before anything else
    happens, so the files are the dictionaries. *)
Record Stores := {
  token_store : gmap string Dict;
  device_store : gmap string Flow
}.

Definition set_token (st : Stores) (uid : string) (info : Dict) : Stores :=
  {| token_store := <[uid := info]> (token_store st);
     device_store := device_store st |}.

Definition pop_token (st : Stores) (uid : string) : Stores :=
  {| token_store := delete uid (token_store st);
     device_store := device_store st |}.

Definition set_flow (st : Stores) (uid : string) (flow : Flow) : Stores :=
  {| token_store := token_store st;
     device_store := <[uid := flow]> (device_store st) |}.

Definition pop_flow (st : Stores) (uid : string) : Stores :=
  {| token_store := token_store st;
     device_store := delete uid (device_store st) |}.

(** What one call of [_get_user_credentials] gets from outside: the OAuth
    client configuration, google-auth's [Credentials] (built from a token
    information, read, refreshed and dumped), the two HTTP calls, [str] on
    a JSON value, and the readings of the clock: [now] is line 181, [t1]
    and [t2] are the two readings of [_build_auth_required_message]. *)
Record Google (Creds : Type) := {
  _load_oauth_client_credentials : Result (string * string);
  from_authorized_user_info : Dict -> Result Creds;
  valid : Creds -> bool;
  expired : Creds -> bool;
  has_refresh_token : Creds -> bool;
  refresh : Creds -> Result Creds;
  to_json : Creds -> Dict;
  _start_device_flow : string -> Result Flow;
  _poll_device_flow : string -> string -> string -> Result Dict;
  str : Json -> string;
  now : Z;
  t1 : Z;
  t2 : Z
}.

Arguments _load_oauth_client_credentials {Creds}.
Arguments from_authorized_user_info {Creds}.
Arguments valid {Creds}.
Arguments expired {Creds}.
Arguments has_refresh_token {Creds}.
Arguments refresh {Creds}.
Arguments to_json {Creds}.
Arguments _start_device_flow {Creds}.
Arguments _poll_device_flow {Creds}.
Arguments str {Creds}.
Arguments now {Creds}.
Arguments t1 {Creds}.
Arguments t2 {Creds}.

Definition GoogleAuthRequiredError (msg : string) : Exn :=
  {| auth_required := true; text := msg |}.

Definition _credential_info_from_token_response (token_response : Dict)
  (client_id client_secret : string) (previous_refresh_token : Json) : Dict :=
  let refresh_token :=
    match assoc "refresh_token" token_response with
    | Some j => if truthy_json j then j else previous_refresh_token
    | None => previous_refresh_token
    end in
  [ ("token", default (JStr EmptyString) (assoc "access_token" token_response));
    ("refresh_token", refresh_token);
    ("token_uri", JStr TOKEN_ENDPOINT);
    ("client_id", JStr client_id);
    ("client_secret", JStr client_secret);
    ("scopes", JArr (map JStr SCOPES)) ].

(** [error in {...}] for a set of strings: a list or an object cannot be
    hashed. *)
Definition unhashable (j : Json) : option string :=
  match j with
  | JArr _ => Some "list"
  | JObj _ => Some "dict"
  | _ => None
  end.

Definition is_str (j : Json) (s : string) : bool :=
  match j with JStr x => String.eqb x s | _ => false end.

(** [flow["interval"] = int(flow.get("interval", 5)) + 5]. *)
Definition slowed (flow : Flow) : Flow :=
  {| device_code := device_code flow; user_code := user_code flow;
     verification_url := verification_url flow;
     expires_at := expires_at flow;
     interval := Some (default 5 (interval flow) + 5);
     expires_in := expires_in flow |}.

(** The entries of every user but [uid] are in [st'] what they are in
    [st]. *)
Definition others_kept (uid : string) (st st' : Stores) : Prop :=
  forall u, u <> uid ->
    token_store st' !! u = token_store st !! u
    /\ device_store st' !! u = device_store st !! u.

Section Credentials.

Context {Creds : Type}.
Variable g : Google Creds.

(** [if not creds.valid and creds.expired and creds.refresh_token:] refresh
    the credentials and store them (lines 170 to 173, and 234 to 237). *)
Definition refresh_if_expired (user_id : string) (creds : Creds) (st : Stores)
  : Result Creds * Stores :=
  if negb (valid g creds) && expired g creds && has_refresh_token g creds then
    match refresh g creds with
    | Ok creds => (Ok creds, set_token st user_id (to_json g creds))
    | Raise e => (Raise e, st)
    end
  else (Ok creds, st).

(** Lines 168 to 177: the saved token.  [Ok (Some creds)] is the return of
    line 175, [Ok None] goes on to the device flow. *)
Definition saved_credentials (user_id : string) (st : Stores)
  : Result (option Creds) * Stores :=
  match token_store st !! user_id with
  | Some saved_token_info =>
      if truthy_dict saved_token_info then
        match from_authorized_user_info g saved_token_info with
        | Raise e => (Raise e, st)
        | Ok creds =>
            match refresh_if_expired user_id creds st with
            | (Raise e, st) => (Raise e, st)
            | (Ok creds, st) =>
                if valid g creds then (Ok (Some creds), st)
                else (Ok None, pop_token st user_id)
            end
        end
      else (Ok None, st)
  | None => (Ok None, st)
  end.

(** Lines 179 to 186: the flow of the user, dropped when it has expired. *)
Definition stored_flow (user_id : string) (st : Stores) : option Flow * Stores :=
  match device_store st !! user_id with
  | Some flow =>
      if truthy_flow flow && (default 0 (expires_at flow) <=? now g)
      then (None, pop_flow st user_id)
      else (Some flow, st)
  | None => (None, st)
  end.

(** Start a flow, store it and ask for the authorization (lines 189 to
    192, and 207 to 213 after a denial). *)
Definition ask (denied : bool) (user_id client_id : string) (st : Stores)
  : Result Creds * Stores :=
  match _start_device_flow g client_id with
  | Raise e => (Raise e, st)
  | Ok flow =>
      (Raise (GoogleAuthRequiredError
                (auth_required_text denied flow (t1 g) (t2 g))),
       set_flow st user_id flow)
  end.

(** Lines 196 to 216: the token endpoint answered with an error. *)
Definition refused (error : Json) (token_response : Dict) (flow : Flow)
  (user_id client_id : string) (st : Stores) : Result Creds * Stores :=
  match unhashable error with
  | Some type => (Raise (Exception ("unhashable type: '" +:+ type +:+ "'")), st)
  | None =>
      if is_str error "authorization_pending" || is_str error "slow_down" then
        if is_str error "slow_down" then
          let flow := slowed flow in
          (Raise (GoogleAuthRequiredError
                    (auth_required_text false flow (t1 g) (t2 g))),
           set_flow st user_id flow)
        else
          (Raise (GoogleAuthRequiredError
                    (auth_required_text false flow (t1 g) (t2 g))), st)
      else if is_str error "access_denied" || is_str error "expired_token"
              || is_str error "invalid_grant" then
        ask true user_id client_id (pop_flow st user_id)
      else
        let description :=
          default (JStr EmptyString) (assoc "error_description" token_response) in
        (Raise (Exception ("Google OAuth token exchange failed: "
                           +:+ str g error +:+ " " +:+ str g description)), st)
  end.

(** Lines 218 to 241: the token endpoint answered with a token. *)
Definition granted (saved_token_info : option Dict) (token_response : Dict)
  (user_id client_id client_secret : string) (st : Stores)
  : Result Creds * Stores :=
  let previous_refresh_token :=
    match saved_token_info with
    | Some info =>
        if truthy_dict info
        then default (JStr EmptyString) (assoc "refresh_token" info)
        else JStr EmptyString
    | None => JStr EmptyString
    end in
  let info := _credential_info_from_token_response
                token_response client_id client_secret previous_refresh_token in
  let st := pop_flow (set_token st user_id info) user_id in
  match from_authorized_user_info g info with
  | Raise e => (Raise e, st)
  | Ok creds =>
      match refresh_if_expired user_id creds st with
      | (Raise e, st) => (Raise e, st)
      | (Ok creds, st) =>
          if valid g creds then (Ok creds, st)
          else (Raise (Exception "Google OAuth completed but credentials are invalid."),
                st)
      end
  end.

Definition _get_user_credentials (user_id : string) (st : Stores)
  : Result Creds * Stores :=
  match _load_oauth_client_credentials g with
  | Raise e => (Raise e, st)
  | Ok (client_id, client_secret) =>
      let saved_token_info := token_store st !! user_id in
      match saved_credentials user_id st with
      | (Raise e, st) => (Raise e, st)
      | (Ok (Some creds), st) => (Ok creds, st)
      | (Ok None, st) =>
          match stored_flow user_id st with
          | (Some flow, st) =>
              if negb (truthy_flow flow) then ask false user_id client_id st
              else
                match device_code flow with
                | None => (Raise (Pandas.KeyError "device_code"), st)
                | Some code =>
                    match _poll_device_flow g client_id client_secret code with
                    | Raise e => (Raise e, st)
                    | Ok token_response =>
                        match assoc "error" token_response with
                        | Some error =>
                            if truthy_json error
                            then refused error token_response flow user_id client_id st
                            else granted saved_token_info token_response
                                         user_id client_id client_secret st
                        | None => granted saved_token_info token_response
                                          user_id client_id client_secret st
                        end
                    end
                end
          | (None, st) => ask false user_id client_id st
          end
      end
  end.

(** Return either connected status or auth steps for this user. *)
Definition get_google_auth_message (user_id : string) (st : Stores)
  : Result string * Stores :=
  match _get_user_credentials user_id st with
  | (Ok _, st) => (Ok "Google is already connected for this user.", st)
  | (Raise exc, st) =>
      if auth_required exc then (Ok (text exc), st) else (Raise exc, st)
  end.

(** The error [e] asks user [uid] to authorize a flow that is stored for
    them in [st']: one Google has just handed out, or the one they had in
    [st], which has not expired. *)
Definition asks_for (uid : string) (st : Stores) (e : Exn) (st' : Stores) : Prop :=
  exists denied flow,
    device_store st' !! uid = Some flow
    /\ text e = auth_required_text denied flow (t1 g) (t2 g)
    /\ ((exists client_id, _start_device_flow g client_id = Ok flow)
        \/ (denied = false
            /\ exists old,
                 device_store st !! uid = Some old
                 /\ now g < default 0 (expires_at old)
                 /\ (flow = old \/ flow = slowed old))).

(** No call to the outside raises a [GoogleAuthRequiredError]: the class
    is the module's own. *)
Definition foreign_errors : Prop :=
  (forall e, _load_oauth_client_credentials g = Raise e -> auth_required e = false)
  /\ (forall info e, from_authorized_user_info g info = Raise e -> auth_required e = false)
  /\ (forall creds e, refresh g creds = Raise e -> auth_required e = false)
  /\ (forall client_id e, _start_device_flow g client_id = Raise e -> auth_required e = false)
  /\ (forall client_id client_secret code e,
        _poll_device_flow g client_id client_secret code = Raise e ->
        auth_required e = false).

End Credentials.

(** A first call for a user nobody knows: Google hands out a device code. *)
Definition first_call : Google bool :=
  {| _load_oauth_client_credentials := Ok ("client-1", "secret-1");
     from_authorized_user_info := fun _ => Ok true;
     valid := fun c => c;
     expired := fun c => negb c;
     has_refresh_token := fun _ => true;
     refresh := fun _ => Ok true;
     to_json := fun _ => [ ("token", JStr "ya29") ];
     _start_device_flow := fun _ =>
       Ok {| device_code := Some "dev-1"; user_code := Some "ABCD-EFGH";
             verification_url := Some "https://www.google.com/device";
             expires_at := Some 1700000900; interval := Some 5;
             expires_in := Some 900 |};
     _poll_device_flow := fun _ _ _ => Ok [ ("error", JStr "authorization_pending") ];
     str := fun _ => EmptyString;
     now := 1700000000;
     t1 := 1700000000;
     t2 := 1700000000 |}.

(** The stores hold a token of user [ann] and nothing else. *)
Definition one_user : Stores :=
  {| token_store := {[ "ann" := [ ("token", JStr "ya29") ] ]};
     device_store := ∅ |}.

End Sheets.

(* ------------------------------------------------------------------ *)
(** ** The calls of the scraper *)

(** In [h] every call of the scraper comes right after a stamp, and every
    stamp is followed at once by a call of the scraper; [armed] tells that
    the event before [h] was a stamp. *)
Fixpoint paired_from (armed : bool) (h : Trace) : bool :=
  match h with
  | [] => negb armed
  | EvStamp _ :: rest => negb armed && paired_from true rest
  | EvScrape _ _ :: rest => armed && paired_from false rest
  | _ :: rest => negb armed && paired_from false rest
  end.

Definition paired (h : Trace) : bool := paired_from false h.

(** [m] only appends to the trace, and calls the scraper only right after
    a stamp of its own. *)
Definition gated {A} (m : M A) : Prop :=
  forall w, exists d, trace (snd (m w)) = trace w ++ d /\ paired d = true.

(* ------------------------------------------------------------------ *)
(** ** Frames: sorting and truncation *)

Module PandasFacts.
Import Pandas.

Lemma cell_le_total a b : cell_le a b = true \/ cell_le b a = true.
Proof.
  destruct a as [x|x|], b as [y|y|]; simpl; auto.
  - destruct (Z.leb_spec x y); auto. right. apply Z.leb_le. lia.
  - apply String.leb_total.
Qed.

Lemma string_leb_iff a b :
  String.leb a b = true <-> a = b \/ OrderedTypeEx.String_as_OT.lt a b.
Proof.
  unfold String.leb.
  rewrite <- OrderedTypeEx.String_as_OT.cmp_eq, <- OrderedTypeEx.String_as_OT.cmp_lt.
  unfold OrderedTypeEx.String_as_OT.cmp.
  destruct (String.compare a b); split; intros H; auto; try discriminate;
    destruct H; discriminate.
Qed.

Lemma string_leb_trans a b c :
  String.leb a b = true -> String.leb b c = true -> String.leb a c = true.
Proof.
  rewrite !string_leb_iff. intros [->|Hab] [->|Hbc]; auto.
  right. eapply OrderedTypeEx.String_as_OT.lt_trans; eassumption.
Qed.

Lemma cell_le_trans a b c :
  cell_le a b = true -> cell_le b c = true -> cell_le a c = true.
Proof.
  destruct a as [x|x|], b as [y|y|], c as [z|z|]; simpl; try congruence.
  - rewrite !Z.leb_le. lia.
  - apply string_leb_trans.
Qed.

Lemma key_le_trans i : Transitive (key_le i).
Proof. intros a b c. apply cell_le_trans. Qed.

Lemma insert_row_hd i r a l :
  key_le i a r -> HdRel (key_le i) a l -> HdRel (key_le i) a (insert_row i r l).
Proof.
  intros Har Hl. destruct l as [|x t]; simpl.
  - constructor. exact Har.
  - inversion Hl; subst. destruct (cell_le (cell_at i x) (cell_at i r));
      constructor; assumption.
Qed.

Lemma insert_row_sorted i r l :
  Sorted (key_le i) l -> Sorted (key_le i) (insert_row i r l).
Proof.
  induction 1 as [|x t Ht IH Hhd]; simpl.
  - repeat constructor.
  - destruct (cell_le (cell_at i x) (cell_at i r)) eqn:E.
    + constructor; [exact IH|]. apply insert_row_hd; assumption.
    + constructor; [constructor; assumption|]. constructor.
      destruct (cell_le_total (cell_at i x) (cell_at i r)) as [H|H];
        [congruence | exact H].
Qed.

Lemma sort_rows_sorted i l : Sorted (key_le i) (sort_rows i l).
Proof.
  induction l as [|r l IH]; simpl; [constructor|].
  apply insert_row_sorted, IH.
Qed.

Lemma firstn_sorted {A} (R : A -> A -> Prop) n l :
  Sorted R l -> Sorted R (firstn n l).
Proof.
  revert l. induction n as [|n IH]; intros l Hs; simpl; [constructor|].
  destruct l as [|x t]; [constructor|].
  inversion Hs as [|? ? Ht Hhd]; subst. constructor; [apply IH, Ht|].
  destruct n; simpl; [constructor|].
  destruct t; [constructor|]. inversion Hhd; subst. constructor. assumption.
Qed.

Lemma has_column_false c d :
  has_column c d = false -> col_index c (columns d) = None.
Proof.
  unfold has_column. rewrite bool_decide_eq_false.
  destruct (col_index c (columns d)); [intros []; eauto | reflexivity].
Qed.

Lemma sort_values_sorted c d d' :
  sort_values c d = Ok d' -> sorted_by c d' /\ columns d' = columns d.
Proof.
  unfold sort_values. destruct (col_index c (columns d)) as [i|] eqn:Ei; [|discriminate].
  destruct (_ && _); [discriminate|]. intros [= <-]. split; [|reflexivity].
  intros j Hj. simpl in *. rewrite Ei in Hj. injection Hj as <-.
  apply Sorted_StronglySorted; [apply key_le_trans | apply sort_rows_sorted].
Qed.

Lemma head_sorted c n d : sorted_by c d -> sorted_by c (head n d).
Proof.
  intros Hs i Hi. simpl in *.
  apply Sorted_StronglySorted; [apply key_le_trans|].
  apply firstn_sorted, StronglySorted_Sorted, Hs, Hi.
Qed.

Lemma head_len n d : (len (head n d) <= n)%nat.
Proof. unfold len, head. simpl. rewrite length_firstn. lia. Qed.

End PandasFacts.

(** Whatever the bounds and whatever the frame, a frame that comes out of
    the shaping steps has at most 20 rows, in ascending order of price when
    it has a price column. *)
Lemma shape_listings_spec s properties d :
  shape_listings s properties = Ok d ->
  (Pandas.len d <= 20)%nat /\ Pandas.sorted_by "Price ($)" d.
Proof.
  unfold shape_listings.
  repeat match goal with
         | |- rbind (apply_bound ?b ?g ?c ?p) _ = _ -> _ =>
             destruct (apply_bound b g c p) as [?p|?e]; cbn [rbind]; [|discriminate]
         end.
  match goal with
  | |- context [Pandas.select_rename ?a ?b] => set (res := Pandas.select_rename a b)
  end.
  destruct (Pandas.has_column "Price ($)" res) eqn:Hc; cbn [rbind].
  - destruct (Pandas.sort_values "Price ($)" res) as [r|e] eqn:Es; cbn [rbind]; [|discriminate].
    intros [= <-]. split; [apply PandasFacts.head_len|].
    apply PandasFacts.head_sorted. eapply PandasFacts.sort_values_sorted, Es.
  - intros [= <-]. split; [apply PandasFacts.head_len|].
    intros i Hi. change (columns (Pandas.head 20 res)) with (columns res) in Hi.
    rewrite (PandasFacts.has_column_false _ _ Hc) in Hi. discriminate.
Qed.

(* ------------------------------------------------------------------ *)
(** ** Running the effects *)

Lemma Qlt_bool_true x y : Qlt_bool x y = true <-> (x < y)%Q.
Proof.
  unfold Qlt_bool. rewrite negb_true_iff, <- not_true_iff_false, Qle_bool_iff.
  split; [apply Qnot_le_lt | apply Qlt_not_le].
Qed.

Lemma Qlt_bool_false x y : Qlt_bool x y = false <-> (y <= x)%Q.
Proof.
  unfold Qlt_bool. rewrite negb_false_iff. apply Qle_bool_iff.
Qed.

Section Runs.

Variable env : Env.

Lemma now_run w :
  now env w = (Ok (time_time env (trace w)), extend w [EvTime (time_time env (trace w))]).
Proof. reflexivity. Qed.

Lemma call_scrape_run a w :
  call_scrape env a w =
    (scrape_property env (trace w) a,
     extend w [EvScrape a (scrape_property env (trace w) a)]).
Proof. reflexivity. Qed.

Lemma call_planner_run msgs w :
  call_planner env msgs w =
    (plan env (trace w) msgs, extend w [EvPlanner msgs (plan env (trace w) msgs)]).
Proof. reflexivity. Qed.

Lemma call_extract_run request w :
  call_extract env request w =
    (extract env (trace w) request,
     extend w [EvExtract request (extract env (trace w) request)]).
Proof. reflexivity. Qed.

Lemma call_sheet_run d loc ltype uid w :
  call_sheet env d loc ltype uid w =
    (create_listings_sheet env (trace w) d loc ltype uid,
     extend w [EvSheet d loc ltype uid (create_listings_sheet env (trace w) d loc ltype uid)]).
Proof. reflexivity. Qed.

Lemma fetch_listings_run s w :
  let r := scrape_property env (trace w) (scrape_args s) in
  fetch_listings env s w = (fetched s r, extend w [EvScrape (scrape_args s) r]).
Proof.
  intros r. unfold fetch_listings, bind. rewrite call_scrape_run. fold r.
  destruct r as [p|e]; cbn [fetched rbind]; [|reflexivity].
  destruct (Pandas.empty p); reflexivity.
Qed.

Lemma search_listings_closed tool_input state w :
  let t := time_time env (trace w) in
  gate_closed t (_last_search_time w) = true ->
  search_listings env tool_input state w =
    (Ok (rate_limited
           (round_tenths (Qminus SEARCH_COOLDOWN_SECONDS (Qminus t (_last_search_time w)))),
         state),
     extend w [EvTime t]).
Proof.
  intros t Hg. unfold search_listings, bind. rewrite now_run. fold t.
  unfold get_last_search_time. cbn [extend _last_search_time].
  rewrite Hg. reflexivity.
Qed.

Lemma search_listings_open tool_input state w :
  let t := time_time env (trace w) in
  let t' := time_time env (trace w ++ [EvTime t]) in
  let s := build_search tool_input state in
  let r := scrape_property env (trace w ++ [EvTime t; EvTime t'; EvStamp t'])
                           (scrape_args s) in
  gate_closed t (_last_search_time w) = false ->
  search_listings env tool_input state w =
    (Ok (settle_search env s (set_search state s) (fetched s r)),
     {| _last_search_time := t';
        _sessions := _sessions w;
        trace := trace w ++ [EvTime t; EvTime t'; EvStamp t'; EvScrape (scrape_args s) r] |}).
Proof.
  intros t t' s r Hg. unfold search_listings, bind. rewrite now_run. fold t.
  unfold get_last_search_time. cbn [extend _last_search_time].
  rewrite Hg. rewrite now_run.
  cbn [extend trace _last_search_time _sessions]. fold t'.
  unfold set_last_search_time, attempt.
  cbn [trace _last_search_time _sessions]. rewrite fetch_listings_run.
  unfold ret, extend. cbn [trace _last_search_time _sessions].
  rewrite <- !app_assoc. reflexivity.
Qed.

End Runs.

(* ------------------------------------------------------------------ *)
(** ** The rate gate *)

Lemma gate_closed_true t last :
  gate_closed t last = true <->
  (0 < last)%Q /\ (t - last < SEARCH_COOLDOWN_SECONDS)%Q.
Proof.
  unfold gate_closed. rewrite andb_true_iff, !Qlt_bool_true. reflexivity.
Qed.

Lemma gate_closed_false t last :
  gate_closed t last = false <->
  (last <= 0)%Q \/ (SEARCH_COOLDOWN_SECONDS <= t - last)%Q.
Proof.
  unfold gate_closed. rewrite andb_false_iff, !Qlt_bool_false. reflexivity.
Qed.

Lemma success_json_status env s d j :
  success_json env s d = Ok j -> status j = Some "success".
Proof.
  unfold success_json.
  destruct (price_stat _ d); cbn [rbind]; [|discriminate].
  destruct (price_stat _ d); cbn [rbind]; [|discriminate].
  destruct (price_stat _ d); cbn [rbind]; [|discriminate].
  intros [= <-]. reflexivity.
Qed.

(** A search that went past the gate ends in one of three statuses. *)
Lemma settle_search_status env s state f :
  let st := status (fst (settle_search env s state f)) in
  st = Some "no_results" \/ st = Some "success" \/ st = Some "error".
Proof.
  unfold settle_search. destruct f as [d|e]; [|auto].
  destruct (Pandas.empty d); [auto|].
  destruct (success_json env s d) as [j|e] eqn:E; [|auto].
  right; left. apply (success_json_status _ _ _ _ E).
Qed.

Lemma settle_search_not_limited env s state f :
  status (fst (settle_search env s state f)) <> Some "rate_limited".
Proof.
  destruct (settle_search_status env s state f) as [H|[H|H]]; rewrite H; discriminate.
Qed.

Lemma _execute_tool_search env tool_input state w :
  _execute_tool env "search_listings" tool_input state w
  = search_listings env tool_input state w.
Proof. reflexivity. Qed.

Lemma _execute_tool_sheet env tool_input state w :
  _execute_tool env "create_sheet" tool_input state w = create_sheet env state w.
Proof. reflexivity. Qed.

(** [round_tenths x] is a tenth nearest to [x]. *)
Lemma round_tenths_near x :
  (x - (1 # 20) <= round_tenths x # 10)%Q /\ (round_tenths x # 10 <= x + (1 # 20))%Q.
Proof.
  destruct x as [n d]. unfold round_tenths. cbn [Qnum Qden].
  set (N := n * 10). set (D := Z.pos d).
  assert (HD : 0 < D) by (subst D; lia).
  pose proof (Z.div_mod N D ltac:(lia)) as Hdm.
  pose proof (Z.mod_pos_bound N D HD) as Hm.
  assert (Hk : forall k, 2 * (N - k * D) <= D -> 2 * (k * D - N) <= D ->
    ((n # d) - (1 # 20) <= k # 10)%Q /\ (k # 10 <= (n # d) + (1 # 20))%Q).
  { intros k H1 H2. unfold Qle, Qminus, Qplus, Qopp. cbn [Qnum Qden].
    rewrite !Pos2Z.inj_mul. fold D. subst N. split; nia. }
  destruct (Z.compare_spec (2 * (N mod D)) D) as [He|Hl|Hg];
    [destruct (Z.even (N / D))|..]; apply Hk; nia.
Qed.

Lemma round_tenths_nonneg x : (0 <= x)%Q -> 0 <= round_tenths x.
Proof.
  destruct x as [n d]. unfold Qle, round_tenths. cbn [Qnum Qden]. intros H0.
  assert (Hq : 0 <= n * 10 / Z.pos d) by (apply Z.div_pos; lia).
  destruct (_ ?= _); [destruct (Z.even _)|..]; lia.
Qed.

(** C1. A [search_listings] call that begins less than the cooldown of 8
    seconds after the process-wide timestamp was set answers
    [rate_limited] with the time left to wait: the outcome holds the status
    and the message [Please wait W s before searching again.], where W is
    the time left, rounded to a tenth of a second and never negative.  The
    call only reads the clock: the run state, the timestamp and the session
    map are as they were and the trace has no call to the scraper.  A call that
    begins at least the cooldown after the timestamp (or before any search
    has set it) proceeds: it writes the timestamp, and the trace has the
    write before the call to the scraper.  For two calls in a row, the first
    of which proceeded at a positive clock reading: the second is limited
    when it begins less than 8 seconds after the stamp of the first, and
    proceeds as well when it begins at least 8 seconds after it. *)
Theorem rate_gate (env : Env) (tool_input : Fields) (state : _RunState) (w : World) :
  let t := time_time env (trace w) in
  let last := _last_search_time w in
  let call := _execute_tool env "search_listings" tool_input state w in
  let t' := time_time env (trace w ++ [EvTime t]) in
  let a := scrape_args (build_search tool_input state) in
  let r := scrape_property env (trace w ++ [EvTime t; EvTime t'; EvStamp t']) a in
  ((0 < last)%Q -> (t - last < SEARCH_COOLDOWN_SECONDS)%Q ->
     let left := (SEARCH_COOLDOWN_SECONDS - (t - last))%Q in
     let wait := round_tenths left in
     call = (Ok (JObj [ ("status", JStr "rate_limited");
                        ("message",
                         JStr ("Please wait "
                               +:+ (pretty (wait / 10) +:+ "." +:+ pretty (wait mod 10))
                               +:+ "s before searching again.")) ],
                 state),
             extend w [EvTime t])
     /\ 0 <= wait
     /\ (left - (1 # 20) <= wait # 10)%Q /\ (wait # 10 <= left + (1 # 20))%Q)
  /\
  ((SEARCH_COOLDOWN_SECONDS <= t - last)%Q \/ (last <= 0)%Q ->
     exists j state',
       call = (Ok (j, state'),
               {| _last_search_time := t';
                  _sessions := _sessions w;
                  trace := trace w ++ [EvTime t; EvTime t'; EvStamp t'; EvScrape a r] |})
       /\ status j <> Some "rate_limited"
       /\ ((0 < t')%Q ->
           forall tool_input2 state2,
             let w1 := {| _last_search_time := t';
                          _sessions := _sessions w;
                          trace := trace w ++ [EvTime t; EvTime t'; EvStamp t'; EvScrape a r] |} in
             let t2 := time_time env (trace w1) in
             let call2 := _execute_tool env "search_listings" tool_input2 state2 w1 in
             ((t2 - t' < SEARCH_COOLDOWN_SECONDS)%Q ->
                call2 = (Ok (rate_limited (round_tenths (SEARCH_COOLDOWN_SECONDS - (t2 - t'))),
                             state2),
                         extend w1 [EvTime t2]))
             /\
             ((SEARCH_COOLDOWN_SECONDS <= t2 - t')%Q ->
                exists j2 state2' w2,
                  call2 = (Ok (j2, state2'), w2)
                  /\ status j2 <> Some "rate_limited"
                  /\ _last_search_time w2 = time_time env (trace w1 ++ [EvTime t2])))).
Proof.
  intros t last call t' a r. subst call. rewrite _execute_tool_search. split.
  - intros Hset Hsoon left wait. split; [|split].
    + rewrite (search_listings_closed env tool_input state w); [reflexivity|].
      apply gate_closed_true. split; assumption.
    + apply round_tenths_nonneg. subst left. unfold SEARCH_COOLDOWN_SECONDS in *. lra.
    + apply round_tenths_near.
  - intros Hopen.
    assert (Hg : gate_closed t last = false)
      by (apply gate_closed_false; destruct Hopen; [right|left]; assumption).
    rewrite (search_listings_open env tool_input state w Hg).
    match goal with
    | |- context [Ok (settle_search ?e ?s ?st ?f)] =>
        exists (fst (settle_search e s st f)), (snd (settle_search e s st f))
    end.
    rewrite <- surjective_pairing.
    split; [reflexivity|]. split; [apply settle_search_not_limited|].
    intros Hpos tool_input2 state2 w1 t2 call2. subst call2.
    rewrite _execute_tool_search. split.
    + intros Hsoon. apply (search_listings_closed env tool_input2 state2 w1).
      apply gate_closed_true. split; assumption.
    + intros Hlate.
      assert (Hg2 : gate_closed t2 (_last_search_time w1) = false)
        by (apply gate_closed_false; right; assumption).
      rewrite (search_listings_open env tool_input2 state2 w1 Hg2).
      match goal with
      | |- context [Ok (settle_search ?e ?s ?st ?f)] =>
          exists (fst (settle_search e s st f)), (snd (settle_search e s st f))
      end.
      rewrite <- surjective_pairing. eexists. split; [reflexivity|].
      split; [apply settle_search_not_limited | reflexivity].
Qed.

(* ------------------------------------------------------------------ *)
(** ** The export guard *)

(** C2. When the run state holds no result set, or an empty one,
    [create_sheet] answers with status [error]; the world is as it was, so
    the export was not called, and the run state, [sheet_url] included, is
    as it was. *)
Theorem create_sheet_needs_data (env : Env) (tool_input : Fields)
  (state : _RunState) (w : World) :
  no_data state ->
  _execute_tool env "create_sheet" tool_input state w = (Ok (no_data_json, state), w)
  /\ status no_data_json = Some "error".
Proof.
  intros Hno. split; [|reflexivity].
  rewrite _execute_tool_sheet. unfold create_sheet, no_data in *.
  destruct (df state) as [d|]; [|reflexivity]. rewrite Hno. reflexivity.
Qed.

(* ------------------------------------------------------------------ *)
(** ** Counting planner calls *)

Lemma planner_calls_app a b :
  planner_calls (a ++ b) = (planner_calls a + planner_calls b)%nat.
Proof. unfold planner_calls. by rewrite List.filter_app, length_app. Qed.

Lemma bounded_ret {A} (a : A) : bounded 0 (ret a).
Proof. intros w. exists []. simpl. by rewrite app_nil_r. Qed.

Lemma bounded_bind {A B} n k (m : M A) (f : A -> M B) :
  bounded n m -> (forall a, bounded k (f a)) -> bounded (n + k) (bind m f).
Proof.
  intros Hm Hf w. unfold bind. destruct (Hm w) as (d1 & Ht & Hs & Hn).
  destruct (m w) as [[a|e] w1]; simpl in *.
  - destruct (Hf a w1) as (d2 & Ht2 & Hs2 & Hn2). exists (d1 ++ d2).
    rewrite Ht2, Hs2, Ht, Hs, planner_calls_app, app_assoc. repeat split; lia.
  - exists d1. repeat split; try assumption. lia.
Qed.

Lemma bounded_le {A} n k (m : M A) : (n <= k)%nat -> bounded n m -> bounded k m.
Proof.
  intros Hle Hm w. destruct (Hm w) as (d & ? & ? & ?). exists d.
  repeat split; try assumption. lia.
Qed.

Lemma quiet_ret {A} (a : A) : quiet (ret a).
Proof.
  intros [l ss h]. exists a, []. unfold ret. simpl. by rewrite app_nil_r.
Qed.

Lemma quiet_bind {A B} (m : M A) (f : A -> M B) :
  quiet m -> (forall a, quiet (f a)) -> quiet (bind m f).
Proof.
  intros Hm Hf w. unfold bind. destruct (Hm w) as (a & d1 & E1 & Hn1).
  rewrite E1. set (w1 := {| _last_search_time := _; _sessions := _; trace := _ |}).
  destruct (Hf a w1) as (b & d2 & E2 & Hn2). exists b, (d1 ++ d2).
  rewrite E2. subst w1. cbn [trace _sessions snd]. rewrite planner_calls_app, Hn1, Hn2.
  rewrite app_assoc. split; reflexivity.
Qed.

Lemma quiet_bounded {A} (m : M A) : quiet m -> bounded 0 m.
Proof.
  intros Hm w. destruct (Hm w) as (a & d & E & Hn). exists d. rewrite E. simpl.
  repeat split. lia.
Qed.

Section Bounds.

Variable env : Env.

Lemma quiet_search_listings tool_input state :
  quiet (search_listings env tool_input state).
Proof.
  intros w.
  destruct (gate_closed (time_time env (trace w)) (_last_search_time w)) eqn:Hg.
  - rewrite (search_listings_closed env tool_input state w Hg).
    eexists _, _. split; reflexivity.
  - rewrite (search_listings_open env tool_input state w Hg).
    eexists _, _. split; reflexivity.
Qed.

Lemma quiet_create_sheet state : quiet (create_sheet env state).
Proof.
  intros w. unfold create_sheet.
  destruct (df state) as [d|]; [|apply (quiet_ret _ w)].
  destruct (Pandas.empty d); [apply (quiet_ret _ w)|].
  destruct w as [l ss h].
  destruct (search state) as [s|]; unfold bind, attempt.
  - rewrite call_sheet_run.
    destruct (create_listings_sheet env _ d (location s) (listing_type s)
                (user_id state)); eexists _, _; split; reflexivity.
  - eexists _, []. simpl. rewrite app_nil_r. split; reflexivity.
Qed.

(** The tool executor never raises past its own boundary. *)
Lemma quiet__execute_tool name tool_input state :
  quiet (_execute_tool env name tool_input state).
Proof.
  unfold _execute_tool.
  destruct (String.eqb name "search_listings"); [apply quiet_search_listings|].
  destruct (String.eqb name "create_sheet"); [apply quiet_create_sheet|].
  apply quiet_ret.
Qed.

Lemma quiet_run_tools bs state : quiet (run_tools env bs state).
Proof.
  revert state. induction bs as [|b bs IH]; intros state; [apply quiet_ret|].
  destruct b; cbn [run_tools]; try apply IH.
  apply quiet_bind; [apply quiet__execute_tool|]. intros o.
  apply quiet_bind; [apply IH|]. intros rs. apply quiet_ret.
Qed.

Lemma bounded_call_planner msgs : bounded 1 (call_planner env msgs).
Proof.
  intros w. rewrite call_planner_run. eexists. simpl. repeat split. reflexivity.
Qed.

Lemma bounded_iterations n msgs state : bounded n (iterations env n msgs state).
Proof.
  revert msgs state. induction n as [|n IH]; intros msgs state; [apply bounded_ret|].
  cbn [iterations]. apply (bounded_bind 1 n); [apply bounded_call_planner|].
  intros response.
  destruct (String.eqb (stop_reason response) "end_turn");
    [apply (bounded_le 0); [lia | apply bounded_ret]|].
  destruct (String.eqb (stop_reason response) "tool_use");
    [|apply (bounded_le 0); [lia | apply bounded_ret]].
  apply (bounded_bind 0 n); [apply quiet_bounded, quiet_run_tools|]. intros rs. apply IH.
Qed.

(** How [run_agent_loop] ends, from how its loop ends. *)
Lemma run_agent_loop_ok s uid prior w out w1 :
  iterations env max_iterations (seed s prior) (new_state s uid) w = (Ok out, w1) ->
  run_agent_loop env s uid prior w =
    (Ok (assemble s uid out),
     {| _last_search_time := _last_search_time w1;
        _sessions := <[uid := messages out]> (_sessions w1);
        trace := trace w1 ++ [EvSessionSet uid (messages out)] |}).
Proof. intros E. unfold run_agent_loop, bind. rewrite E. reflexivity. Qed.

Lemma run_agent_loop_raise s uid prior w e w1 :
  iterations env max_iterations (seed s prior) (new_state s uid) w = (Raise e, w1) ->
  run_agent_loop env s uid prior w = (Raise e, w1).
Proof. intros E. unfold run_agent_loop, bind. rewrite E. reflexivity. Qed.

(** A planner that never gives a final answer uses up every turn. *)
Lemma iterations_exhausted n msgs state w :
  always_tool_use env ->
  exists out w1 d,
    iterations env n msgs state w = (Ok out, w1)
    /\ final_summary out = EmptyString
    /\ trace w1 = trace w ++ d
    /\ planner_calls d = n.
Proof.
  intros Htool. revert msgs state w.
  induction n as [|n IH]; intros msgs state w.
  - exists {| final_summary := EmptyString; messages := msgs; state_out := state |}, w, [].
    simpl. by rewrite app_nil_r.
  - cbn [iterations]. unfold bind at 1. rewrite call_planner_run.
    destruct (Htool (trace w) msgs) as (response & -> & Hstop). cbn [lift].
    rewrite Hstop. cbn [String.eqb Ascii.eqb Bool.eqb].
    unfold bind at 1.
    destruct (quiet_run_tools (content response) state
                (extend w [EvPlanner msgs (Ok response)])) as (rs & d1 & -> & Hd1).
    match goal with
    | |- context [iterations env n ?m ?st ?w'] =>
        destruct (IH m st w') as (out & w1 & d2 & -> & Hfin & Ht & Hd2)
    end.
    exists out, w1, ([EvPlanner msgs (Ok response)] ++ d1 ++ d2).
    repeat split; [assumption| |].
    + rewrite Ht. cbn [trace extend]. by rewrite <- !app_assoc.
    + rewrite !planner_calls_app, Hd1, Hd2. reflexivity.
Qed.

End Bounds.

(** C6. Every agent-loop run ends, having invoked the planner at most 8
    times; and when the planner asks for tools at every turn, the loop stops
    after the eighth invocation with no final answer, the conversation is
    stored and the run returns the fallback summary. *)
Theorem agent_loop_capped (env : Env) (s : SearchInput) (uid : string)
  (prior : option (list Message)) (w : World) :
  (exists r w' d,
     run_agent_loop env s uid prior w = (r, w')
     /\ trace w' = trace w ++ d
     /\ (planner_calls d <= 8)%nat)
  /\
  (always_tool_use env ->
   exists out w' d,
     run_agent_loop env s uid prior w = (Ok (assemble s uid out), w')
     /\ trace w' = trace w ++ d
     /\ planner_calls d = 8%nat
     /\ final_summary out = EmptyString
     /\ summary (assemble s uid out) = fallback_summary s (state_out out)
     /\ _sessions w' !! uid = Some (messages out)).
Proof.
  split.
  - destruct (bounded_iterations env max_iterations (seed s prior) (new_state s uid) w)
      as (d & Ht & _ & Hn).
    destruct (iterations env max_iterations (seed s prior) (new_state s uid) w)
      as [[out|e] w1] eqn:E.
    + rewrite (run_agent_loop_ok env s uid prior w out w1 E).
      eexists _, _, (d ++ [EvSessionSet uid (messages out)]).
      split; [reflexivity|]. cbn [trace snd] in *. rewrite Ht, planner_calls_app.
      split; [by rewrite app_assoc|]. cbn. unfold max_iterations in Hn. lia.
    + rewrite (run_agent_loop_raise env s uid prior w e w1 E).
      exists (Raise e), w1, d. cbn [snd] in *. auto.
  - intros Htool.
    destruct (iterations_exhausted env max_iterations (seed s prior) (new_state s uid) w Htool)
      as (out & w1 & d & E & Hfin & Ht & Hn).
    rewrite (run_agent_loop_ok env s uid prior w out w1 E).
    eexists out, _, (d ++ [EvSessionSet uid (messages out)]).
    split; [reflexivity|]. cbn [trace _sessions].
    rewrite Ht, planner_calls_app, Hn, app_assoc.
    repeat split; try assumption.
    + unfold assemble. cbn [summary]. rewrite Hfin. reflexivity.
    + apply lookup_insert_eq.
Qed.

(* ------------------------------------------------------------------ *)
(** ** The summary and the stored conversation *)

Lemma append_assoc (a b c : string) : (a +:+ b) +:+ c = a +:+ (b +:+ c).
Proof.
  induction a as [|x a IH]; [reflexivity|].
  change (String x ((a +:+ b) +:+ c) = String x (a +:+ (b +:+ c))).
  by rewrite IH.
Qed.

Lemma truthy_nonempty s : PyStr.truthy s = true <-> s <> EmptyString.
Proof. destruct s; simpl; split; congruence. Qed.

Lemma truthy_empty s : PyStr.truthy s = false <-> s = EmptyString.
Proof. destruct s; simpl; split; congruence. Qed.

Lemma fallback_summary_nonempty s state : fallback_summary s state <> EmptyString.
Proof.
  unfold fallback_summary.
  destruct (_ && _); [discriminate|]. destruct (PyStr.truthy _); discriminate.
Qed.

Lemma run_agent_loop_inv env s uid prior w res w' :
  run_agent_loop env s uid prior w = (Ok res, w') ->
  exists out w1,
    iterations env max_iterations (seed s prior) (new_state s uid) w = (Ok out, w1)
    /\ res = assemble s uid out
    /\ w' = {| _last_search_time := _last_search_time w1;
               _sessions := <[uid := messages out]> (_sessions w1);
               trace := trace w1 ++ [EvSessionSet uid (messages out)] |}.
Proof.
  intros E.
  destruct (iterations env max_iterations (seed s prior) (new_state s uid) w)
    as [[out|e] w1] eqn:Ei.
  - rewrite (run_agent_loop_ok env s uid prior w out w1 Ei) in E.
    injection E as <- <-. eauto.
  - rewrite (run_agent_loop_raise env s uid prior w e w1 Ei) in E. discriminate.
Qed.


Lemma no_planner_calls d ctx r :
  planner_calls d = 0%nat -> ~ In (EvPlanner ctx r) d.
Proof.
  unfold planner_calls. intros Hn Hin.
  assert (Hf : In (EvPlanner ctx r) (List.filter is_planner d))
    by (apply List.filter_In; split; [exact Hin | reflexivity]).
  destruct (List.filter is_planner d); [contradiction | discriminate].
Qed.

Section Conversation.

Variable env : Env.

Lemma run_tools_answers bs : forall state w rs state' w',
  run_tools env bs state w = (Ok (rs, state'), w') -> answers bs rs.
Proof.
  unfold answers.
  induction bs as [|b bs IH]; intros state w rs state' w' E.
  - injection E as <- <- <-. reflexivity.
  - destruct b as [t|id name input|ty]; cbn [run_tools tool_use_ids] in *;
      try (eapply IH; exact E).
    unfold bind at 1 in E.
    destruct (quiet__execute_tool env name input state w) as (o & d & Eo & _).
    rewrite Eo in E. unfold bind at 1 in E.
    destruct (run_tools env bs (snd o) _) as [[[rs1 st1]|e] w1] eqn:Er;
      [|discriminate].
    injection E as <- <- <-. cbn [map tool_use_id fst].
    f_equal. eapply IH. exact Er.
Qed.

Lemma iterations_recorded n : forall msgs state w out w1,
  iterations env n msgs state w = (Ok out, w1) ->
  exists d,
    trace w1 = trace w ++ d
    /\ _sessions w1 = _sessions w
    /\ msgs `prefix_of` messages out
    /\ recorded d (messages out).
Proof.
  induction n as [|n IH]; intros msgs state w out w1 E.
  - injection E as <- <-. exists []. cbn [messages].
    rewrite app_nil_r. repeat split; [reflexivity|]. intros ctx r [].
  - cbn [iterations] in E. unfold bind at 1 in E. rewrite call_planner_run in E.
    destruct (plan env (trace w) msgs) as [response|e] eqn:Ep; [|discriminate].
    cbn [lift] in E.
    destruct (String.eqb (stop_reason response) "end_turn") eqn:Hend;
      [|destruct (String.eqb (stop_reason response) "tool_use") eqn:Htool].
    + injection E as <- <-. exists [EvPlanner msgs (Ok response)].
      cbn [messages extend trace _sessions]. repeat split.
      * by apply prefix_app_r.
      * intros ctx r [[= <- <-]|[]]. exists response.
        repeat split; [reflexivity|]. intros Hstop.
        apply String.eqb_eq in Hend. rewrite Hstop in Hend. discriminate.
    + unfold bind at 1 in E.
      destruct (quiet_run_tools env (content response) state
                  (extend w [EvPlanner msgs (Ok response)]))
        as ([rs st] & d1 & Er & Hd1).
      rewrite Er in E. cbn [fst snd] in E.
      apply IH in E as (d2 & Ht & Hs & Hpre & Hrec).
      cbn [trace _sessions extend] in Ht, Hs.
      exists ([EvPlanner msgs (Ok response)] ++ d1 ++ d2).
      repeat split.
      * rewrite Ht. by rewrite <- !app_assoc.
      * exact Hs.
      * destruct Hpre as [k Hk]. exists ([assistant_turn response]
                                          ++ [user_turn (ToolResults rs)] ++ k).
        rewrite Hk. by rewrite <- !app_assoc.
      * intros ctx r Hin. apply in_app_or in Hin as [[[= <- <-]|[]]|Hin].
        -- exists response. split; [reflexivity|]. destruct Hpre as [k Hk]. split.
           ++ exists ([user_turn (ToolResults rs)] ++ k).
              rewrite Hk. by rewrite <- !app_assoc.
           ++ intros _. exists rs. split.
              ** eapply run_tools_answers. exact Er.
              ** exists k. rewrite Hk. by rewrite <- !app_assoc.
        -- apply in_app_or in Hin as [Hin|Hin].
           ++ exfalso. eapply no_planner_calls; eassumption.
           ++ apply Hrec. exact Hin.
    + injection E as <- <-. exists [EvPlanner msgs (Ok response)].
      cbn [messages extend trace _sessions]. repeat split.
      * by apply prefix_app_r.
      * intros ctx r [[= <- <-]|[]]. exists response.
        repeat split; [reflexivity|]. intros Hstop.
        rewrite Hstop in Htool. discriminate.
Qed.

(** When the planner answers every call, the loop returns. *)
Lemma iterations_total n : forall msgs state w,
  planner_answers env ->
  exists out w1, iterations env n msgs state w = (Ok out, w1).
Proof.
  induction n as [|n IH]; intros msgs state w Hans; [eexists _, _; reflexivity|].
  cbn [iterations]. unfold bind at 1. rewrite call_planner_run.
  destruct (Hans (trace w) msgs) as (response & ->). cbn [lift].
  destruct (String.eqb (stop_reason response) "end_turn");
    [eexists _, _; reflexivity|].
  destruct (String.eqb (stop_reason response) "tool_use");
    [|eexists _, _; reflexivity].
  unfold bind at 1.
  destruct (quiet_run_tools env (content response) state
              (extend w [EvPlanner msgs (Ok response)])) as (rs & d1 & -> & _).
  apply IH, Hans.
Qed.

Lemma run_tools_results bs : forall state w rs state' w',
  run_tools env bs state w = (Ok (rs, state'), w') -> results_of env bs rs.
Proof.
  induction bs as [|b bs IH]; intros state w rs state' w' E.
  - injection E as <- <- <-. constructor.
  - destruct b as [t|id name input|ty]; cbn [run_tools] in E.
    + apply results_skip; [reflexivity|]. eapply IH, E.
    + unfold bind at 1 in E.
      destruct (_execute_tool env name input state w) as [[[j st]|e] w1] eqn:Eo;
        [|discriminate].
      unfold bind at 1 in E. cbn [fst snd] in E.
      destruct (run_tools env bs st w1) as [[[rs1 st1]|e] w2] eqn:Er; [|discriminate].
      injection E as <- <- <-. cbn [fst].
      eapply results_tool; [exact Eo|]. eapply IH, Er.
    + apply results_skip; [reflexivity|]. eapply IH, E.
Qed.

Lemma planner_events_app a b :
  planner_events (a ++ b) = planner_events a ++ planner_events b.
Proof. unfold planner_events. apply omap_app. Qed.

Lemma planner_events_none d : planner_calls d = 0%nat -> planner_events d = [].
Proof.
  unfold planner_calls, planner_events.
  induction d as [|e d IH]; [reflexivity|]. cbn [List.filter omap list_omap].
  destruct e; cbn [is_planner length]; try exact IH. discriminate.
Qed.

(** The conversation the loop leaves is the one it started from followed
    by the turns of its planner calls, and nothing else. *)
Lemma iterations_transcript n : forall msgs state w out w1,
  iterations env n msgs state w = (Ok out, w1) ->
  exists turns d,
    trace w1 = trace w ++ d
    /\ messages out = msgs ++ transcript turns
    /\ planner_events d = calls msgs turns
    /\ Forall (turn_ok env) turns
    /\ ends_at_answer turns
    /\ (length turns <= n)%nat.
Proof.
  induction n as [|n IH]; intros msgs state w out w1 E.
  - injection E as <- <-. exists [], []. cbn [messages transcript map concat].
    rewrite !app_nil_r.
    split; [reflexivity|]. split; [reflexivity|]. split; [reflexivity|].
    split; [apply List.Forall_nil|]. split; [|cbn [length]; lia].
    intros pre t post Hp. by destruct pre.
  - cbn [iterations] in E. unfold bind at 1 in E. rewrite call_planner_run in E.
    destruct (plan env (trace w) msgs) as [response|e] eqn:Ep; [|discriminate].
    cbn [lift] in E.
    assert (Hlast : stop_reason response <> "tool_use" ->
      out = {| final_summary := final_summary out;
               messages := msgs ++ [assistant_turn response];
               state_out := state_out out |} ->
      w1 = extend w [EvPlanner msgs (Ok response)] ->
      exists turns d,
        trace w1 = trace w ++ d
        /\ messages out = msgs ++ transcript turns
        /\ planner_events d = calls msgs turns
        /\ Forall (turn_ok env) turns
        /\ ends_at_answer turns
        /\ (length turns <= S n)%nat).
    { intros Hstop Hout ->. exists [(response, None)], [EvPlanner msgs (Ok response)].
      rewrite Hout. cbn [messages trace extend].
      split; [reflexivity|]. split; [reflexivity|]. split; [reflexivity|].
      split; [constructor; [exact Hstop|constructor]|]. split; [|cbn; lia].
      intros pre t post Hp _. destruct pre as [|x [|y pre]]; [by injection Hp as _ <-|..];
        by destruct post. }
    destruct (String.eqb (stop_reason response) "end_turn") eqn:Hend;
      [|destruct (String.eqb (stop_reason response) "tool_use") eqn:Htool].
    + injection E as <- <-. apply Hlast; [|reflexivity|reflexivity].
      apply String.eqb_eq in Hend. rewrite Hend. discriminate.
    + apply String.eqb_eq in Htool. unfold bind at 1 in E.
      destruct (quiet_run_tools env (content response) state
                  (extend w [EvPlanner msgs (Ok response)]))
        as ([rs st] & d1 & Er & Hd1).
      rewrite Er in E. cbn [fst snd] in E.
      apply IH in E as (turns & d2 & Ht & Hm & Hp & Hok & Hend' & Hlen).
      cbn [trace extend] in Ht.
      exists ((response, Some rs) :: turns), ([EvPlanner msgs (Ok response)] ++ d1 ++ d2).
      split; [rewrite Ht; by rewrite <- !app_assoc|].
      split; [rewrite Hm; cbn [transcript map concat turn_messages fst snd];
              by rewrite <- !app_assoc|].
      split.
      { rewrite !planner_events_app, (planner_events_none d1 Hd1), Hp.
        cbn [calls turn_messages fst snd planner_events omap list_omap app].
        by rewrite <- !app_assoc. }
      split.
      { constructor; [|exact Hok]. split; [exact Htool|].
        eapply run_tools_results, Er. }
      split; [|cbn [length]; lia].
      intros pre t post Hpre Hnone. destruct pre as [|x pre].
      * injection Hpre as <- _. discriminate.
      * injection Hpre as _ Hpre. eapply Hend'; eassumption.
    + injection E as <- <-. apply Hlast; [|reflexivity|reflexivity].
      intros Hs. rewrite Hs in Htool. discriminate.
Qed.

End Conversation.

(** C9. Whenever the planner answers, the agent loop returns; and whenever
    the agent loop returns (on a final answer, on an unexpected stop reason
    or after its last turn) the last thing it does is to store the
    conversation of the run under the user's key, replacing what was there.
    The conversation stored is exactly this: the prior turns, the
    instruction turn, then for each planner call of the run, in order, the
    planner's turn (role [assistant], with the content of its answer as it
    came) and, when the answer asked for tools, one [user] turn with the
    results of all of them, each under the id of its call and holding the
    outcome the tool executor returned.  Each planner call was given the
    conversation up to its turn; only the last turn can be without tool
    results, and there are at most 8 turns. *)
Theorem session_saved (env : Env) (s : SearchInput) (uid : string)
  (prior : option (list Message)) (w : World) :
  (planner_answers env ->
   exists res w', run_agent_loop env s uid prior w = (Ok res, w'))
  /\
  (forall res w',
     run_agent_loop env s uid prior w = (Ok res, w') ->
     exists turns d,
       let start := default [] prior
                    ++ [ {| role := "user"; body := Text (user_prompt s) |} ] in
       let msgs := start ++ transcript turns in
       _sessions w' = <[uid := msgs]> (_sessions w)
       /\ _sessions w' !! uid = Some msgs
       /\ trace w' = trace w ++ d ++ [EvSessionSet uid msgs]
       /\ planner_events d = calls start turns
       /\ Forall (turn_ok env) turns
       /\ ends_at_answer turns
       /\ (length turns <= 8)%nat).
Proof.
  split.
  - intros Hans.
    destruct (iterations_total env max_iterations (seed s prior) (new_state s uid) w Hans)
      as (out & w1 & E).
    rewrite (run_agent_loop_ok env s uid prior w out w1 E). eauto.
  - intros res w' E.
    destruct (run_agent_loop_inv _ _ _ _ _ _ _ E) as (out & w1 & Ei & _ & ->).
    pose proof (bounded_iterations env max_iterations (seed s prior) (new_state s uid) w)
      as (d0 & _ & Hs & _).
    rewrite Ei in Hs. cbn [snd] in Hs.
    apply iterations_transcript in Ei as (turns & d & Ht & Hm & Hp & Hok & Hend & Hlen).
    exists turns, d. cbn [_sessions trace]. rewrite Hs, Ht, Hm.
    split; [reflexivity|]. split; [apply lookup_insert_eq|].
    split; [by rewrite app_assoc|]. auto.
Qed.

(* ------------------------------------------------------------------ *)
(** ** The criteria of a search *)

(** C8, as amended.  When [search_listings] passes the rate gate, the
    criteria of the scraper call, which become the run's criteria, are
    built from the tool input: every field it supplies is used; a location
    it does not supply is the location of the run's criteria; a listing
    type it does not supply is [for_sale], a recency it does not supply is
    30 days, and every other field it does not supply is unset. *)
Theorem overrides_rebuild (env : Env) (tool_input : Fields) (state : _RunState)
  (w : World) :
  let t := time_time env (trace w) in
  let last := _last_search_time w in
  (SEARCH_COOLDOWN_SECONDS <= t - last)%Q \/ (last <= 0)%Q ->
  exists used j state' r w',
    _execute_tool env "search_listings" tool_input state w = (Ok (j, state'), w')
    /\ List.last (trace w') (EvTime t) = EvScrape (scrape_args used) r
    /\ search state' = Some used
    /\ location used =
         match d_location tool_input, search state with
         | Some l, _ => l
         | None, Some current => location current
         | None, None => EmptyString
         end
    /\ listing_type used = default "for_sale" (d_listing_type tool_input)
    /\ past_days used = default 30 (d_past_days tool_input)
    /\ min_price used = d_min_price tool_input
    /\ max_price used = d_max_price tool_input
    /\ min_beds used = d_min_beds tool_input
    /\ max_beds used = d_max_beds tool_input
    /\ min_sqft used = d_min_sqft tool_input
    /\ max_sqft used = d_max_sqft tool_input
    /\ property_type used = d_property_type tool_input.
Proof.
  intros t last Hopen.
  assert (Hg : gate_closed t last = false)
    by (apply gate_closed_false; destruct Hopen; [right|left]; assumption).
  rewrite _execute_tool_search, (search_listings_open env tool_input state w Hg).
  set (used := build_search tool_input state).
  match goal with
  | |- context [Ok (settle_search ?e ?s ?st ?f)] =>
      exists used, (fst (settle_search e s st f)), (snd (settle_search e s st f))
  end.
  rewrite <- surjective_pairing. eexists _, _. split; [reflexivity|].
  cbn [trace]. split.
  { match goal with
    | |- List.last (?l ++ [?a; ?b; ?c; ?d]) _ = _ =>
        change (l ++ [a; b; c; d]) with (l ++ ([a; b; c] ++ [d]))
    end.
    rewrite app_assoc. apply last_last. }
  split.
  { unfold settle_search. destruct (fetched used _) as [d|e]; [|reflexivity].
    destruct (Pandas.empty d); [reflexivity|].
    destruct (success_json _ used d); reflexivity. }
  split.
  { subst used. unfold build_search. cbn [location].
    destruct (d_location tool_input), (search state); reflexivity. }
  repeat split.
Qed.

(** The claim as worded fails: with current criteria [for_rent], two
    bedrooms, and a tool input that supplies the location alone, the
    scraper is asked for [for_sale] listings with no bound on bedrooms. *)
Lemma overrides_counterexample :
  exists j state' w' a r,
    _execute_tool Script.env0 "search_listings" Script.only_location
      (new_state Script.renting "u") boot = (Ok (j, state'), w')
    /\ List.last (trace w') (EvTime (0 # 1)) = EvScrape a r
    /\ a <> scrape_args (merge_onto_current Script.only_location Script.renting)
    /\ a_listing_type a = "for_sale"
    /\ a_listing_type (scrape_args (merge_onto_current Script.only_location Script.renting))
       = "for_rent".
Proof.
  eexists _, _, _, _, _. split; [vm_compute; reflexivity|].
  split; [reflexivity|]. split; [discriminate|]. split; reflexivity.
Qed.

(* ------------------------------------------------------------------ *)
(** ** Twenty rows *)

Lemma empty_sorted c d : Pandas.empty d = true -> Pandas.sorted_by c d.
Proof.
  unfold Pandas.empty. intros He i Hi.
  destruct (columns d) eqn:Ec; [discriminate|].
  destruct (rows d); [constructor | discriminate].
Qed.

(** What [fetch_listings] returns, from what the scraper returned. *)
Lemma fetched_spec s r d :
  fetched s r = Ok d ->
  exists properties,
    r = Ok properties
    /\ (if Pandas.empty properties then d = properties
        else (Pandas.len d <= 20)%nat)
    /\ Pandas.sorted_by "Price ($)" d.
Proof.
  unfold fetched. destruct r as [p|e]; cbn [rbind]; [|discriminate].
  intros E. exists p. split; [reflexivity|].
  destruct (Pandas.empty p) eqn:He.
  - injection E as <-. split; [reflexivity|]. by apply empty_sorted.
  - by apply shape_listings_spec in E.
Qed.

Lemma settle_search_count env s state r :
  (num_results (snd (settle_search env s state (fetched s r))) <= 20)%nat.
Proof.
  unfold settle_search. destruct (fetched s r) as [d|e] eqn:E; cbn; [|lia].
  destruct (Pandas.empty d) eqn:Hd; cbn; [lia|].
  destruct (success_json env s d); cbn; [|lia].
  apply fetched_spec in E as (p & _ & Hp & _).
  destruct (Pandas.empty p) eqn:Hpe; [|exact Hp]. subst d. congruence.
Qed.

Section Counts.

Variable env : Env.

Lemma _execute_tool_count name tool_input state w :
  (num_results state <= 20)%nat ->
  match _execute_tool env name tool_input state w with
  | (Ok (_, state'), _) => (num_results state' <= 20)%nat
  | (Raise _, _) => True
  end.
Proof.
  intros Hn. unfold _execute_tool.
  destruct (String.eqb name "search_listings");
    [|destruct (String.eqb name "create_sheet")].
  - destruct (gate_closed (time_time env (trace w)) (_last_search_time w)) eqn:Hg.
    + rewrite (search_listings_closed env tool_input state w Hg). exact Hn.
    + rewrite (search_listings_open env tool_input state w Hg).
      destruct (settle_search _ _ _ _) as [j st] eqn:E.
      change st with (snd (j, st)). rewrite <- E. apply settle_search_count.
  - unfold create_sheet. destruct (df state) as [d|]; [|exact Hn].
    destruct (Pandas.empty d); [exact Hn|].
    destruct (search state) as [s0|]; unfold bind, attempt; [|exact Hn].
    rewrite call_sheet_run.
    destruct (create_listings_sheet env _ d (location s0) (listing_type s0)
                (user_id state)); exact Hn.
  - exact Hn.
Qed.

Lemma run_tools_count bs : forall state w,
  (num_results state <= 20)%nat ->
  match run_tools env bs state w with
  | (Ok (_, state'), _) => (num_results state' <= 20)%nat
  | (Raise _, _) => True
  end.
Proof.
  induction bs as [|b bs IH]; intros state w Hn; [exact Hn|].
  destruct b as [t|id name input|ty]; cbn [run_tools]; try (apply IH; exact Hn).
  unfold bind at 1.
  pose proof (_execute_tool_count name input state w Hn) as Ho.
  destruct (_execute_tool env name input state w) as [[[j st]|e] w1]; [|exact I].
  unfold bind at 1. cbn [snd]. specialize (IH st w1 Ho).
  destruct (run_tools env bs st w1) as [[[rs st2]|e] w2]; [exact IH | exact I].
Qed.

Lemma iterations_count n : forall msgs state w,
  (num_results state <= 20)%nat ->
  match iterations env n msgs state w with
  | (Ok out, _) => (num_results (state_out out) <= 20)%nat
  | (Raise _, _) => True
  end.
Proof.
  induction n as [|n IH]; intros msgs state w Hn; [exact Hn|].
  cbn [iterations]. unfold bind at 1.
  destruct (call_planner env msgs w) as [[response|e] w1]; [|exact I].
  destruct (String.eqb (stop_reason response) "end_turn"); [exact Hn|].
  destruct (String.eqb (stop_reason response) "tool_use"); [|exact Hn].
  unfold bind at 1.
  pose proof (run_tools_count (content response) state w1 Hn) as Hr.
  destruct (run_tools env (content response) state w1) as [[[rs st]|e] w2];
    [|exact I].
  apply IH. exact Hr.
Qed.

Lemma run_agent_loop_count s uid prior w res w' :
  run_agent_loop env s uid prior w = (Ok res, w') ->
  (wr_num_results res <= 20)%nat.
Proof.
  intros E. destruct (run_agent_loop_inv _ _ _ _ _ _ _ E) as (out & w1 & Ei & -> & _).
  pose proof (iterations_count max_iterations (seed s prior) (new_state s uid) w) as H.
  rewrite Ei in H. apply H. cbn. lia.
Qed.

End Counts.

(* ------------------------------------------------------------------ *)
(** ** Entry points *)

Section Entries.

Variable env : Env.

Lemma run_workflow_run input w :
  let request := user_request input in
  let uid := wi_user_id input in
  run_workflow env input w =
    match extract env (trace w) request with
    | Raise e => (Raise e, extend w [EvExtract request (Raise e)])
    | Ok parsed =>
        if PyStr.truthy (location (criteria parsed))
        then run_agent_loop env (criteria parsed) uid None
               {| _last_search_time := _last_search_time w;
                  _sessions := delete uid (_sessions w);
                  trace := trace w ++ [EvExtract request (Ok parsed); EvSessionPop uid] |}
        else (Ok no_location, extend w [EvExtract request (Ok parsed)])
    end.
Proof.
  intros request uid. unfold run_workflow, parse_search_intent, bind.
  rewrite call_extract_run. fold request.
  destruct (extract env (trace w) request) as [parsed|e]; cbn [lift ret]; [|reflexivity].
  destruct (PyStr.truthy (location (criteria parsed))); cbn [negb]; [|reflexivity].
  unfold sessions_pop, extend. cbn [trace _sessions _last_search_time].
  by rewrite <- app_assoc.
Qed.

Lemma resume_workflow_run input w :
  let request := user_request input in
  let uid := wi_user_id input in
  resume_workflow env input w =
    match _sessions w !! uid with
    | Some (m :: ms) =>
        match extract env (trace w) request with
        | Raise e => (Raise e, extend w [EvExtract request (Raise e)])
        | Ok parsed =>
            run_agent_loop env (criteria parsed) uid (Some (m :: ms))
              (extend w [EvExtract request (Ok parsed)])
        end
    | _ => run_workflow env input w
    end.
Proof.
  intros request uid. unfold resume_workflow, bind, sessions_get. fold uid.
  destruct (_sessions w !! uid) as [[|m ms]|]; try reflexivity.
  unfold parse_search_intent, bind. rewrite call_extract_run. fold request.
  destruct (extract env (trace w) request); reflexivity.
Qed.

(** The loop starts by giving the planner its seed. *)
Lemma iterations_first n msgs state w :
  exists rest,
    trace (snd (iterations env (S n) msgs state w)) =
    trace w ++ EvPlanner msgs (plan env (trace w) msgs) :: rest.
Proof.
  cbn [iterations]. unfold bind at 1. rewrite call_planner_run.
  destruct (plan env (trace w) msgs) as [response|e]; cbn [lift];
    [|exists []; reflexivity].
  destruct (String.eqb (stop_reason response) "end_turn"); [exists []; reflexivity|].
  destruct (String.eqb (stop_reason response) "tool_use"); [|exists []; reflexivity].
  match goal with
  | |- context [bind ?m ?f ?w1] =>
      destruct (bounded_bind 0 n m f (quiet_bounded _ (quiet_run_tools env _ _))
                  (fun rs => bounded_iterations env n _ _) w1) as (d & Ht & _)
  end.
  exists d. rewrite Ht. cbn [trace extend]. by rewrite <- app_assoc.
Qed.

Lemma run_agent_loop_first s uid prior w :
  exists rest,
    trace (snd (run_agent_loop env s uid prior w)) =
    trace w ++ EvPlanner (seed s prior) (plan env (trace w) (seed s prior)) :: rest.
Proof.
  destruct (iterations_first 7 (seed s prior) (new_state s uid) w) as (rest & Ht).
  change (S 7) with max_iterations in Ht.
  destruct (iterations env max_iterations (seed s prior) (new_state s uid) w)
    as [[out|e] w1] eqn:E; cbn [snd] in Ht.
  - rewrite (run_agent_loop_ok env s uid prior w out w1 E). cbn [snd trace].
    exists (rest ++ [EvSessionSet uid (messages out)]).
    rewrite Ht. by rewrite <- app_assoc.
  - rewrite (run_agent_loop_raise env s uid prior w e w1 E). exists rest. exact Ht.
Qed.

Lemma run_workflow_count input w res w' :
  run_workflow env input w = (Ok res, w') -> (wr_num_results res <= 20)%nat.
Proof.
  rewrite run_workflow_run.
  destruct (extract env (trace w) (user_request input)) as [parsed|e]; [|discriminate].
  destruct (PyStr.truthy (location (criteria parsed))).
  - apply run_agent_loop_count.
  - intros [= <- <-]. cbn. lia.
Qed.

Lemma resume_workflow_count input w res w' :
  resume_workflow env input w = (Ok res, w') -> (wr_num_results res <= 20)%nat.
Proof.
  rewrite resume_workflow_run.
  destruct (_sessions w !! wi_user_id input) as [[|m ms]|];
    try apply run_workflow_count.
  destruct (extract env (trace w) (user_request input)) as [parsed|e]; [|discriminate].
  apply run_agent_loop_count.
Qed.

End Entries.

(** C10.  When the frames the scraper gives hold listings (one that has a
    row has a column), [fetch_listings] returns at most 20 rows, in
    ascending order of the [Price ($)] column, missing prices last, when
    that column is present.  A search that passed the rate gate leaves a
    result count of at most 20, and so does every run, however many
    listings the scraper returned. *)
Theorem listings_capped (env : Env) :
  scraper_frames env ->
  (forall s w d w',
     fetch_listings env s w = (Ok d, w') ->
     (Pandas.len d <= 20)%nat /\ Pandas.sorted_by "Price ($)" d)
  /\
  (forall tool_input state w j state' w',
     _execute_tool env "search_listings" tool_input state w = (Ok (j, state'), w') ->
     status j <> Some "rate_limited" ->
     (num_results state' <= 20)%nat)
  /\
  (forall input w res w',
     run_workflow env input w = (Ok res, w')
     \/ resume_workflow env input w = (Ok res, w') ->
     (wr_num_results res <= 20)%nat).
Proof.
  intros Hframes. split; [|split].
  - intros s w d w' E. rewrite fetch_listings_run in E. injection E as E _.
    apply fetched_spec in E as (p & Hr & Hp & Hs). split; [|exact Hs].
    destruct (Pandas.empty p) eqn:He; [|exact Hp]. subst d.
    specialize (Hframes _ _ _ Hr). unfold holds_listings, Pandas.empty, Pandas.len in *.
    destruct (rows p) as [|r rs]; [cbn; lia|].
    destruct (columns p); [|discriminate]. destruct Hframes; [discriminate|reflexivity].
  - intros tool_input state w j state' w' E Hst.
    rewrite _execute_tool_search in E.
    destruct (gate_closed (time_time env (trace w)) (_last_search_time w)) eqn:Hg.
    + rewrite (search_listings_closed env tool_input state w Hg) in E.
      injection E as <- _ _. contradiction Hst. reflexivity.
    + rewrite (search_listings_open env tool_input state w Hg) in E.
      injection E as E _.
      change state' with (snd (j, state')). rewrite <- E. apply settle_search_count.
  - intros input w res w' [E|E].
    + eapply run_workflow_count, E.
    + eapply resume_workflow_count, E.
Qed.

(* ------------------------------------------------------------------ *)
(** ** No location *)

(** C3, as amended.  A fresh run whose parsed criteria have an empty
    location returns zero results, an empty sheet URL and the fixed request
    for a city, state or zip code, and so does a follow-up for a user with
    no stored turns, which falls back to the fresh run.  The only effect is
    the parser's call: the planner, the scraper and the export are not
    invoked.  A follow-up for a user with stored turns has no location
    check: after the parser's call it invokes the planner. *)
Theorem no_location_outcome (env : Env) (input : WorkflowInput) (w : World)
  (parsed : Fields) :
  extract env (trace w) (user_request input) = Ok parsed ->
  location (criteria parsed) = EmptyString ->
  let w' := extend w [EvExtract (user_request input) (Ok parsed)] in
  run_workflow env input w = (Ok no_location, w')
  /\ (no_session w (wi_user_id input) ->
      resume_workflow env input w = (Ok no_location, w'))
  /\ wr_num_results no_location = 0%nat
  /\ wr_sheet_url no_location = EmptyString
  /\ summary no_location
     = "Could not determine a location. Please include a city, state, or zip code."
  /\ (forall m ms,
        _sessions w !! wi_user_id input = Some (m :: ms) ->
        exists ctx r rest,
          trace (snd (resume_workflow env input w)) =
          trace w' ++ EvPlanner ctx r :: rest).
Proof.
  intros Hparse Hloc w'.
  assert (Hrun : run_workflow env input w = (Ok no_location, w')).
  { rewrite run_workflow_run, Hparse, Hloc. reflexivity. }
  split; [exact Hrun|]. split; [|repeat split].
  - intros Hnone. rewrite resume_workflow_run. unfold no_session in Hnone.
    destruct (_sessions w !! wi_user_id input) as [[|m ms]|];
      [exact Hrun | contradiction | exact Hrun].
  - intros m ms Hsession. rewrite resume_workflow_run, Hsession, Hparse.
    destruct (run_agent_loop_first env (criteria parsed) (wi_user_id input)
                (Some (m :: ms)) w') as (rest & Ht).
    eexists _, _, rest. exact Ht.
Qed.

(** The claim as worded fails for a follow-up: the user has a session, the
    follow-up text names no place, and the planner is invoked all the
    same. *)
Lemma followup_location_counterexample :
  exists res w',
    resume_workflow Script.env_noloc
      {| user_request := "cheaper ones"; wi_user_id := "u" |} Script.with_session
    = (Ok res, w')
    /\ location (criteria no_fields) = EmptyString
    /\ planner_calls (trace w') = 1%nat
    /\ summary res = "Here are cheaper ones.".
Proof. eexists _, _. split; [vm_compute; reflexivity|]. repeat split. Qed.

(* ------------------------------------------------------------------ *)
(** ** Sessions at the entry points *)

(** X22. Where the session is cleared.  A fresh run whose request parses
    to a location clears the user's session after the parse and before the
    agent loop: the planner's first call is given the instruction turn
    alone.  A follow-up for a user with stored turns gives the planner all
    of them, followed by the instruction turn. *)
Theorem fresh_run_clears (env : Env) (input : WorkflowInput) (w : World) :
  let request := user_request input in
  let uid := wi_user_id input in
  (forall parsed,
     extract env (trace w) request = Ok parsed ->
     location (criteria parsed) <> EmptyString ->
     let s := criteria parsed in
     let w0 := {| _last_search_time := _last_search_time w;
                  _sessions := delete uid (_sessions w);
                  trace := trace w ++ [EvExtract request (Ok parsed); EvSessionPop uid] |} in
     let first := [user_turn (Text (user_prompt s))] in
     run_workflow env input w = run_agent_loop env s uid None w0
     /\ _sessions w0 !! uid = None
     /\ exists rest,
          trace (snd (run_workflow env input w)) =
          trace w ++ [EvExtract request (Ok parsed); EvSessionPop uid]
                  ++ EvPlanner first (plan env (trace w0) first) :: rest)
  /\
  (forall m ms parsed,
     _sessions w !! uid = Some (m :: ms) ->
     extract env (trace w) request = Ok parsed ->
     let s := criteria parsed in
     let w0 := extend w [EvExtract request (Ok parsed)] in
     let first := (m :: ms) ++ [user_turn (Text (user_prompt s))] in
     resume_workflow env input w = run_agent_loop env s uid (Some (m :: ms)) w0
     /\ exists rest,
          trace (snd (resume_workflow env input w)) =
          trace w ++ EvExtract request (Ok parsed)
                  :: EvPlanner first (plan env (trace w0) first) :: rest).
Proof.
  intros request uid. split.
  - intros parsed Hparse Hloc s w0 first.
    assert (E : run_workflow env input w = run_agent_loop env s uid None w0).
    { rewrite run_workflow_run. fold request uid. rewrite Hparse.
      apply truthy_nonempty in Hloc. rewrite Hloc. reflexivity. }
    split; [exact E|]. split; [apply lookup_delete_eq|].
    rewrite E. destruct (run_agent_loop_first env s uid None w0) as (rest & Ht).
    exists rest. rewrite Ht. cbn [trace w0]. by rewrite <- app_assoc.
  - intros m ms parsed Hsession Hparse s w0 first.
    assert (E : resume_workflow env input w
                = run_agent_loop env s uid (Some (m :: ms)) w0).
    { rewrite resume_workflow_run. fold request uid.
      rewrite Hsession, Hparse. reflexivity. }
    split; [exact E|]. rewrite E.
    destruct (run_agent_loop_first env s uid (Some (m :: ms)) w0) as (rest & Ht).
    exists rest. rewrite Ht. cbn [trace extend w0]. by rewrite <- app_assoc.
Qed.

(** A fresh run that stops before the agent loop leaves the sessions as
    they were: the session is cleared at line 406 only, after the parse and
    after the location check. *)
Lemma early_exit_keeps_sessions env input w :
  match extract env (trace w) (user_request input) with
  | Ok parsed => location (criteria parsed) = EmptyString
  | Raise _ => True
  end ->
  _sessions (snd (run_workflow env input w)) = _sessions w.
Proof.
  rewrite run_workflow_run. destruct (extract env _ _) as [parsed|e]; [|reflexivity].
  intros ->. reflexivity.
Qed.

(** C4.  The code at the failing input: user [u] has a stored session and
    sends a fresh request in which the parser finds no location.  The run
    returns the clarification and the session [u] had is still stored: the
    fresh run has not cleared it. *)
Theorem fresh_run_keeps_session :
  exists w',
    run_workflow Script.env_noloc
      {| user_request := "a nice house"; wi_user_id := "u" |} Script.with_session
    = (Ok no_location, w')
    /\ _sessions w' !! "u" = Some Script.earlier
    /\ trace w' = [EvExtract "a nice house" (Ok no_fields)].
Proof. eexists. split; [vm_compute; reflexivity|]. split; reflexivity. Qed.

(* ------------------------------------------------------------------ *)
(** ** The error field of a reply *)

Section Replies.

Variable env : Env.

Lemma handle_search_run sender msg w :
  let uid := _resolve_user_id (sr_user_id msg) sender in
  is_auth_query (query msg) = false ->
  handle_search env sender msg w =
    match run_workflow env {| user_request := query msg; wi_user_id := uid |} w with
    | (Ok res, w') =>
        (Ok {| r_sheet_url := wr_sheet_url res;
               r_summary := summary res;
               r_num_results := wr_num_results res;
               r_session_id := session_or (session_id res) uid;
               error := if negb (PyStr.truthy (wr_sheet_url res))
                           && PyStr.contains "Google authorization required"
                                             (summary res)
                        then summary res else EmptyString |}, w')
    | (Raise e, w') => (Ok (failure_response e uid), w')
    end.
Proof.
  intros uid Hq. unfold handle_search. rewrite Hq. unfold bind, attempt. fold uid.
  destruct (run_workflow env _ w) as [[res|e] w']; reflexivity.
Qed.

Lemma handle_followup_run sender msg w :
  let uid := _resolve_user_id (fu_user_id msg) sender in
  handle_followup env sender msg w =
    match resume_workflow env {| user_request := fu_query msg; wi_user_id := uid |} w with
    | (Ok res, w') =>
        (Ok {| r_sheet_url := wr_sheet_url res;
               r_summary := summary res;
               r_num_results := wr_num_results res;
               r_session_id := session_or (session_id res) uid;
               error := EmptyString |}, w')
    | (Raise e, w') => (Ok (failure_response e uid), w')
    end.
Proof.
  intros uid. unfold handle_followup, bind, attempt. fold uid.
  destruct (resume_workflow env _ w) as [[res|e] w']; reflexivity.
Qed.

Lemma handle_search_auth sender msg w reply w' :
  is_auth_query (query msg) = true ->
  handle_search env sender msg w = (Ok reply, w') ->
  r_sheet_url reply = EmptyString
  /\ (error reply = EmptyString \/ error reply = r_summary reply).
Proof.
  intros Hq. unfold handle_search. rewrite Hq. unfold bind at 1.
  destruct (get_google_auth_message env _ w) as [[instructions|e] w1]; [|discriminate].
  intros [= <- <-]. cbn [r_sheet_url error r_summary]. split; [reflexivity|].
  destruct (PyStr.startswith instructions _); auto.
Qed.

End Replies.

Lemma call_credentials_run env uid w :
  call_credentials env uid w =
    (_get_user_credentials env (trace w) uid,
     extend w [EvCredentials uid (_get_user_credentials env (trace w) uid)]).
Proof. reflexivity. Qed.

Lemma get_google_auth_message_run env uid w :
  let checked := _get_user_credentials env (trace w) uid in
  get_google_auth_message env uid w =
    (match checked with
     | Ok _ => Ok "Google is already connected for this user."
     | Raise e => if auth_required e then Ok (text e) else Raise e
     end, extend w [EvCredentials uid checked]).
Proof.
  intros checked. unfold get_google_auth_message, bind, attempt.
  rewrite call_credentials_run. fold checked.
  destruct checked as [[]|e]; [reflexivity|]. destruct (auth_required e); reflexivity.
Qed.

Lemma contains_app_r needle a b :
  PyStr.contains needle b = true -> PyStr.contains needle (a +:+ b) = true.
Proof.
  intros Hb. induction a as [|c a IH]; [exact Hb|].
  change (String c a +:+ b) with (String c (a +:+ b)).
  cbn [PyStr.contains]. rewrite IH. apply orb_true_r.
Qed.

(** The summary written for a run that has no sheet and whose last error
    holds the authorization phrase: it ends with that error, and holds the
    phrase. *)
Lemma fallback_summary_auth s state :
  sheet_url state = EmptyString ->
  PyStr.contains "Google authorization required" (last_error state) = true ->
  fallback_summary s state
  = "Found " +:+ pretty (num_results state) +:+ " listings in " +:+ location s
    +:+ ", but sheet creation failed. " +:+ last_error state
  /\ PyStr.contains "Google authorization required" (fallback_summary s state) = true.
Proof.
  intros Hu Hc. unfold fallback_summary. rewrite Hu. cbn [PyStr.truthy andb].
  destruct (last_error state) as [|c m] eqn:Em; [discriminate|]. cbn [PyStr.truthy].
  split; [reflexivity|]. by do 4 apply contains_app_r.
Qed.

(** C5, as amended.  In every reply to a [SearchRequest] or to a
    [FollowUpRequest], a non-empty error comes with an empty sheet URL: an
    error is reported only when the run produced no sheet.  In a reply to a
    [SearchRequest] that ran the workflow: when the workflow raised, the
    error is the text of the exception and the summary is empty; when the
    run returned, a non-empty error is a copy of the summary.  In the
    authorization-required case of a [SearchRequest] the instructions are
    in both fields: when the query is an authorization command and the
    credentials check asks for an authorization, the summary and the error
    are both the text of that request (given that it does not start with
    [Google is already connected]); and when the agent loop ends with no
    sheet, with no final answer of the planner, and with a last recorded
    error that holds [Google authorization required], the summary is the
    fallback message that ends with that error, and the error field is the
    same text. *)
Theorem error_field (env : Env) (sender : string) (w : World) :
  (forall msg reply w',
     handle_search env sender msg w = (Ok reply, w') ->
     (error reply <> EmptyString ->
      r_sheet_url reply = EmptyString
      /\ (error reply = r_summary reply \/ r_summary reply = EmptyString))
     /\ (is_auth_query (query msg) = true ->
         forall e,
           _get_user_credentials env (trace w)
                                 (_resolve_user_id (sr_user_id msg) sender) = Raise e ->
           PyStr.startswith (text e) "Google is already connected" = false ->
           r_summary reply = text e /\ error reply = text e
           /\ r_sheet_url reply = EmptyString)
     /\ (is_auth_query (query msg) = false ->
         let uid := _resolve_user_id (sr_user_id msg) sender in
         let input := {| user_request := query msg; wi_user_id := uid |} in
         (forall res w1,
            run_workflow env input w = (Ok res, w1) ->
            r_summary reply = summary res
            /\ r_sheet_url reply = wr_sheet_url res
            /\ (error reply <> EmptyString -> error reply = summary res))
         /\ (forall e w1,
               run_workflow env input w = (Raise e, w1) ->
               error reply = text e /\ r_summary reply = EmptyString)
         /\ (forall parsed out w1,
               extract env (trace w) (query msg) = Ok parsed ->
               location (criteria parsed) <> EmptyString ->
               let s := criteria parsed in
               let w0 := {| _last_search_time := _last_search_time w;
                            _sessions := delete uid (_sessions w);
                            trace := trace w ++ [EvExtract (query msg) (Ok parsed);
                                                 EvSessionPop uid] |} in
               iterations env max_iterations (seed s None) (new_state s uid) w0
               = (Ok out, w1) ->
               final_summary out = EmptyString ->
               sheet_url (state_out out) = EmptyString ->
               PyStr.contains "Google authorization required"
                              (last_error (state_out out)) = true ->
               r_summary reply
               = "Found " +:+ pretty (num_results (state_out out)) +:+ " listings in "
                 +:+ location s +:+ ", but sheet creation failed. "
                 +:+ last_error (state_out out)
               /\ error reply = r_summary reply
               /\ r_sheet_url reply = EmptyString)))
  /\
  (forall msg reply w',
     handle_followup env sender msg w = (Ok reply, w') ->
     error reply <> EmptyString -> r_sheet_url reply = EmptyString).
Proof.
  split.
  - intros msg reply w' E.
    destruct (is_auth_query (query msg)) eqn:Hq.
    { destruct (handle_search_auth env sender msg w reply w' Hq E) as [Hurl Herr].
      split; [|split; [|discriminate]].
      - intros Hne. split; [exact Hurl|]. destruct Herr; [contradiction | auto].
      - intros _ e Hc Hsw. unfold handle_search in E. rewrite Hq in E.
        unfold bind in E. rewrite get_google_auth_message_run in E.
        rewrite Hc in E. destruct (auth_required e); [|discriminate].
        injection E as <- <-. cbn [r_summary error r_sheet_url]. rewrite Hsw. auto. }
    rewrite (handle_search_run env sender msg w Hq) in E.
    set (uid := _resolve_user_id (sr_user_id msg) sender) in *.
    destruct (run_workflow env _ w) as [[res|e] w1] eqn:Er.
    + injection E as <- <-. cbn [error r_sheet_url r_summary].
      assert (Hcopy : (if negb (PyStr.truthy (wr_sheet_url res))
                          && PyStr.contains "Google authorization required" (summary res)
                       then summary res else EmptyString) <> EmptyString ->
                      wr_sheet_url res = EmptyString
                      /\ PyStr.contains "Google authorization required" (summary res) = true).
      { destruct (PyStr.truthy (wr_sheet_url res)) eqn:Hu; cbn [negb andb]; [congruence|].
        apply truthy_empty in Hu.
        destruct (PyStr.contains _ (summary res)); [auto|congruence]. }
      split.
      * intros Hne. apply Hcopy in Hne as [Hurl Hc]. split; [exact Hurl|].
        left. rewrite Hurl, Hc. reflexivity.
      * split; [discriminate|]. intros _. split; [|split].
        -- intros res' w1' E'. rewrite Er in E'. injection E' as <- <-.
           split; [reflexivity|]. split; [reflexivity|].
           intros Hne. apply Hcopy in Hne as [Hurl Hc]. rewrite Hurl, Hc. reflexivity.
        -- intros e w1' E'. rewrite Er in E'. discriminate.
        -- intros parsed out w2 Hparse Hloc. cbv zeta. intros Ei Hfin Hurl Hc.
           rewrite run_workflow_run in Er. cbn [user_request wi_user_id] in Er.
           rewrite Hparse in Er. apply truthy_nonempty in Hloc. rewrite Hloc in Er.
           rewrite (run_agent_loop_ok env _ uid None _ out w2 Ei) in Er.
           injection Er as <- _. cbn [summary wr_sheet_url assemble].
           rewrite Hfin, Hurl. cbn [PyStr.truthy negb andb].
           destruct (fallback_summary_auth (criteria parsed) (state_out out) Hurl Hc)
             as [Hs Hcs].
           rewrite Hcs. auto.
    + injection E as <- <-. cbn [error r_sheet_url r_summary failure_response].
      split; [auto|]. split; [discriminate|]. intros _. split; [|split].
      * intros res w1' E'. rewrite Er in E'. discriminate.
      * intros e' w1' E'. rewrite Er in E'. injection E' as <- <-. auto.
      * intros parsed out w2 Hparse Hloc. cbv zeta. intros Ei Hfin Hurl Hc.
        rewrite run_workflow_run in Er. cbn [user_request wi_user_id] in Er.
        rewrite Hparse in Er. apply truthy_nonempty in Hloc. rewrite Hloc in Er.
        rewrite (run_agent_loop_ok env _ uid None _ out w2 Ei) in Er. discriminate.
  - intros msg reply w' E Hne. rewrite handle_followup_run in E.
    destruct (resume_workflow env _ w) as [[res|e] w1]; injection E as <- <-.
    + contradiction.
    + reflexivity.
Qed.

(** The claim as worded fails: a request with no location is answered with
    no sheet URL and an empty error. *)
Lemma error_field_counterexample :
  exists reply w',
    handle_search Script.env_noloc "agent1"
      {| query := "a nice house"; sr_user_id := "u" |} boot = (Ok reply, w')
    /\ r_sheet_url reply = EmptyString
    /\ error reply = EmptyString.
Proof. eexists _, _. split; [vm_compute; reflexivity|]. split; reflexivity. Qed.

(* ------------------------------------------------------------------ *)
(** ** The theorems at work on the scripted environments *)

(** On a clock that ticks once per reading, the first search of a process
    proceeds and a second one, a second after the stamp, is told to wait
    7.0 seconds. *)
Ltac by_computing := vm_compute; first [reflexivity | discriminate].

Lemma rate_gate_witness :
  let st := new_state Script.renting "u" in
  exists j state' w1,
    _execute_tool Script.env0 "search_listings" Script.austin st boot
    = (Ok (j, state'), w1)
    /\ status j <> Some "rate_limited"
    /\ _execute_tool Script.env0 "search_listings" Script.austin st w1
       = (Ok (rate_limited 70, st), extend w1 [EvTime (1700000002 # 1)])
    /\ rate_limited 70
       = JObj [ ("status", JStr "rate_limited");
                ("message", JStr "Please wait 7.0s before searching again.") ].
Proof.
  intros st.
  destruct (rate_gate Script.env0 Script.austin st boot) as [_ Hopen].
  destruct Hopen as (j & state' & E & Hst & Hpair).
  { right. by_computing. }
  exists j, state'. eexists. split; [exact E|]. split; [exact Hst|].
  split; [|reflexivity].
  assert (Hpos : (0 < time_time Script.env0
                        (trace boot ++ [EvTime (time_time Script.env0 (trace boot))]))%Q)
    by by_computing.
  destruct (Hpair Hpos Script.austin st) as [Hsoon _].
  apply Hsoon. by_computing.
Defined.

(** A run that has not searched yet cannot export. *)
Lemma create_sheet_needs_data_witness :
  _execute_tool Script.env0 "create_sheet" no_fields (new_state Script.renting "u") boot
  = (Ok (no_data_json, new_state Script.renting "u"), boot).
Proof.
  apply (create_sheet_needs_data Script.env0 no_fields (new_state Script.renting "u") boot).
  exact I.
Defined.

(** A request with no place in it. *)
Lemma no_location_outcome_witness :
  run_workflow Script.env_noloc
    {| user_request := "a nice house"; wi_user_id := "u" |} boot
  = (Ok no_location, extend boot [EvExtract "a nice house" (Ok no_fields)]).
Proof.
  exact (proj1 (no_location_outcome Script.env_noloc
                  {| user_request := "a nice house"; wi_user_id := "u" |}
                  boot no_fields eq_refl eq_refl)).
Defined.

(** A fresh run for a user who has a session pops it, then gives the
    planner the instruction alone; a follow-up gives it the stored turn
    first. *)
Lemma fresh_run_clears_witness :
  let input := {| user_request := "3 bed house"; wi_user_id := "u" |} in
  let instruction := user_turn (Text (user_prompt (criteria Script.austin))) in
  (exists r rest,
     trace (snd (run_workflow Script.env0 input Script.with_session)) =
     [EvExtract "3 bed house" (Ok Script.austin); EvSessionPop "u";
      EvPlanner [instruction] r] ++ rest)
  /\
  (exists r rest,
     trace (snd (resume_workflow Script.env0 input Script.with_session)) =
     [EvExtract "3 bed house" (Ok Script.austin);
      EvPlanner (Script.earlier ++ [instruction]) r] ++ rest).
Proof.
  intros input instruction.
  destruct (fresh_run_clears Script.env0 input Script.with_session)
    as (Hfresh & Hresume).
  split.
  - destruct (Hfresh Script.austin eq_refl) as (_ & _ & rest & Ht); [discriminate|].
    eexists _, rest. exact Ht.
  - destruct (Hresume _ _ Script.austin eq_refl eq_refl) as (_ & rest & Ht).
    eexists _, rest. exact Ht.
Defined.

(** The export needs an authorization and the planner ends without a
    text: the reply carries the instructions in both fields. *)
Lemma error_field_witness :
  exists reply w',
    handle_search Script.env_auth "agent1"
      {| query := "3 bed house"; sr_user_id := "u" |} boot = (Ok reply, w')
    /\ r_sheet_url reply = EmptyString
    /\ error reply = r_summary reply
    /\ PyStr.contains "Google authorization required" (error reply) = true.
Proof.
  destruct (handle_search Script.env_auth "agent1"
              {| query := "3 bed house"; sr_user_id := "u" |} boot)
    as [[reply|e] w'] eqn:E; [|vm_compute in E; discriminate].
  exists reply, w'. split; [reflexivity|].
  destruct (error_field Script.env_auth "agent1" boot) as [Hsearch _].
  destruct (Hsearch _ _ _ E) as (_ & _ & Hrun).
  destruct (Hrun eq_refl) as (_ & _ & Hauth).
  destruct (iterations Script.env_auth max_iterations
              (seed (criteria Script.austin) None)
              (new_state (criteria Script.austin) "u")
              {| _last_search_time := _last_search_time boot;
                 _sessions := delete "u" (_sessions boot);
                 trace := trace boot ++ [EvExtract "3 bed house" (Ok Script.austin);
                                         EvSessionPop "u"] |})
    as [[out|e] w1] eqn:Ei; [|vm_compute in Ei; discriminate].
  assert (Hout : final_summary out = EmptyString
                 /\ sheet_url (state_out out) = EmptyString
                 /\ last_error (state_out out)
                    = "Google authorization required for sheet creation.").
  { apply (f_equal fst) in Ei. cbn [fst] in Ei. vm_compute in Ei.
    injection Ei as <-. repeat split. }
  destruct Hout as (Hfin & Hurl & Herr).
  destruct (Hauth Script.austin out w1 eq_refl ltac:(discriminate) Ei Hfin Hurl)
    as (Hs & Hsame & Hnone); [by rewrite Herr|].
  split; [exact Hnone|]. split; [exact Hsame|].
  rewrite Hsame, Hs, Herr. by do 4 apply contains_app_r.
Defined.

(** A planner that asks for the export at every turn is stopped after its
    eighth call. *)
Lemma agent_loop_capped_witness :
  exists out w' d,
    run_agent_loop Script.env_loop (criteria Script.austin) "u" None boot
    = (Ok (assemble (criteria Script.austin) "u" out), w')
    /\ trace w' = trace boot ++ d
    /\ planner_calls d = 8%nat
    /\ final_summary out = EmptyString
    /\ summary (assemble (criteria Script.austin) "u" out)
       = fallback_summary (criteria Script.austin) (state_out out)
    /\ _sessions w' !! "u" = Some (messages out).
Proof.
  apply (agent_loop_capped Script.env_loop (criteria Script.austin) "u" None boot).
  intros h msgs. eexists. split; reflexivity.
Defined.


(** The counterexample's search, read through the amended claim. *)
Lemma overrides_rebuild_witness :
  exists used state',
    search state' = Some used
    /\ location used = "San Diego, CA"
    /\ listing_type used = "for_sale"
    /\ past_days used = 30
    /\ min_beds used = None.
Proof.
  destruct (overrides_rebuild Script.env0 Script.only_location
              (new_state Script.renting "u") boot)
    as (used & j & state' & r & w' & _ & _ & Hs & Hloc & Hlt & Hpd & _ & _ & Hmb & _).
  { right. by_computing. }
  exists used, state'. repeat split; assumption.
Defined.

Lemma plan3_answers answer h msgs :
  exists response, Script.plan3 answer h msgs = Ok response.
Proof.
  unfold Script.plan3. destruct (planner_calls h) as [|[|n]]; eexists; reflexivity.
Defined.

(** The conversation of the first scenario is stored under its user. *)
Lemma session_saved_witness :
  exists res w' turns,
    run_agent_loop Script.env0 (criteria Script.austin) "u" None boot = (Ok res, w')
    /\ _sessions w' !! "u"
       = Some ({| role := "user";
                  body := Text (user_prompt (criteria Script.austin)) |}
               :: transcript turns)
    /\ (length turns <= 8)%nat.
Proof.
  destruct (session_saved Script.env0 (criteria Script.austin) "u" None boot)
    as [Hreturns Hstored].
  destruct Hreturns as (res & w' & E); [intros h msgs; apply plan3_answers|].
  destruct (Hstored res w' E) as (turns & d & _ & Hlookup & _ & _ & _ & _ & Hlen).
  exists res, w', turns. split; [exact E|]. split; [exact Hlookup|exact Hlen].
Defined.

(** Three listings come back cheapest first. *)
Lemma listings_capped_witness :
  exists d w',
    fetch_listings Script.env0 (criteria Script.austin) boot = (Ok d, w')
    /\ (Pandas.len d <= 20)%nat
    /\ Pandas.sorted_by "Price ($)" d.
Proof.
  eexists _, _. split; [vm_compute; reflexivity|].
  assert (Hframes : scraper_frames Script.env0)
    by (intros h a p [= <-] _; discriminate).
  eapply (proj1 (listings_capped Script.env0 Hframes) (criteria Script.austin) boot).
  vm_compute. reflexivity.
Defined.

(* ------------------------------------------------------------------ *)
(** ** Property types *)

Lemma existsb_eqb_In x l : existsb (String.eqb x) l = true <-> In x l.
Proof.
  rewrite existsb_exists. split.
  - intros (y & Hy & E). apply String.eqb_eq in E. by subst.
  - intros H. exists x. split; [exact H | apply String.eqb_refl].
Qed.

Lemma fold_add_key_spec l : forall acc,
  NoDup acc ->
  NoDup (fold_left add_key l acc)
  /\ (forall x, In x (fold_left add_key l acc) <-> In x acc \/ In x l).
Proof.
  induction l as [|y l IH]; intros acc Hacc; cbn [fold_left].
  - split; [exact Hacc|]. intros x. simpl. tauto.
  - unfold add_key at 2 4. destruct (existsb (String.eqb y) acc) eqn:E.
    + destruct (IH acc Hacc) as [Hn Hin]. split; [exact Hn|].
      intros x. rewrite Hin. simpl. apply existsb_eqb_In in E.
      split; [tauto|]. intros [H|[<-|H]]; auto.
    + assert (Hy : ~ In y acc).
      { intros H. apply existsb_eqb_In in H. congruence. }
      assert (Hacc' : NoDup (acc ++ [y])).
      { apply NoDup_app. repeat split; [exact Hacc | | apply NoDup_singleton].
        intros x Hx [<-|[]]%list_elem_of_In. apply Hy.
        by apply list_elem_of_In. }
      destruct (IH (acc ++ [y]) Hacc') as [Hn Hin]. split; [exact Hn|].
      intros x. rewrite Hin, in_app_iff. simpl. tauto.
Qed.

Lemma fold_add_key_fresh l : forall acc,
  NoDup (acc ++ l) -> fold_left add_key l acc = acc ++ l.
Proof.
  induction l as [|y l IH]; intros acc Hn; cbn [fold_left].
  - by rewrite app_nil_r.
  - unfold add_key at 2. destruct (existsb (String.eqb y) acc) eqn:E.
    + apply existsb_eqb_In in E. apply NoDup_app in Hn as (_ & Hd & _).
      exfalso. eapply Hd; [by apply list_elem_of_In | left].
    + rewrite IH; rewrite <- app_assoc; [reflexivity | exact Hn].
Qed.

Lemma fromkeys_spec l :
  NoDup (fromkeys l) /\ (forall x, In x (fromkeys l) <-> In x l).
Proof.
  destruct (fold_add_key_spec l [] NoDup_nil_2) as [Hn Hin].
  split; [exact Hn|]. intros x. unfold fromkeys. fold add_key.
  rewrite Hin. simpl. tauto.
Qed.

Lemma fromkeys_fresh l : NoDup l -> fromkeys l = l.
Proof. intros Hn. apply (fold_add_key_fresh l []). exact Hn. Qed.

Lemma type_map_values k v :
  assoc k type_map = Some v -> In v homeharvest_types.
Proof.
  unfold type_map. cbn [assoc].
  repeat (destruct (String.eqb k _); [intros [= <-]; simpl; tauto|]).
  discriminate.
Qed.

Lemma type_map_fixed v :
  In v homeharvest_types ->
  assoc (PyStr.lower (PyStr.strip v)) type_map = Some v.
Proof. intros [<-|[<-|[<-|[<-|[]]]]]; reflexivity. Qed.

Lemma omap_type_map_values l :
  Forall (fun v => In v homeharvest_types)
    (omap (fun item => assoc (PyStr.lower (PyStr.strip item)) type_map) l).
Proof.
  induction l as [|x l IH]; cbn [omap list_omap]; [constructor|].
  destruct (assoc _ type_map) as [v|] eqn:E; [|exact IH].
  constructor; [eapply type_map_values, E | exact IH].
Qed.

Lemma omap_type_map_fixed l :
  Forall (fun v => In v homeharvest_types) l ->
  omap (fun item => assoc (PyStr.lower (PyStr.strip item)) type_map) l = l.
Proof.
  induction 1 as [|x l Hx Hl IH]; cbn [omap list_omap]; [reflexivity|].
  rewrite (type_map_fixed x Hx), IH. reflexivity.
Qed.

(** X1. What [_normalize_property_types] returns is [None] or a list that
    is not empty, has no duplicate and holds only property types that
    HomeHarvest knows; normalizing it again changes nothing. *)
Theorem normalize_property_types_clean (property_types : option (list string)) :
  match _normalize_property_types property_types with
  | None => True
  | Some l =>
      l <> [] /\ NoDup l /\ Forall (fun v => In v homeharvest_types) l
  end
  /\ _normalize_property_types (_normalize_property_types property_types)
     = _normalize_property_types property_types.
Proof.
  assert (Hclean : match _normalize_property_types property_types with
                   | None => True
                   | Some l => l <> [] /\ NoDup l
                               /\ Forall (fun v => In v homeharvest_types) l
                   end).
  { unfold _normalize_property_types.
    destruct property_types as [[|x l]|]; try exact I.
    pose proof (omap_type_map_values (x :: l)) as Hv.
    destruct (omap _ (x :: l)) as [|v vs] eqn:E; [exact I|].
    destruct (fromkeys_spec (v :: vs)) as [Hn Hin]. repeat split.
    - intros Hnil. assert (Hv0 : In v (fromkeys (v :: vs))) by (apply Hin; left; reflexivity).
      rewrite Hnil in Hv0. contradiction.
    - exact Hn.
    - apply List.Forall_forall. intros y Hy. apply Hin in Hy.
      rewrite List.Forall_forall in Hv. by apply Hv. }
  split; [exact Hclean|].
  destruct (_normalize_property_types property_types) as [l|] eqn:E; [|reflexivity].
  destruct Hclean as (Hne & Hn & Hv).
  unfold _normalize_property_types. destruct l as [|v vs]; [congruence|].
  rewrite (omap_type_map_fixed _ Hv), (fromkeys_fresh _ Hn). reflexivity.
Qed.

(* ------------------------------------------------------------------ *)
(** ** The bounds of a search *)

Section Shaping.
Import Pandas.

Lemma mask_filter_keeps ge c v p p' :
  mask_filter ge c v p = Ok p' ->
  columns p' = columns p
  /\ (forall r, In r (rows p') -> In r (rows p))
  /\ (forall i r, col_index c (columns p') = Some i -> In r (rows p') ->
        exists z, cell_at i r = CNum z /\ if ge then v <= z else z <= v).
Proof.
  unfold mask_filter. destruct (col_index c (columns p)) as [i|] eqn:Ei; [|discriminate].
  destruct (existsb _ (rows p)); [discriminate|]. intros [= <-]. cbn [columns rows].
  split; [reflexivity|]. split.
  - intros r Hr. apply List.filter_In in Hr. tauto.
  - intros j r Hj Hr. rewrite Ei in Hj. injection Hj as <-.
    apply List.filter_In in Hr as [_ Hr].
    destruct (cell_at i r) as [z| |]; try discriminate.
    exists z. split; [reflexivity|]. destruct ge; by apply Z.leb_le.
Qed.

Lemma apply_bound_keeps b ge c p p' :
  apply_bound b ge c p = Ok p' ->
  columns p' = columns p
  /\ (forall r, In r (rows p') -> In r (rows p))
  /\ (truthy_int b = true ->
      forall i r, col_index c (columns p') = Some i -> In r (rows p') ->
        meets b ge (cell_at i r)).
Proof.
  unfold apply_bound. destruct (truthy_int b).
  - intros E. apply mask_filter_keeps in E as (Hc & Hr & Hm). auto.
  - intros [= <-]. repeat split; auto. discriminate.
Qed.

Lemma insert_row_In i r l x : In x (insert_row i r l) -> x = r \/ In x l.
Proof.
  induction l as [|y l IH]; cbn [insert_row].
  - intros [->|[]]. left. reflexivity.
  - destruct (cell_le _ _).
    + intros [->|H]; [right; left; reflexivity|].
      apply IH in H as [->|H]; [left | right; right]; auto.
    + intros [->|H]; [left | right]; auto.
Qed.

Lemma sort_rows_In i l x : In x (sort_rows i l) -> In x l.
Proof.
  induction l as [|y l IH]; cbn [sort_rows fold_right]; [tauto|]. intros H.
  apply insert_row_In in H as [->|H]; [left | right; apply IH]; auto.
Qed.

Lemma sort_values_keeps c d d' :
  sort_values c d = Ok d' ->
  columns d' = columns d /\ forall r, In r (rows d') -> In r (rows d).
Proof.
  unfold sort_values. destruct (col_index c (columns d)); [|discriminate].
  destruct (_ && _); [discriminate|]. intros [= <-]. split; [reflexivity|].
  apply sort_rows_In.
Qed.

Lemma firstn_In {A} n (l : list A) x : In x (firstn n l) -> In x l.
Proof.
  intros H. rewrite <- (firstn_skipn n l). apply in_or_app. left. exact H.
Qed.

Lemma has_column_Some c d :
  has_column c d = true -> exists i, col_index c (columns d) = Some i.
Proof. unfold has_column. rewrite bool_decide_eq_true. intros [i Hi]. eauto. Qed.

(** The cell a selected and renamed row has under a new label is the cell
    the row had under the old one. *)
Lemma project_cell cols r v : forall (renames : list (string * string)) j,
  (forall kv, In kv renames -> exists i, col_index (fst kv) cols = Some i) ->
  col_index v (map snd renames) = Some j ->
  exists k i,
    In (k, v) renames
    /\ col_index k cols = Some i
    /\ cell_at j (project (omap (fun kv => col_index (fst kv) cols) renames) r)
       = cell_at i r.
Proof.
  induction renames as [|[k0 v0] t IH]; intros j Hall Hj; [discriminate|].
  destruct (Hall (k0, v0)) as [i0 Hi0]; [left; reflexivity|].
  cbn [map snd col_index] in Hj. cbn [omap list_omap fst]. cbn [fst] in Hi0.
  rewrite Hi0. cbn [project map].
  destruct (String.eqb v v0) eqn:Ev.
  - injection Hj as <-. apply String.eqb_eq in Ev as ->.
    exists k0, i0. repeat split; [left; reflexivity | exact Hi0].
  - destruct (col_index v (map snd t)) as [j'|] eqn:Ej; [|discriminate].
    injection Hj as <-.
    destruct (IH j') as (k & i & Hin & Hi & Hc);
      [intros kv Hkv; apply Hall; right; exact Hkv | reflexivity |].
    exists k, i. repeat split; [right; exact Hin | exact Hi | exact Hc].
Qed.

Lemma keep_cols_key k v :
  In (k, v) keep_cols ->
  (v = "Price ($)" -> k = "list_price")
  /\ (v = "Beds" -> k = "beds")
  /\ (v = "Size (sqft)" -> k = "sqft").
Proof.
  unfold keep_cols. simpl.
  intros H. repeat (destruct H as [[= <- <-]|H]; [repeat split; congruence|]).
  contradiction.
Qed.

Lemma two_bounds lo hi c p p1 p2 :
  apply_bound lo true c p = Ok p1 ->
  apply_bound hi false c p1 = Ok p2 ->
  columns p2 = columns p
  /\ (forall r, In r (rows p2) -> In r (rows p))
  /\ column_within c lo hi p2.
Proof.
  intros E1 E2.
  apply apply_bound_keeps in E1 as (Hc1 & Hr1 & Hm1).
  apply apply_bound_keeps in E2 as (Hc2 & Hr2 & Hm2).
  split; [congruence|]. split; [auto|].
  intros j r Hj Hr. split; intros Hb.
  - apply Hm1; [exact Hb | congruence | auto].
  - apply Hm2; assumption.
Qed.

Lemma column_within_keeps c lo hi p p' :
  columns p' = columns p ->
  (forall r, In r (rows p') -> In r (rows p)) ->
  column_within c lo hi p -> column_within c lo hi p'.
Proof.
  intros Hc Hr Hw j r Hj Hin. apply Hw; [congruence | auto].
Qed.

(** A shaped frame, row by row: its columns are the display names of the
    kept columns the filtered frame has, and each of its rows is a row of
    the filtered frame, cut down to these columns. *)
Lemma shape_listings_rows s p d :
  shape_listings s p = Ok d ->
  exists p6,
    column_within "list_price" (min_price s) (max_price s) p6
    /\ column_within "beds" (min_beds s) (max_beds s) p6
    /\ column_within "sqft" (min_sqft s) (max_sqft s) p6
    /\ columns p6 = columns p
    /\ (forall r, In r (rows p6) -> In r (rows p))
    /\ let available := List.filter (fun kv => has_column (fst kv) p6) keep_cols in
       columns d = map snd available
       /\ forall r', In r' (rows d) ->
            exists r, In r (rows p6)
              /\ r' = project (omap (fun kv => col_index (fst kv) (columns p6)) available) r.
Proof.
  unfold shape_listings.
  destruct (apply_bound (min_price s) true "list_price" p) as [p1|] eqn:E1;
    cbn [rbind]; [|discriminate].
  destruct (apply_bound (max_price s) false "list_price" p1) as [p2|] eqn:E2;
    cbn [rbind]; [|discriminate].
  destruct (apply_bound (min_beds s) true "beds" p2) as [p3|] eqn:E3;
    cbn [rbind]; [|discriminate].
  destruct (apply_bound (max_beds s) false "beds" p3) as [p4|] eqn:E4;
    cbn [rbind]; [|discriminate].
  destruct (apply_bound (min_sqft s) true "sqft" p4) as [p5|] eqn:E5;
    cbn [rbind]; [|discriminate].
  destruct (apply_bound (max_sqft s) false "sqft" p5) as [p6|] eqn:E6;
    cbn [rbind]; [|discriminate].
  destruct (two_bounds _ _ _ _ _ _ E1 E2) as (Hc2 & Hr2 & Hw2).
  destruct (two_bounds _ _ _ _ _ _ E3 E4) as (Hc4 & Hr4 & Hw4).
  destruct (two_bounds _ _ _ _ _ _ E5 E6) as (Hc6 & Hr6 & Hw6).
  intros E. exists p6.
  split; [eapply column_within_keeps; [| |exact Hw2]; [congruence | auto]|].
  split; [eapply column_within_keeps; [| |exact Hw4]; [congruence | auto]|].
  split; [exact Hw6|]. split; [congruence|]. split; [auto|].
  set (available := List.filter _ keep_cols) in *.
  set (res := select_rename available p6) in E.
  assert (Hres : columns res = map snd available
                 /\ forall r', In r' (rows res) ->
                      exists r, In r (rows p6)
                        /\ r' = project (omap (fun kv => col_index (fst kv) (columns p6))
                                              available) r).
  { split; [reflexivity|]. intros r' Hr'. cbn [res select_rename rows] in Hr'.
    apply in_map_iff in Hr' as (r & <- & Hr). exists r. split; [exact Hr | reflexivity]. }
  destruct Hres as [Hcols Hrows].
  destruct (has_column "Price ($)" res); cbn [rbind] in E.
  - destruct (sort_values "Price ($)" res) as [sorted|] eqn:Es; cbn [rbind] in E;
      [|discriminate].
    apply sort_values_keeps in Es as [Hcs Hrs]. injection E as <-.
    cbn [head columns rows]. split; [congruence|].
    intros r' Hr'. apply Hrows, Hrs. eapply firstn_In, Hr'.
  - injection E as <-. cbn [head columns rows]. split; [exact Hcols|].
    intros r' Hr'. apply Hrows. eapply firstn_In, Hr'.
Qed.

End Shaping.

Lemma shaped_column_within p6 d k v lo hi :
  let available := List.filter (fun kv => Pandas.has_column (fst kv) p6) keep_cols in
  columns d = map snd available ->
  (forall r', In r' (rows d) ->
     exists r, In r (rows p6)
       /\ r' = project (omap (fun kv => Pandas.col_index (fst kv) (columns p6)) available) r) ->
  (forall k', In (k', v) keep_cols -> k' = k) ->
  column_within k lo hi p6 ->
  column_within v lo hi d.
Proof.
  intros available Hcols Hrows Hkey Hw j r' Hj Hr'.
  destruct (Hrows r' Hr') as (r & Hr & ->). rewrite Hcols in Hj.
  destruct (project_cell (columns p6) r v available j) as (k' & i & Hin & Hi & Hc).
  - intros kv Hkv. apply List.filter_In in Hkv as [_ Hkv].
    by apply has_column_Some.
  - exact Hj.
  - rewrite Hc. apply List.filter_In in Hin as [Hin _].
    apply Hkey in Hin as ->. by apply Hw.
Qed.

(** X2. Every row [fetch_listings] returns meets the bounds of the search
    that are set: its price is a number between [min_price] and
    [max_price], its bedrooms between [min_beds] and [max_beds], its area
    between [min_sqft] and [max_sqft].  When the scraper's frame is not
    empty, the columns returned are the display names of the kept columns
    that frame has, and no other. *)
Theorem bounds_respected (env : Env) (s : SearchInput) (w : World)
  (d : DataFrame) (w' : World) :
  fetch_listings env s w = (Ok d, w') ->
  column_within "Price ($)" (min_price s) (max_price s) d
  /\ column_within "Beds" (min_beds s) (max_beds s) d
  /\ column_within "Size (sqft)" (min_sqft s) (max_sqft s) d
  /\ forall properties,
       scrape_property env (trace w) (scrape_args s) = Ok properties ->
       Pandas.empty properties = false ->
       forall v, In v (columns d) <->
                 exists k, In (k, v) keep_cols
                           /\ Pandas.has_column k properties = true.
Proof.
  intros E. rewrite fetch_listings_run in E. injection E as E _.
  unfold fetched in E.
  destruct (scrape_property env (trace w) (scrape_args s)) as [p|e]; [|discriminate].
  cbn [rbind] in E. destruct (Pandas.empty p) eqn:Hp.
  - injection E as <-.
    assert (Hv : forall v lo hi, column_within v lo hi p).
    { intros v lo hi j r Hj Hr. unfold Pandas.empty in Hp.
      destruct (columns p); [discriminate|]. destruct (rows p); [contradiction|discriminate]. }
    split; [apply Hv|]. split; [apply Hv|]. split; [apply Hv|].
    intros p' [= <-] Hne. congruence.
  - apply shape_listings_rows in E
      as (p6 & Hprice & Hbeds & Hsqft & Hc6 & _ & Hcols & Hrows).
    split; [|split; [|split]].
    + eapply shaped_column_within; [exact Hcols | exact Hrows | | exact Hprice].
      intros k' Hk. by apply keep_cols_key in Hk as (-> & _).
    + eapply shaped_column_within; [exact Hcols | exact Hrows | | exact Hbeds].
      intros k' Hk. by apply keep_cols_key in Hk as (_ & -> & _).
    + eapply shaped_column_within; [exact Hcols | exact Hrows | | exact Hsqft].
      intros k' Hk. by apply keep_cols_key in Hk as (_ & _ & ->).
    + intros p' [= <-] _ v. rewrite Hcols, in_map_iff. split.
      * intros ([k v'] & <- & Hin). apply List.filter_In in Hin as [Hin Hhas].
        exists k. split; [exact Hin|]. unfold Pandas.has_column in *.
        cbn [fst snd] in *. by rewrite <- Hc6.
      * intros (k & Hin & Hhas). exists (k, v). split; [reflexivity|].
        apply List.filter_In. split; [exact Hin|]. unfold Pandas.has_column in *.
        cbn [fst]. by rewrite Hc6.
Qed.

(** Of three listings, the one above the maximum price is dropped. *)
Lemma bounds_respected_witness :
  exists d w',
    fetch_listings Cases.env_mixed (criteria Script.austin) boot = (Ok d, w')
    /\ Pandas.len d = 2%nat
    /\ column_within "Price ($)" None (Some 600000) d.
Proof.
  eexists _, _. split; [vm_compute; reflexivity|]. split; [reflexivity|].
  refine (proj1 (bounds_respected Cases.env_mixed (criteria Script.austin) boot _ _ _)).
  vm_compute. reflexivity.
Defined.

(* ------------------------------------------------------------------ *)
(** ** Outcomes of the two tools *)

Section Outcomes.

Variable env : Env.

Lemma create_sheet_run state w d s :
  df state = Some d -> Pandas.empty d = false -> search state = Some s ->
  let made := create_listings_sheet env (trace w) d (location s) (listing_type s)
                                    (user_id state) in
  create_sheet env state w =
    (Ok (settle_sheet state d made),
     extend w [EvSheet d (location s) (listing_type s) (user_id state) made]).
Proof.
  intros Hd He Hs made. unfold create_sheet. rewrite Hd, He, Hs.
  unfold bind, attempt. rewrite call_sheet_run. fold made.
  destruct made; reflexivity.
Qed.

Lemma settle_search_fields s state f :
  let state' := snd (settle_search env s state f) in
  user_id state' = user_id state
  /\ search state' = search state
  /\ sheet_url state' = sheet_url state
  /\ num_results state' = stored_count (df state').
Proof.
  unfold settle_search. destruct f as [d|e]; [|by repeat split].
  destruct (Pandas.empty d) eqn:He; cbn [snd].
  - repeat split. cbn. by rewrite He.
  - destruct (success_json env s d); cbn [snd]; repeat split. cbn. by rewrite He.
Qed.

Lemma apply_bound_missing b ge c p :
  truthy_int b = true -> Pandas.has_column c p = false ->
  apply_bound b ge c p = Raise (Pandas.KeyError c).
Proof.
  intros Hb Hc. unfold apply_bound, Pandas.mask_filter. rewrite Hb.
  by rewrite (PandasFacts.has_column_false _ _ Hc).
Qed.

Lemma apply_bound_has b ge c c' p p' :
  apply_bound b ge c p = Ok p' ->
  Pandas.has_column c' p' = Pandas.has_column c' p.
Proof.
  intros E. apply apply_bound_keeps in E as (Hc & _).
  unfold Pandas.has_column. by rewrite Hc.
Qed.

(** A bound that is set on a column the frame does not have makes the
    shaping raise. *)
Lemma shape_listings_missing s p b c :
  In (b, c) (bounds_of s) -> truthy_int b = true ->
  Pandas.has_column c p = false ->
  exists e, shape_listings s p = Raise e.
Proof.
  intros Hin Hb Hc. unfold shape_listings.
  destruct (apply_bound (min_price s) true "list_price" p) as [p1|] eqn:E1;
    cbn [rbind]; [|eauto].
  destruct (apply_bound (max_price s) false "list_price" p1) as [p2|] eqn:E2;
    cbn [rbind]; [|eauto].
  destruct (apply_bound (min_beds s) true "beds" p2) as [p3|] eqn:E3;
    cbn [rbind]; [|eauto].
  destruct (apply_bound (max_beds s) false "beds" p3) as [p4|] eqn:E4;
    cbn [rbind]; [|eauto].
  destruct (apply_bound (min_sqft s) true "sqft" p4) as [p5|] eqn:E5;
    cbn [rbind]; [|eauto].
  destruct (apply_bound (max_sqft s) false "sqft" p5) as [p6|] eqn:E6;
    cbn [rbind]; [|eauto].
  exfalso.
  pose proof (apply_bound_has _ _ _ c _ _ E1) as H1.
  pose proof (apply_bound_has _ _ _ c _ _ E2) as H2.
  pose proof (apply_bound_has _ _ _ c _ _ E3) as H3.
  pose proof (apply_bound_has _ _ _ c _ _ E4) as H4.
  pose proof (apply_bound_has _ _ _ c _ _ E5) as H5.
  unfold bounds_of in Hin. simpl in Hin.
  destruct Hin as [[= <- <-]|[[= <- <-]|[[= <- <-]|[[= <- <-]|[[= <- <-]|[[= <- <-]|[]]]]]]].
  - rewrite apply_bound_missing in E1; [discriminate | exact Hb | exact Hc].
  - rewrite apply_bound_missing in E2; [discriminate | exact Hb | congruence].
  - rewrite apply_bound_missing in E3; [discriminate | exact Hb | congruence].
  - rewrite apply_bound_missing in E4; [discriminate | exact Hb | congruence].
  - rewrite apply_bound_missing in E5; [discriminate | exact Hb | congruence].
  - rewrite apply_bound_missing in E6; [discriminate | exact Hb | congruence].
Qed.

End Outcomes.

(** X3. A search that passed the rate gate and whose fetch raised answers
    with status [error] and the text of the exception, keeps the new
    criteria, drops the stored frame, sets the count to 0 and records the
    text as the last error; the sheet URL is as it was and the timestamp is
    the new stamp, so the failed search counts for the cooldown.  The fetch
    raises when the scraper raises, and when the scraper's frame is not
    empty and lacks the column of a bound that is set. *)
Theorem failed_search (env : Env) (tool_input : Fields) (state : _RunState)
  (w : World) :
  let t := time_time env (trace w) in
  let last := _last_search_time w in
  let t' := time_time env (trace w ++ [EvTime t]) in
  let s := build_search tool_input state in
  let r := scrape_property env (trace w ++ [EvTime t; EvTime t'; EvStamp t'])
                           (scrape_args s) in
  (SEARCH_COOLDOWN_SECONDS <= t - last)%Q \/ (last <= 0)%Q ->
  (forall e,
     fetched s r = Raise e ->
     _execute_tool env "search_listings" tool_input state w
     = (Ok (search_error_json e,
            {| search := Some s; user_id := user_id state; df := None;
               sheet_url := sheet_url state; num_results := 0;
               last_error := text e |}),
        {| _last_search_time := t';
           _sessions := _sessions w;
           trace := trace w ++ [EvTime t; EvTime t'; EvStamp t';
                                EvScrape (scrape_args s) r] |})
     /\ status (search_error_json e) = Some "error")
  /\ (forall e, r = Raise e -> fetched s r = Raise e)
  /\ (forall p b c,
        r = Ok p -> Pandas.empty p = false ->
        In (b, c) (bounds_of s) -> truthy_int b = true ->
        Pandas.has_column c p = false ->
        exists e, fetched s r = Raise e).
Proof.
  intros t last t' s r Hopen.
  assert (Hg : gate_closed t last = false)
    by (apply gate_closed_false; destruct Hopen; [right|left]; assumption).
  split; [|split].
  - intros e Hf. split; [|reflexivity].
    rewrite _execute_tool_search, (search_listings_open env tool_input state w Hg).
    fold t t' s r. rewrite Hf. reflexivity.
  - intros e ->. reflexivity.
  - intros p b c -> Hp Hin Hb Hc. cbn [fetched rbind]. rewrite Hp.
    eapply shape_listings_missing; eassumption.
Qed.

(** The scraper is down: the search is answered with its error, and the
    cooldown has started all the same. *)
Lemma failed_search_witness :
  exists w',
    _execute_tool Cases.env_down "search_listings" Script.austin
      (new_state Script.renting "u") boot
    = (Ok (search_error_json (Exception "403 Forbidden"),
           {| search := Some (criteria Script.austin); user_id := "u"; df := None;
              sheet_url := EmptyString; num_results := 0;
              last_error := "403 Forbidden" |}), w')
    /\ _last_search_time w' = (1700000001 # 1)%Q.
Proof.
  eexists. split.
  - refine (proj1 (proj1 (failed_search Cases.env_down Script.austin
                            (new_state Script.renting "u") boot _) _ _)).
    + right. by_computing.
    + reflexivity.
  - reflexivity.
Defined.

(** X4. The tool executor never raises, whatever the tool name: it returns
    an outcome, only appends to the trace, does not invoke the planner and
    leaves the session map and the user of the run state as they were.
    Only [search_listings] writes the timestamp, and a name that is none of
    the two tools is answered by an [Unknown tool] object with no status,
    with the run state and the world untouched. *)
Theorem tool_executor_safe (env : Env) (tool_name : string) (tool_input : Fields)
  (state : _RunState) (w : World) :
  exists j state' w' d,
    _execute_tool env tool_name tool_input state w = (Ok (j, state'), w')
    /\ trace w' = trace w ++ d
    /\ planner_calls d = 0%nat
    /\ _sessions w' = _sessions w
    /\ user_id state' = user_id state
    /\ (tool_name <> "search_listings" -> _last_search_time w' = _last_search_time w)
    /\ (tool_name <> "search_listings" -> tool_name <> "create_sheet" ->
        j = JObj [ ("error", JStr ("Unknown tool: " +:+ tool_name)) ]
        /\ status j = None /\ state' = state /\ w' = w).
Proof.
  unfold _execute_tool.
  destruct (String.eqb tool_name "search_listings") eqn:Es;
    [|destruct (String.eqb tool_name "create_sheet") eqn:Ec].
  - apply String.eqb_eq in Es.
    destruct (gate_closed (time_time env (trace w)) (_last_search_time w)) eqn:Hg.
    + rewrite (search_listings_closed env tool_input state w Hg).
      eexists _, _, _, _. split; [reflexivity|]. cbn [trace extend _sessions].
      repeat split; congruence.
    + rewrite (search_listings_open env tool_input state w Hg).
      match goal with
      | |- context [Ok (settle_search ?e ?s ?st ?f)] =>
          destruct (settle_search_fields e s st f) as (Hu & _);
          exists (fst (settle_search e s st f)), (snd (settle_search e s st f))
      end.
      rewrite <- surjective_pairing. eexists _, _. split; [reflexivity|].
      cbn [trace _sessions]. repeat split; try congruence. exact Hu.
  - apply String.eqb_eq in Ec. apply String.eqb_neq in Es.
    unfold create_sheet.
    destruct (df state) as [d|] eqn:Hd;
      [destruct (Pandas.empty d) eqn:He|].
    + exists no_data_json, state, w, []. rewrite app_nil_r.
      repeat split; congruence.
    + destruct (search state) as [s|] eqn:Hs; unfold bind, attempt.
      * rewrite call_sheet_run.
        destruct (create_listings_sheet env (trace w) d (location s) (listing_type s)
                    (user_id state));
          eexists _, _, _, _; (split; [reflexivity|]);
          cbn [trace extend _sessions _last_search_time]; repeat split; congruence.
      * eexists _, _, w, []. split; [reflexivity|]. rewrite app_nil_r.
        repeat split; congruence.
    + exists no_data_json, state, w, []. rewrite app_nil_r.
      repeat split; congruence.
  - exists (JObj [ ("error", JStr ("Unknown tool: " +:+ tool_name)) ]), state, w, [].
    rewrite app_nil_r. repeat split.
Qed.

(** A tool the executor does not know. *)
Lemma tool_executor_safe_witness :
  _execute_tool Script.env0 "delete_sheet" no_fields (new_state Script.renting "u") boot
  = (Ok (JObj [ ("error", JStr "Unknown tool: delete_sheet") ],
         new_state Script.renting "u"), boot).
Proof.
  destruct (tool_executor_safe Script.env0 "delete_sheet" no_fields
              (new_state Script.renting "u") boot)
    as (j & state' & w' & d & E & _ & _ & _ & _ & _ & Hunknown).
  destruct Hunknown as (-> & _ & -> & ->); [discriminate | discriminate |].
  exact E.
Defined.

(** X5. With a stored frame that is not empty, [create_sheet] calls the
    export once, with that frame, the location and listing type of the
    run's current criteria and the run's user.  When the export returns a
    URL the outcome is [success], the URL becomes the run's sheet URL and
    the last error is cleared.  When it raises, the outcome is
    [auth_required] for a [GoogleAuthRequiredError] and [error] otherwise,
    the text of the exception becomes the last error and the sheet URL is
    as it was.  The stored frame, the count and the criteria are never
    changed. *)
Theorem export_outcomes (env : Env) (tool_input : Fields) (state : _RunState)
  (w : World) (d : DataFrame) (s : SearchInput) :
  df state = Some d -> Pandas.empty d = false -> search state = Some s ->
  let made := create_listings_sheet env (trace w) d (location s) (listing_type s)
                                    (user_id state) in
  exists j state',
    _execute_tool env "create_sheet" tool_input state w
    = (Ok (j, state'),
       extend w [EvSheet d (location s) (listing_type s) (user_id state) made])
    /\ df state' = Some d
    /\ num_results state' = num_results state
    /\ search state' = Some s
    /\ match made with
       | Ok url =>
           status j = Some "success"
           /\ sheet_url state' = url
           /\ last_error state' = EmptyString
       | Raise e =>
           status j = Some (if auth_required e then "auth_required" else "error")
           /\ sheet_url state' = sheet_url state
           /\ last_error state' = text e
       end.
Proof.
  intros Hd He Hs made.
  exists (fst (settle_sheet state d made)), (snd (settle_sheet state d made)).
  rewrite <- surjective_pairing, _execute_tool_sheet.
  split; [exact (create_sheet_run env state w d s Hd He Hs)|].
  unfold settle_sheet. destruct made as [url|e]; cbn [fst snd]; repeat split; auto.
Qed.

(** The export asks for an authorization: the frame stays, no URL is set. *)
Lemma export_outcomes_witness :
  let state := set_fetched (new_state (criteria Script.austin) "u")
                 (Some (Script.frame [500000])) 1 EmptyString in
  exists j state' w',
    _execute_tool Script.env_auth "create_sheet" no_fields state boot
    = (Ok (j, state'), w')
    /\ status j = Some "auth_required"
    /\ sheet_url state' = EmptyString
    /\ last_error state' = "Google authorization required for sheet creation.".
Proof.
  intros state.
  destruct (export_outcomes Script.env_auth no_fields state boot
              (Script.frame [500000]) (criteria Script.austin)
              eq_refl eq_refl eq_refl)
    as (j & state' & E & _ & _ & _ & Hmade).
  hnf in Hmade. destruct Hmade as (Hstatus & Hurl & Herr).
  exists j, state'. eexists. split; [exact E|].
  split; [exact Hstatus|]. split; [exact Hurl | exact Herr].
Defined.

(* ------------------------------------------------------------------ *)
(** ** What a run keeps true of its state *)

Lemma run_inv_extend uid state d0 d :
  run_inv uid state d0 -> Forall (sheet_call_ok uid) d ->
  run_inv uid state (d0 ++ d).
Proof.
  intros (Hu & Hs & Hn & Hurl & Hok) Hd. repeat split; try assumption.
  - destruct Hurl as [Hurl|(d1 & loc & lt & Hin)]; [left; exact Hurl|].
    right. exists d1, loc, lt. apply in_or_app. left. exact Hin.
  - apply Forall_app. split; assumption.
Qed.

Section Invariants.

Variable env : Env.

Lemma _execute_tool_inv uid name tool_input state w d0 :
  run_inv uid state d0 ->
  exists j state' w' d,
    _execute_tool env name tool_input state w = (Ok (j, state'), w')
    /\ trace w' = trace w ++ d
    /\ planner_calls d = 0%nat
    /\ run_inv uid state' (d0 ++ d).
Proof.
  intros Hinv. unfold _execute_tool.
  destruct (String.eqb name "search_listings");
    [|destruct (String.eqb name "create_sheet")].
  - destruct (gate_closed (time_time env (trace w)) (_last_search_time w)) eqn:Hg.
    + rewrite (search_listings_closed env tool_input state w Hg).
      eexists _, _, _, _. split; [reflexivity|]. split; [reflexivity|].
      split; [reflexivity|]. apply run_inv_extend; [exact Hinv|].
      repeat constructor.
    + rewrite (search_listings_open env tool_input state w Hg).
      match goal with
      | |- context [Ok (settle_search ?e ?s ?st ?f)] =>
          destruct (settle_search_fields e s st f) as (Hu & Hs & Hurl & Hn);
          exists (fst (settle_search e s st f)), (snd (settle_search e s st f))
      end.
      rewrite <- surjective_pairing. eexists _, _. split; [reflexivity|].
      split; [reflexivity|]. split; [reflexivity|].
      destruct Hinv as (Iu & Is & In' & Iurl & Iok).
      repeat split.
      * rewrite Hu. exact Iu.
      * rewrite Hs. cbn. eauto.
      * exact Hn.
      * rewrite Hurl. cbn [sheet_url set_search].
        destruct Iurl as [Iurl|(d1 & loc & lt & Hin)]; [left; exact Iurl|].
        right. exists d1, loc, lt. apply in_or_app. left. exact Hin.
      * apply Forall_app. split; [exact Iok|]. repeat constructor.
  - destruct (df state) as [d|] eqn:Hd;
      [destruct (Pandas.empty d) eqn:He|].
    + unfold create_sheet. rewrite Hd, He. exists no_data_json, state, w, [].
      rewrite !app_nil_r. do 3 (split; [reflexivity|]). exact Hinv.
    + destruct Hinv as (Iu & [s Is] & In' & Iurl & Iok).
      rewrite (create_sheet_run env state w d s Hd He Is).
      set (made := create_listings_sheet env _ _ _ _ _).
      exists (fst (settle_sheet state d made)), (snd (settle_sheet state d made)).
      rewrite <- surjective_pairing. eexists _, _. split; [reflexivity|].
      split; [reflexivity|]. split; [reflexivity|].
      assert (Hok : Forall (sheet_call_ok uid)
                      (d0 ++ [EvSheet d (location s) (listing_type s) (user_id state) made])).
      { apply Forall_app. split; [exact Iok|]. constructor; [|constructor].
        split; assumption. }
      unfold settle_sheet. destruct made as [url|e] eqn:Em; cbn [snd].
      * repeat split; try assumption; [cbn; eauto|].
        right. exists d, (location s), (listing_type s). cbn [sheet_url set_sheet].
        apply in_or_app. right. left. by rewrite Iu.
      * repeat split; try assumption; [cbn; eauto|].
        cbn [sheet_url set_error].
        destruct Iurl as [Iurl|(d1 & loc & lt & Hin)]; [left; exact Iurl|].
        right. exists d1, loc, lt. apply in_or_app. left. exact Hin.
    + unfold create_sheet. rewrite Hd. exists no_data_json, state, w, [].
      rewrite !app_nil_r. do 3 (split; [reflexivity|]). exact Hinv.
  - eexists _, state, w, []. rewrite !app_nil_r. do 3 (split; [reflexivity|]). exact Hinv.
Qed.

Lemma run_tools_inv uid bs : forall state w d0,
  run_inv uid state d0 ->
  exists rs state' w' d,
    run_tools env bs state w = (Ok (rs, state'), w')
    /\ trace w' = trace w ++ d
    /\ planner_calls d = 0%nat
    /\ run_inv uid state' (d0 ++ d).
Proof.
  induction bs as [|b bs IH]; intros state w d0 Hinv.
  - exists [], state, w, []. rewrite !app_nil_r. do 3 (split; [reflexivity|]). exact Hinv.
  - destruct b as [t|id name input|ty]; cbn [run_tools]; try (apply IH; exact Hinv).
    unfold bind at 1.
    destruct (_execute_tool_inv uid name input state w d0 Hinv)
      as (j & st1 & w1 & d1 & -> & Ht1 & Hn1 & Hinv1).
    unfold bind at 1. cbn [snd fst].
    destruct (IH st1 w1 (d0 ++ d1) Hinv1) as (rs & st2 & w2 & d2 & -> & Ht2 & Hn2 & Hinv2).
    eexists _, st2, w2, (d1 ++ d2). split; [reflexivity|].
    rewrite Ht2, Ht1, planner_calls_app, Hn1, Hn2, !app_assoc.
    split; [reflexivity|]. split; [reflexivity | exact Hinv2].
Qed.

Lemma iterations_inv uid n : forall msgs state w d0 out w1,
  run_inv uid state d0 ->
  iterations env n msgs state w = (Ok out, w1) ->
  exists d, trace w1 = trace w ++ d /\ run_inv uid (state_out out) (d0 ++ d).
Proof.
  induction n as [|n IH]; intros msgs state w d0 out w1 Hinv E.
  - injection E as <- <-. exists []. rewrite !app_nil_r. split; [reflexivity | exact Hinv].
  - cbn [iterations] in E. unfold bind at 1 in E. rewrite call_planner_run in E.
    destruct (plan env (trace w) msgs) as [response|e]; [|discriminate].
    cbn [lift] in E.
    assert (Hinv1 : run_inv uid state (d0 ++ [EvPlanner msgs (Ok response)]))
      by (apply run_inv_extend; [exact Hinv | repeat constructor]).
    destruct (String.eqb (stop_reason response) "end_turn");
      [|destruct (String.eqb (stop_reason response) "tool_use")].
    + injection E as <- <-. exists [EvPlanner msgs (Ok response)].
      split; [reflexivity | exact Hinv1].
    + unfold bind at 1 in E.
      destruct (run_tools_inv uid (content response) state
                  (extend w [EvPlanner msgs (Ok response)]) _ Hinv1)
        as (rs & st1 & w2 & d1 & Er & Ht1 & _ & Hinv2).
      rewrite Er in E. cbn [fst snd] in E.
      apply (IH _ _ _ _ _ _ Hinv2) in E as (d2 & Ht2 & Hinv3).
      exists ([EvPlanner msgs (Ok response)] ++ d1 ++ d2). split.
      * rewrite Ht2, Ht1. cbn [trace extend]. by rewrite <- !app_assoc.
      * rewrite <- !app_assoc in Hinv3. exact Hinv3.
    + injection E as <- <-. exists [EvPlanner msgs (Ok response)].
      split; [reflexivity | exact Hinv1].
Qed.

End Invariants.

Lemma new_state_inv s uid : run_inv uid (new_state s uid) [].
Proof. repeat split; cbn; eauto. Qed.

(** X6. In a run of the agent loop that returns, every call of the export
    is for the run's user and for a frame that is not empty; the sheet URL
    of the result is empty or a URL the export returned during this run;
    the count of the result is the number of listings of the frame the run
    holds at its end (0 when it holds none, or an empty one); and the
    session id of the result is the user id. *)
Theorem run_exports (env : Env) (s : SearchInput) (uid : string)
  (prior : option (list Message)) (w : World) (res : WorkflowResult) (w' : World) :
  run_agent_loop env s uid prior w = (Ok res, w') ->
  exists out w1 d,
    iterations env max_iterations (seed s prior) (new_state s uid) w = (Ok out, w1)
    /\ trace w' = trace w ++ d ++ [EvSessionSet uid (messages out)]
    /\ Forall (sheet_call_ok uid) d
    /\ (wr_sheet_url res = EmptyString
        \/ exists d0 loc ltype,
             In (EvSheet d0 loc ltype uid (Ok (wr_sheet_url res))) d)
    /\ wr_num_results res = stored_count (df (state_out out))
    /\ session_id res = Some uid.
Proof.
  intros E. destruct (run_agent_loop_inv _ _ _ _ _ _ _ E) as (out & w1 & Ei & -> & ->).
  destruct (iterations_inv env uid _ _ _ _ [] _ _ (new_state_inv s uid) Ei)
    as (d & Ht & (_ & _ & Hn & Hurl & Hok)).
  exists out, w1, d. cbn [trace app] in *. rewrite Ht.
  split; [exact Ei|]. split; [by rewrite app_assoc|]. repeat split; assumption.
Qed.

(** The first scenario: one export, for user [u], whose URL is reported. *)
Lemma run_exports_witness :
  exists res w' d0 loc ltype,
    run_agent_loop Script.env0 (criteria Script.austin) "u" None boot = (Ok res, w')
    /\ wr_sheet_url res = "https://sheet/abc"
    /\ In (EvSheet d0 loc ltype "u" (Ok "https://sheet/abc")) (trace w').
Proof.
  destruct (run_agent_loop Script.env0 (criteria Script.austin) "u" None boot)
    as [[res|e] w'] eqn:E; [|vm_compute in E; discriminate].
  destruct (run_exports Script.env0 _ _ _ _ _ _ E)
    as (out & w1 & d & _ & Ht & _ & Hurl & _).
  assert (Hres : wr_sheet_url res = "https://sheet/abc")
    by (vm_compute in E; injection E as <- _; reflexivity).
  destruct Hurl as [Hurl|(d0 & loc & lt & Hin)]; [rewrite Hres in Hurl; discriminate|].
  exists res, w', d0, loc, lt. split; [reflexivity|]. split; [exact Hres|].
  rewrite Ht, <- Hres. apply in_or_app. right. apply in_or_app. left. exact Hin.
Defined.

(* ------------------------------------------------------------------ *)
(** ** The spacing of the searches *)

Lemma stamps_app a b : stamps (a ++ b) = stamps a ++ stamps b.
Proof.
  induction a as [|e a IH]; [reflexivity|].
  destruct e; cbn [app stamps]; rewrite ?IH; reflexivity.
Qed.

Lemma StronglySorted_snoc {A} (R : A -> A -> Prop) l x :
  StronglySorted R l -> Forall (fun a => R a x) l -> StronglySorted R (l ++ [x]).
Proof.
  induction 1 as [|a l Hs IH Ha]; intros Hx; cbn [app].
  - constructor; constructor.
  - inversion Hx as [|? ? Hax Hlx]; subst. constructor; [apply IH, Hlx|].
    apply Forall_app. split; [exact Ha|]. constructor; [exact Hax|constructor].
Qed.

Lemma gate_ok_same w w' d :
  _last_search_time w' = _last_search_time w ->
  trace w' = trace w ++ d -> stamps d = [] ->
  gate_ok w -> gate_ok w'.
Proof.
  unfold gate_ok. intros -> -> Hd (Hs & Hp & Hl & Hr).
  rewrite stamps_app, Hd, app_nil_r. do 3 (split; [assumption|]).
  destruct Hr as [Hr|Hr]; [by left|]. right. apply in_or_app. by left.
Qed.

Lemma gate_ok_boot : gate_ok boot.
Proof.
  split; [constructor|]. split; [constructor|]. split; [constructor|].
  left. apply Qle_refl.
Qed.

(** A stamp that passed the gate keeps the state of the gate. *)
Lemma gate_ok_stamp w t t' ss es :
  gate_ok w ->
  gate_closed t (_last_search_time w) = false ->
  (0 < t')%Q -> (t <= t')%Q ->
  stamps es = [t'] -> In (EvTime t') es ->
  gate_ok {| _last_search_time := t'; _sessions := ss; trace := trace w ++ es |}.
Proof.
  intros (Hs & Hp & Hl & _) Hg Hpos Hle Hes Hin. apply gate_closed_false in Hg.
  unfold gate_ok. cbn [trace _last_search_time]. rewrite stamps_app, Hes.
  assert (Hall : Forall (fun a => apart a t') (stamps (trace w))).
  { apply List.Forall_forall. intros a Ha.
    pose proof (proj1 (List.Forall_forall _ _) Hp a Ha) as Ha0.
    pose proof (proj1 (List.Forall_forall _ _) Hl a Ha) as Ha1.
    cbn beta in Ha0, Ha1. unfold apart, SEARCH_COOLDOWN_SECONDS in *.
    destruct Hg as [Hg|Hg]; lra. }
  split; [apply StronglySorted_snoc; assumption|].
  split.
  - apply Forall_app. split; [exact Hp|]. constructor; [exact Hpos|constructor].
  - split.
    + apply Forall_app. split.
      * eapply List.Forall_impl; [|exact Hall]. cbn beta. intros a Ha.
        unfold apart, SEARCH_COOLDOWN_SECONDS in Ha. lra.
      * constructor; [lra|constructor].
    + right. apply in_or_app. by right.
Qed.

Section Spacing.

Variable env : Env.
Hypothesis Hclock : clock_ok env.

Lemma keeps_ret {A} (a : A) : keeps (ret a).
Proof. intros w H. exact H. Qed.

Lemma keeps_raise {A} e : keeps (@raise A e).
Proof. intros w H. exact H. Qed.

Lemma keeps_lift {A} (r : Result A) : keeps (lift r).
Proof. intros w H. exact H. Qed.

Lemma keeps_bind {A B} (m : M A) (k : A -> M B) :
  keeps m -> (forall a, keeps (k a)) -> keeps (bind m k).
Proof.
  intros Hm Hk w H. unfold bind. specialize (Hm w H).
  destruct (m w) as [[a|e] w1]; cbn [snd] in *; [apply Hk, Hm|exact Hm].
Qed.

Lemma keeps_attempt {A} (m : M A) : keeps m -> keeps (attempt m).
Proof.
  intros Hm w H. unfold attempt. specialize (Hm w H).
  destruct (m w) as [r w1]. exact Hm.
Qed.

Lemma keeps_log e : stamps [e] = [] -> keeps (log e).
Proof.
  intros He w H. unfold log. cbn [snd].
  apply (gate_ok_same w _ [e]); [reflexivity|reflexivity|exact He|exact H].
Qed.

Lemma keeps_history : keeps history.
Proof. intros w H. exact H. Qed.

Lemma keeps_sessions_get uid : keeps (sessions_get uid).
Proof. intros w H. exact H. Qed.

Lemma keeps_sessions_pop uid : keeps (sessions_pop uid).
Proof.
  intros w H.
  apply (gate_ok_same w _ [EvSessionPop uid]); [reflexivity|reflexivity|reflexivity|exact H].
Qed.

Lemma keeps_sessions_set uid msgs : keeps (sessions_set uid msgs).
Proof.
  intros w H.
  apply (gate_ok_same w _ [EvSessionSet uid msgs]);
    [reflexivity|reflexivity|reflexivity|exact H].
Qed.

Lemma keeps_call_scrape a : keeps (call_scrape env a).
Proof.
  apply keeps_bind; [apply keeps_history|]. intros h.
  apply keeps_bind; [apply keeps_log; reflexivity|]. intros _. apply keeps_lift.
Qed.

Lemma keeps_call_sheet d loc ltype uid : keeps (call_sheet env d loc ltype uid).
Proof.
  apply keeps_bind; [apply keeps_history|]. intros h.
  apply keeps_bind; [apply keeps_log; reflexivity|]. intros _. apply keeps_lift.
Qed.

Lemma keeps_call_extract request : keeps (call_extract env request).
Proof.
  apply keeps_bind; [apply keeps_history|]. intros h.
  apply keeps_bind; [apply keeps_log; reflexivity|]. intros _. apply keeps_lift.
Qed.

Lemma keeps_call_planner msgs : keeps (call_planner env msgs).
Proof.
  apply keeps_bind; [apply keeps_history|]. intros h.
  apply keeps_bind; [apply keeps_log; reflexivity|]. intros _. apply keeps_lift.
Qed.

Lemma keeps_call_credentials uid : keeps (call_credentials env uid).
Proof.
  apply keeps_bind; [apply keeps_history|]. intros h.
  apply keeps_bind; [apply keeps_log; reflexivity|]. intros _. apply keeps_lift.
Qed.

Lemma keeps_search_listings tool_input state :
  keeps (search_listings env tool_input state).
Proof.
  intros w H.
  destruct (gate_closed (time_time env (trace w)) (_last_search_time w)) eqn:Hg.
  - rewrite (search_listings_closed env tool_input state w Hg). cbn [snd].
    apply (gate_ok_same w _ [EvTime (time_time env (trace w))]);
      [reflexivity|reflexivity|reflexivity|exact H].
  - rewrite (search_listings_open env tool_input state w Hg). cbn [snd].
    set (t := time_time env (trace w)) in *.
    set (t' := time_time env (trace w ++ [EvTime t])).
    destruct (Hclock (trace w ++ [EvTime t])) as [Hpos Hmono]. fold t' in Hpos, Hmono.
    apply (gate_ok_stamp w t); [exact H|exact Hg|exact Hpos| |reflexivity|].
    + apply Hmono, in_or_app. right. left. reflexivity.
    + right. left. reflexivity.
Qed.

Lemma keeps_create_sheet state : keeps (create_sheet env state).
Proof.
  unfold create_sheet. destruct (df state) as [d|]; [|apply keeps_ret].
  destruct (Pandas.empty d); [apply keeps_ret|].
  apply keeps_bind.
  - apply keeps_attempt. destruct (search state); [apply keeps_call_sheet|apply keeps_raise].
  - intros [url|e]; apply keeps_ret.
Qed.

Lemma keeps_execute_tool name input state :
  keeps (_execute_tool env name input state).
Proof.
  unfold _execute_tool.
  destruct (String.eqb name "search_listings"); [apply keeps_search_listings|].
  destruct (String.eqb name "create_sheet"); [apply keeps_create_sheet|apply keeps_ret].
Qed.

Lemma keeps_run_tools bs : forall state, keeps (run_tools env bs state).
Proof.
  induction bs as [|b bs IH]; intros state; cbn [run_tools]; [apply keeps_ret|].
  destruct b; try apply IH.
  apply keeps_bind; [apply keeps_execute_tool|]. intros o.
  apply keeps_bind; [apply IH|]. intros rs. apply keeps_ret.
Qed.

Lemma keeps_iterations n : forall msgs state, keeps (iterations env n msgs state).
Proof.
  induction n as [|n IH]; intros msgs state; cbn [iterations]; [apply keeps_ret|].
  apply keeps_bind; [apply keeps_call_planner|]. intros response.
  destruct (String.eqb (stop_reason response) "end_turn"); [apply keeps_ret|].
  destruct (String.eqb (stop_reason response) "tool_use"); [|apply keeps_ret].
  apply keeps_bind; [apply keeps_run_tools|]. intros rs. apply IH.
Qed.

Lemma keeps_run_agent_loop s uid prior : keeps (run_agent_loop env s uid prior).
Proof.
  apply keeps_bind; [apply keeps_iterations|]. intros out.
  apply keeps_bind; [apply keeps_sessions_set|]. intros _. apply keeps_ret.
Qed.

Lemma keeps_parse_search_intent request : keeps (parse_search_intent env request).
Proof.
  apply keeps_bind; [apply keeps_call_extract|]. intros parsed. apply keeps_ret.
Qed.

Lemma keeps_run_workflow input : keeps (run_workflow env input).
Proof.
  apply keeps_bind; [apply keeps_parse_search_intent|]. intros s.
  destruct (negb (PyStr.truthy (location s))); [apply keeps_ret|].
  apply keeps_bind; [apply keeps_sessions_pop|]. intros _. apply keeps_run_agent_loop.
Qed.

Lemma keeps_resume_workflow input : keeps (resume_workflow env input).
Proof.
  apply keeps_bind; [apply keeps_sessions_get|]. intros [[|m ms]|];
    try apply keeps_run_workflow.
  apply keeps_bind; [apply keeps_parse_search_intent|]. intros s.
  apply keeps_run_agent_loop.
Qed.

Lemma keeps_get_google_auth_message uid : keeps (get_google_auth_message env uid).
Proof.
  apply keeps_bind; [apply keeps_attempt, keeps_call_credentials|].
  intros [[]|e]; [apply keeps_ret|]. destruct (auth_required e); [apply keeps_ret|apply keeps_raise].
Qed.

Lemma keeps_handle_search sender msg : keeps (handle_search env sender msg).
Proof.
  unfold handle_search. destruct (is_auth_query (query msg)).
  - apply keeps_bind; [apply keeps_get_google_auth_message|]. intros i. apply keeps_ret.
  - apply keeps_bind; [apply keeps_attempt, keeps_run_workflow|].
    intros [res|e]; apply keeps_ret.
Qed.

Lemma keeps_handle_followup sender msg : keeps (handle_followup env sender msg).
Proof.
  unfold handle_followup.
  apply keeps_bind; [apply keeps_attempt, keeps_resume_workflow|].
  intros [res|e]; apply keeps_ret.
Qed.

End Spacing.

(** X7. Under a clock whose readings are positive and never go back, the
    state of the rate gate is an invariant of the process: it holds when the
    process starts, and every tool call, every fresh run, every follow-up
    and every handler keeps it, whatever the outcome.  So in every trace
    the process can reach, any stamp is at least 8 seconds after every
    stamp before it: no two searches that passed the gate are closer than
    the cooldown; and the timestamp the process holds is no earlier than
    any stamp and, once set, is a reading the clock gave. *)
Theorem searches_spaced (env : Env) :
  clock_ok env ->
  gate_ok boot
  /\ forall w, gate_ok w ->
       (forall name input state, gate_ok (snd (_execute_tool env name input state w)))
       /\ (forall input, gate_ok (snd (run_workflow env input w)))
       /\ (forall input, gate_ok (snd (resume_workflow env input w)))
       /\ (forall sender msg, gate_ok (snd (handle_search env sender msg w)))
       /\ (forall sender msg, gate_ok (snd (handle_followup env sender msg w))).
Proof.
  intros Hc. split; [apply gate_ok_boot|]. intros w H.
  split; [intros; apply keeps_execute_tool; assumption|].
  split; [intros; apply keeps_run_workflow; assumption|].
  split; [intros; apply keeps_resume_workflow; assumption|].
  split; [intros; apply keeps_handle_search; assumption|].
  intros; apply keeps_handle_followup; assumption.
Qed.

Lemma latest_floor h : forall floor, (floor <= latest floor h)%Q.
Proof.
  induction h as [|e h IH]; intros floor; cbn [latest]; [lra|].
  destruct e; try apply IH.
  destruct (Qle_bool floor t) eqn:E; [|apply IH].
  apply Qle_bool_iff in E. specialize (IH t). lra.
Qed.

Lemma latest_reading h : forall floor t,
  In (EvTime t) h -> (t <= latest floor h)%Q.
Proof.
  induction h as [|e h IH]; intros floor t []; cbn [latest].
  - subst e. destruct (Qle_bool floor t) eqn:E; [apply latest_floor|].
    assert (~ (floor <= t)%Q) by (rewrite <- Qle_bool_iff, E; discriminate).
    pose proof (latest_floor h floor). lra.
  - destruct e; auto.
Qed.

Lemma env_steady_clock : clock_ok Clocks.env_steady.
Proof.
  intros h. cbn [time_time Clocks.env_steady]. split.
  - pose proof (latest_floor h (1 # 1)). lra.
  - intros t Ht. pose proof (latest_reading h (1 # 1) t Ht). lra.
Qed.

(** Eight searches asked three seconds apart: the stamps of the run are
    spaced by the cooldown. *)
Lemma searches_spaced_witness :
  clock_ok Clocks.env_steady
  /\ gate_ok (snd (run_workflow Clocks.env_steady
                     {| user_request := "3 bed house in Austin TX";
                        wi_user_id := "u" |} boot)).
Proof.
  split; [exact env_steady_clock|].
  destruct (searches_spaced Clocks.env_steady env_steady_clock) as [H0 H].
  exact (proj1 (proj2 (H boot H0)) _).
Defined.

(* ------------------------------------------------------------------ *)
(** ** The replies of the handlers *)

Lemma session_or_same sid uid :
  sid = None \/ sid = Some uid -> session_or sid uid = uid.
Proof. intros [-> | ->]; cbn [session_or]; [|destruct (PyStr.truthy uid)]; reflexivity. Qed.

Section Sessions.

Variable env : Env.

Lemma run_agent_loop_session s uid prior w res w' :
  run_agent_loop env s uid prior w = (Ok res, w') -> session_id res = Some uid.
Proof.
  intros E. destruct (run_agent_loop_inv _ _ _ _ _ _ _ E) as (out & w1 & _ & -> & _).
  reflexivity.
Qed.

Lemma run_workflow_session input w res w' :
  run_workflow env input w = (Ok res, w') ->
  session_id res = None \/ session_id res = Some (wi_user_id input).
Proof.
  rewrite run_workflow_run. destruct (extract env _ _) as [parsed|e]; [|discriminate].
  destruct (PyStr.truthy _).
  - intros E. right. eapply run_agent_loop_session, E.
  - intros [= <- _]. left. reflexivity.
Qed.

Lemma resume_workflow_session input w res w' :
  resume_workflow env input w = (Ok res, w') ->
  session_id res = None \/ session_id res = Some (wi_user_id input).
Proof.
  rewrite resume_workflow_run. destruct (_sessions w !! _) as [[|m ms]|];
    try apply run_workflow_session.
  destruct (extract env _ _) as [parsed|e]; [|discriminate].
  intros E. right. eapply run_agent_loop_session, E.
Qed.

End Sessions.

(** X8. A follow-up request is always answered: no exception escapes
    [handle_followup]; and so is a search request whose query is not one of
    the authorization commands.  In both replies the session id is the user
    id the handler resolved, whether the run returned, stopped for want of
    a location, or raised. *)
Theorem handlers_reply (env : Env) (sender : string) (w : World) :
  (forall msg, exists reply w',
      handle_followup env sender msg w = (Ok reply, w')
      /\ r_session_id reply = _resolve_user_id (fu_user_id msg) sender)
  /\ (forall msg, is_auth_query (query msg) = false ->
      exists reply w',
        handle_search env sender msg w = (Ok reply, w')
        /\ r_session_id reply = _resolve_user_id (sr_user_id msg) sender).
Proof.
  split.
  - intros msg. rewrite handle_followup_run.
    destruct (resume_workflow env _ w) as [[res|e] w'] eqn:E; eexists _, _;
      (split; [reflexivity|]); cbn [r_session_id failure_response]; [|reflexivity].
    apply session_or_same. apply (resume_workflow_session _ _ _ _ _ E).
  - intros msg Hq. rewrite (handle_search_run env sender msg w Hq).
    destruct (run_workflow env _ w) as [[res|e] w'] eqn:E; eexists _, _;
      (split; [reflexivity|]); cbn [r_session_id failure_response]; [|reflexivity].
    apply session_or_same. apply (run_workflow_session _ _ _ _ _ E).
Qed.

(** A search of user [bob], sent by agent [agent1]. *)
Lemma handlers_reply_witness :
  exists reply w',
    handle_search Script.env0 "agent1"
      {| query := "3 bed house in Austin TX under 600k"; sr_user_id := " bob " |} boot
      = (Ok reply, w')
    /\ r_session_id reply = "bob".
Proof.
  destruct (handlers_reply Script.env0 "agent1" boot) as [_ H].
  exact (H {| query := "3 bed house in Austin TX under 600k"; sr_user_id := " bob " |}
           eq_refl).
Defined.

(** X9. A search request whose query is one of the authorization commands
    never reaches the workflow: the handler's one effect is the credentials
    check for the resolved user, and the sessions and the search timestamp
    stay as they were.  When the check passes, or fails for want of an
    authorization, the reply has no sheet, no result, the user id as
    session id, and the message as summary; any other failure of the check
    escapes the handler, and no reply is sent. *)
Theorem auth_shortcut (env : Env) (sender : string) (msg : SearchRequest) (w : World) :
  is_auth_query (query msg) = true ->
  let uid := _resolve_user_id (sr_user_id msg) sender in
  let checked := _get_user_credentials env (trace w) uid in
  snd (handle_search env sender msg w) = extend w [EvCredentials uid checked]
  /\ match fst (handle_search env sender msg w) with
     | Ok reply =>
         r_sheet_url reply = EmptyString /\ r_num_results reply = 0%nat
         /\ r_session_id reply = uid
         /\ r_summary reply =
              match checked with
              | Ok _ => "Google is already connected for this user."
              | Raise e => text e
              end
         /\ (checked = Ok tt \/ exists e, checked = Raise e /\ auth_required e = true)
     | Raise e => checked = Raise e /\ auth_required e = false
     end.
Proof.
  intros Hq uid checked. unfold handle_search. rewrite Hq. fold uid.
  unfold bind. rewrite get_google_auth_message_run. fold checked.
  destruct checked as [[]|e] eqn:Ec; cbn [fst snd ret].
  - repeat split; auto.
  - destruct (auth_required e) eqn:Ea; cbn [fst snd ret].
    + repeat split; eauto.
    + repeat split; auto.
Qed.

(** The user has not authorized the export yet and asks how to. *)
Lemma auth_shortcut_witness :
  is_auth_query " Connect Google " = true
  /\ trace (snd (handle_search Script.env_auth "agent1"
                   {| query := " Connect Google "; sr_user_id := EmptyString |} boot))
     = [EvCredentials "agent1"
          (Raise {| auth_required := true;
                    text := "Google authorization required for sheet creation." |})].
Proof.
  split; [reflexivity|].
  rewrite (proj1 (auth_shortcut Script.env_auth "agent1"
                    {| query := " Connect Google "; sr_user_id := EmptyString |} boot
                    eq_refl)).
  reflexivity.
Defined.

(* ------------------------------------------------------------------ *)
(** ** The chat handler *)

Lemma append_nonempty_l a b : a <> EmptyString -> a +:+ b <> EmptyString.
Proof. destruct a; [congruence|discriminate]. Qed.

Lemma run_agent_loop_summary env s uid prior w res w' :
  run_agent_loop env s uid prior w = (Ok res, w') -> summary res <> EmptyString.
Proof.
  intros E. destruct (run_agent_loop_inv _ _ _ _ _ _ _ E) as (out & w1 & _ & -> & _).
  cbn [summary assemble].
  destruct (PyStr.truthy (final_summary out)) eqn:Ht.
  - by apply truthy_nonempty.
  - apply fallback_summary_nonempty.
Qed.

Lemma run_workflow_summary env input w res w' :
  run_workflow env input w = (Ok res, w') -> summary res <> EmptyString.
Proof.
  rewrite run_workflow_run. destruct (extract env _ _) as [parsed|e]; [|discriminate].
  destruct (PyStr.truthy _).
  - apply run_agent_loop_summary.
  - intros [= <- _]. discriminate.
Qed.

(** X10. [handle_chat] never lets an exception of the workflow escape and
    always sends two
    messages: the acknowledgement of the message it got, then one chat
    message, whose text is never empty.  A message that is blank once
    stripped is answered with the help text and has no effect at all: the
    parser is not called.  Any other message runs a fresh search of the
    stripped text with the sender as user id; the reply is the summary,
    followed by the sheet's URL when there is one, or the text of the
    exception after an apology.  The summary of a run that returns is never
    empty, so the default [No results found.] is never what is sent. *)
Theorem chat_reply (env : Env) (sender msg_id body : string) (w : World) :
  let query := PyStr.strip body in
  let run := run_workflow env {| user_request := query; wi_user_id := sender |} w in
  exists reply,
    handle_chat env sender msg_id body w
      = (Ok [Ack msg_id; Chat reply], if PyStr.truthy query then snd run else w)
    /\ reply <> EmptyString
    /\ reply =
         if PyStr.truthy query then
           match fst run with
           | Ok res =>
               if PyStr.truthy (wr_sheet_url res)
               then summary res +:+ PyStr.nl +:+ PyStr.nl +:+ "Results sheet: "
                    +:+ wr_sheet_url res
               else summary res
           | Raise exc => "Sorry, something went wrong: " +:+ text exc
           end
         else help_text.
Proof.
  intros query run. unfold handle_chat. fold query.
  destruct (PyStr.truthy query) eqn:Hq; cbn [negb].
  - unfold bind, attempt. fold run. destruct run as [[res|exc] w'] eqn:Er;
      cbn [fst snd]; eexists; (split; [reflexivity|]); cbn [chat_text].
    + pose proof (run_workflow_summary _ _ _ _ _ Er) as Hs.
      destruct (PyStr.truthy (wr_sheet_url res)).
      * split; [by apply append_nonempty_l|reflexivity].
      * apply truthy_nonempty in Hs. rewrite Hs. apply truthy_nonempty in Hs.
        split; [exact Hs|reflexivity].
    + split; [discriminate|reflexivity].
  - eexists. split; [reflexivity|]. split; [discriminate|reflexivity].
Qed.

(* ------------------------------------------------------------------ *)
(** ** The user id of a request *)

Lemma after_app p : forall s r, PyStr.after p s = Some r <-> s = p ++ r.
Proof.
  induction p as [|a p IH]; intros s r; cbn [PyStr.after app].
  - split; [by intros [= ->]|by intros ->].
  - destruct s as [|b s]; [split; discriminate|].
    destruct (Ascii.eqb a b) eqn:E.
    + apply Ascii.eqb_eq in E as ->. rewrite IH. split; [by intros ->|by intros [= ->]].
    + split; [discriminate|]. intros [= <- _]. by rewrite Ascii.eqb_refl in E.
Qed.

Lemma drop_first_Some codes : forall s r,
  PyStr.drop_first codes s = Some r -> exists p, In p codes /\ s = p ++ r.
Proof.
  induction codes as [|p codes IH]; intros s r; cbn [PyStr.drop_first]; [discriminate|].
  destruct (PyStr.after p s) as [s'|] eqn:E.
  - intros [= <-]. exists p. split; [by left|]. by apply after_app.
  - intros H. destruct (IH _ _ H) as (q & Hq & ->). exists q. split; [by right|reflexivity].
Qed.

Lemma drop_first_None codes : forall s,
  PyStr.drop_first codes s = None <-> forall p r, In p codes -> s <> p ++ r.
Proof.
  induction codes as [|p codes IH]; intros s; cbn [PyStr.drop_first].
  - split; [intros _ p r []|reflexivity].
  - destruct (PyStr.after p s) as [s'|] eqn:E.
    + split; [discriminate|]. intros H. apply after_app in E.
      destruct (H p s' (or_introl eq_refl) E).
    + rewrite IH. split.
      * intros H q r [<-|Hq]; [|by apply H].
        intros Hs. apply after_app in Hs. congruence.
      * intros H q r Hq. apply H. by right.
Qed.

(** A text that starts with none of [codes] has no prefix that does. *)
Lemma drop_first_prefix codes a b :
  PyStr.drop_first codes (a ++ b) = None -> PyStr.drop_first codes a = None.
Proof.
  rewrite !drop_first_None. intros H p r Hp ->. apply (H p (r ++ b) Hp).
  by rewrite app_assoc.
Qed.

Lemma drop_while_suffix codes n : forall s,
  exists pre, s = pre ++ PyStr.drop_while codes n s.
Proof.
  induction n as [|n IH]; intros s; cbn [PyStr.drop_while]; [by exists []|].
  destruct (PyStr.drop_first codes s) as [s'|] eqn:E; [|by exists []].
  destruct (drop_first_Some _ _ _ E) as (p & _ & ->).
  destruct (IH s') as [pre Hpre]. exists (p ++ pre). by rewrite <- app_assoc, <- Hpre.
Qed.

Lemma drop_while_done codes n : forall s,
  Forall (fun p => p <> []) codes -> (length s <= n)%nat ->
  PyStr.drop_first codes (PyStr.drop_while codes n s) = None.
Proof.
  induction n as [|n IH]; intros s Hne Hlen; cbn [PyStr.drop_while].
  - destruct s; [|cbn in Hlen; lia]. apply drop_first_None. intros p r Hp Hs.
    rewrite List.Forall_forall in Hne. apply (Hne p Hp).
    symmetry in Hs. by apply app_eq_nil in Hs as [-> _].
  - destruct (PyStr.drop_first codes s) as [s'|] eqn:E; [|exact E].
    apply IH; [exact Hne|]. destruct (drop_first_Some _ _ _ E) as (p & Hp & ->).
    rewrite List.Forall_forall in Hne. specialize (Hne p Hp).
    rewrite length_app in Hlen. destruct p; [congruence|cbn in Hlen; lia].
Qed.

Lemma drop_while_fixed codes n s :
  PyStr.drop_first codes s = None -> PyStr.drop_while codes n s = s.
Proof. intros H. destruct n; cbn [PyStr.drop_while]; [reflexivity|by rewrite H]. Qed.

Lemma spaces_nonempty :
  Forall (fun p => p <> []) PyStr.spaces
  /\ Forall (fun p => p <> []) (map (@List.rev ascii) PyStr.spaces).
Proof. split; apply List.Forall_forall; intros p Hp; vm_compute in Hp;
  repeat (destruct Hp as [<-|Hp]; [discriminate|]); destruct Hp. Qed.

Lemma strip_bytes_idem s :
  let once := PyStr.rstrip_bytes (PyStr.lstrip_bytes s) in
  PyStr.rstrip_bytes (PyStr.lstrip_bytes once) = once.
Proof.
  intros once. subst once. set (a := PyStr.lstrip_bytes s).
  destruct spaces_nonempty as [Hl Hr].
  assert (Ha : PyStr.drop_first PyStr.spaces a = None)
    by (apply drop_while_done; [exact Hl|reflexivity]).
  set (b := PyStr.rstrip_bytes a).
  assert (Hrb : PyStr.drop_first (map (@List.rev ascii) PyStr.spaces) (List.rev b) = None).
  { unfold b, PyStr.rstrip_bytes. rewrite rev_involutive.
    apply drop_while_done; [exact Hr|]. by rewrite length_rev. }
  assert (Hb : PyStr.drop_first PyStr.spaces b = None).
  { destruct (drop_while_suffix (map (@List.rev ascii) PyStr.spaces) (length a) (List.rev a))
      as [pre Hpre].
    apply (drop_first_prefix _ b (List.rev pre)).
    replace (b ++ List.rev pre) with a; [exact Ha|].
    unfold b, PyStr.rstrip_bytes. rewrite <- rev_app_distr, <- Hpre.
    by rewrite rev_involutive. }
  unfold PyStr.lstrip_bytes at 1. rewrite (drop_while_fixed _ _ _ Hb).
  unfold PyStr.rstrip_bytes at 1. rewrite (drop_while_fixed _ _ _ Hrb).
  apply rev_involutive.
Qed.

Lemma strip_bytes s :
  PyStr.strip s
  = string_of_list_ascii
      (PyStr.rstrip_bytes (PyStr.lstrip_bytes (list_ascii_of_string s))).
Proof.
  unfold PyStr.strip, PyStr.rstrip, PyStr.lstrip.
  by rewrite list_ascii_of_string_of_list_ascii.
Qed.

Lemma strip_idem s : PyStr.strip (PyStr.strip s) = PyStr.strip s.
Proof.
  rewrite (strip_bytes (PyStr.strip s)), (strip_bytes s).
  rewrite list_ascii_of_string_of_list_ascii. f_equal. apply strip_bytes_idem.
Qed.

(** White space outside ASCII is stripped as well. *)
Example strip_no_break_space :
  PyStr.strip (nbsp +:+ "bob" +:+ nbsp) = "bob"
  /\ _resolve_user_id (nbsp +:+ "bob" +:+ nbsp) "agent1" = "bob"
  /\ _resolve_user_id nbsp "agent1" = "agent1"
  /\ is_auth_query (nbsp +:+ "/Google-Auth") = true.
Proof. repeat split. Qed.

(** X11. The user id [_resolve_user_id] gives is the stripped id of the
    message when that is not empty, and the sender otherwise; so it is empty
    only when the sender is.  An id supplied in the message selects the same
    user whoever sends it, and resolving is stable: the resolved id, sent
    back as the user id of a later message, resolves to itself, for any
    sender when the first message named a user and for the same sender when
    the sender's address has no surrounding blank. *)
Theorem resolve_user_id_stable (message_user_id sender : string) :
  let uid := _resolve_user_id message_user_id sender in
  (sender <> EmptyString -> uid <> EmptyString)
  /\ (PyStr.strip message_user_id <> EmptyString ->
      forall other, _resolve_user_id message_user_id other = uid
                    /\ _resolve_user_id uid other = uid)
  /\ (PyStr.strip sender = sender -> _resolve_user_id uid sender = uid).
Proof.
  intros uid. subst uid. unfold _resolve_user_id.
  destruct (PyStr.truthy (PyStr.strip message_user_id)) eqn:Hm.
  - apply truthy_nonempty in Hm. split; [auto|]. split.
    + intros _ other. rewrite strip_idem.
      apply truthy_nonempty in Hm. rewrite Hm. auto.
    + intros _. rewrite strip_idem. apply truthy_nonempty in Hm. by rewrite Hm.
  - apply truthy_empty in Hm. split; [auto|]. split; [congruence|].
    intros ->. destruct (PyStr.truthy sender); reflexivity.
Qed.

(** The user id [ bob ], padded, from agent [agent1]. *)
Lemma resolve_user_id_stable_witness :
  _resolve_user_id " bob " "agent2" = "bob"
  /\ _resolve_user_id (_resolve_user_id " bob " "agent1") "agent2" = "bob".
Proof.
  destruct (resolve_user_id_stable " bob " "agent1") as (_ & H & _).
  apply (H ltac:(discriminate) "agent2").
Defined.

(* ------------------------------------------------------------------ *)
(** ** Runs that are aborted *)

Section Aborted.

Variable env : Env.

(** Only the planner aborts the loop. *)
Lemma iterations_raise n : forall msgs state w e w1,
  iterations env n msgs state w = (Raise e, w1) ->
  exists d ctx,
    trace w1 = trace w ++ d ++ [EvPlanner ctx (Raise e)]
    /\ plan env (trace w ++ d) ctx = Raise e
    /\ _sessions w1 = _sessions w.
Proof.
  induction n as [|n IH]; intros msgs state w e w1 E; [discriminate|].
  cbn [iterations] in E. unfold bind at 1 in E. rewrite call_planner_run in E.
  destruct (plan env (trace w) msgs) as [response|e0] eqn:Ep; cbn [lift] in E.
  - destruct (String.eqb (stop_reason response) "end_turn"); [discriminate|].
    destruct (String.eqb (stop_reason response) "tool_use"); [|discriminate].
    unfold bind at 1 in E.
    destruct (quiet_run_tools env (content response) state
                (extend w [EvPlanner msgs (Ok response)]))
      as ([rs st] & d1 & Er & _).
    rewrite Er in E. cbn [fst snd] in E.
    apply IH in E as (d & ctx & Ht & Hp & Hs). cbn [trace _sessions extend] in Ht, Hp, Hs.
    exists ([EvPlanner msgs (Ok response)] ++ d1 ++ d), ctx. split; [|split].
    + rewrite Ht. by rewrite <- !app_assoc.
    + rewrite <- Hp. f_equal. by rewrite <- !app_assoc.
    + exact Hs.
  - injection E as <- <-. exists [], msgs. cbn [app trace extend _sessions].
    rewrite app_nil_r. auto.
Qed.

Lemma run_agent_loop_aborted s uid prior w e w' :
  run_agent_loop env s uid prior w = (Raise e, w') ->
  exists d ctx,
    trace w' = trace w ++ d ++ [EvPlanner ctx (Raise e)]
    /\ plan env (trace w ++ d) ctx = Raise e
    /\ _sessions w' = _sessions w.
Proof.
  intros E.
  destruct (iterations env max_iterations (seed s prior) (new_state s uid) w)
    as [[out|e0] w1] eqn:Ei.
  - rewrite (run_agent_loop_ok env s uid prior w out w1 Ei) in E. discriminate.
  - rewrite (run_agent_loop_raise env s uid prior w e0 w1 Ei) in E.
    injection E as <- <-. eapply iterations_raise, Ei.
Qed.

End Aborted.

(** X12. A run is aborted by the parser or by the planner and by nothing
    else: when a fresh run or a follow-up raises, the exception is the one
    the parser or the planner raised, and that call is the last effect of
    the run.  No conversation is stored by an aborted run.  A fresh run the
    parser aborts leaves the sessions as they were, and one the planner
    aborts has dropped the session the user had; a follow-up of a user who
    has a session leaves the sessions as they were, whoever aborts it, and
    a follow-up of a user who has none is the fresh run. *)
Theorem aborted_run (env : Env) (input : WorkflowInput) (w : World) (e : Exn)
  (w' : World) :
  let uid := wi_user_id input in
  let request := user_request input in
  (run_workflow env input w = (Raise e, w') ->
     (w' = extend w [EvExtract request (Raise e)]
      /\ extract env (trace w) request = Raise e)
     \/ ((exists d ctx, trace w' = trace w ++ d ++ [EvPlanner ctx (Raise e)]
                        /\ plan env (trace w ++ d) ctx = Raise e)
         /\ _sessions w' = delete uid (_sessions w)))
  /\ (resume_workflow env input w = (Raise e, w') -> ~ no_session w uid ->
      _sessions w' = _sessions w
      /\ ((w' = extend w [EvExtract request (Raise e)]
           /\ extract env (trace w) request = Raise e)
          \/ exists d ctx, trace w' = trace w ++ d ++ [EvPlanner ctx (Raise e)]
                           /\ plan env (trace w ++ d) ctx = Raise e))
  /\ (no_session w uid -> resume_workflow env input w = run_workflow env input w).
Proof.
  intros uid request. split; [|split].
  - rewrite run_workflow_run. fold request uid.
    destruct (extract env (trace w) request) as [parsed|e0] eqn:Ex.
    + destruct (PyStr.truthy _); [|discriminate]. intros E. right.
      apply run_agent_loop_aborted in E as (d & ctx & Ht & Hp & Hs).
      cbn [trace _sessions] in Ht, Hp, Hs. split; [|exact Hs].
      exists ([EvExtract request (Ok parsed); EvSessionPop uid] ++ d), ctx. split.
      * rewrite Ht. by rewrite <- !app_assoc.
      * rewrite <- Hp. f_equal. by rewrite <- !app_assoc.
    + intros [= <- <-]. left. auto.
  - rewrite resume_workflow_run. fold request uid. unfold no_session. fold uid.
    destruct (_sessions w !! uid) as [[|m ms]|]; [tauto| |tauto].
    destruct (extract env (trace w) request) as [parsed|e0] eqn:Ex.
    + intros E _. apply run_agent_loop_aborted in E as (d & ctx & Ht & Hp & Hs).
      cbn [trace _sessions extend] in Ht, Hp, Hs. split; [exact Hs|]. right.
      exists ([EvExtract request (Ok parsed)] ++ d), ctx. split.
      * rewrite Ht. by rewrite <- !app_assoc.
      * rewrite <- Hp. f_equal. by rewrite <- !app_assoc.
    + intros [= <- <-] _. split; [reflexivity|]. left. auto.
  - rewrite resume_workflow_run. fold uid. unfold no_session. fold uid.
    destruct (_sessions w !! uid) as [[|m ms]|]; [reflexivity|tauto|reflexivity].
Qed.

(** The planner is down: the fresh run of user [u] raises and the session
    [u] had is gone. *)
Lemma aborted_run_witness :
  exists w',
    run_workflow Outages.env_planner_down
      {| user_request := "3 bed house in Austin TX"; wi_user_id := "u" |}
      Script.with_session = (Raise (Exception "529 overloaded"), w')
    /\ _sessions w' !! "u" = None.
Proof.
  destruct (run_workflow Outages.env_planner_down
              {| user_request := "3 bed house in Austin TX"; wi_user_id := "u" |}
              Script.with_session) as [r w'] eqn:E.
  assert (Hr : r = Raise (Exception "529 overloaded"))
    by (apply (f_equal fst) in E; cbn [fst] in E; rewrite <- E; vm_compute; reflexivity).
  subst r. exists w'. split; [reflexivity|].
  destruct (proj1 (aborted_run _ _ _ _ _) E) as [[-> Hx]|[_ ->]].
  - vm_compute in Hx. discriminate.
  - cbn [wi_user_id]. apply lookup_delete_eq.
Defined.

(* ------------------------------------------------------------------ *)
(** ** Sessions of other users *)

Lemma touches_only_bind {A B} uid (m : M A) (k : A -> M B) :
  touches_only uid m -> (forall a, touches_only uid (k a)) ->
  touches_only uid (bind m k).
Proof.
  intros Hm Hk w u Hu. unfold bind. specialize (Hm w u Hu).
  destruct (m w) as [[a|e] w1]; cbn [snd] in *; [|exact Hm].
  rewrite (Hk a w1 u Hu). exact Hm.
Qed.

Lemma touches_only_attempt {A} uid (m : M A) :
  touches_only uid m -> touches_only uid (attempt m).
Proof.
  intros Hm w u Hu. unfold attempt. specialize (Hm w u Hu).
  destruct (m w) as [r w1]. exact Hm.
Qed.

Lemma touches_only_ret {A} uid (a : A) : touches_only uid (ret a).
Proof. intros w u _. reflexivity. Qed.

Section Isolation.

Variable env : Env.

Lemma touches_only_iterations uid n msgs state :
  touches_only uid (iterations env n msgs state).
Proof.
  intros w u _. destruct (bounded_iterations env n msgs state w) as (d & _ & -> & _).
  reflexivity.
Qed.

Lemma touches_only_run_agent_loop s uid prior :
  touches_only uid (run_agent_loop env s uid prior).
Proof.
  apply touches_only_bind; [apply touches_only_iterations|]. intros out.
  apply touches_only_bind; [|intros _; apply touches_only_ret].
  intros w u Hu. cbn [sessions_set snd _sessions]. by apply lookup_insert_ne.
Qed.

Lemma touches_only_parse uid request :
  touches_only uid (parse_search_intent env request).
Proof.
  intros w u _. unfold parse_search_intent, bind. rewrite call_extract_run.
  destruct (extract env (trace w) request); reflexivity.
Qed.

Lemma touches_only_run_workflow input :
  touches_only (wi_user_id input) (run_workflow env input).
Proof.
  apply touches_only_bind; [apply touches_only_parse|]. intros s.
  destruct (negb _); [apply touches_only_ret|].
  apply touches_only_bind; [|intros _; apply touches_only_run_agent_loop].
  intros w u Hu. cbn [sessions_pop snd _sessions]. by apply lookup_delete_ne.
Qed.

Lemma touches_only_resume_workflow input :
  touches_only (wi_user_id input) (resume_workflow env input).
Proof.
  apply touches_only_bind; [intros w u _; reflexivity|].
  intros [[|m ms]|]; try apply touches_only_run_workflow.
  apply touches_only_bind; [apply touches_only_parse|]. intros s.
  apply touches_only_run_agent_loop.
Qed.

End Isolation.

(** X13. A request touches no session but that of its own user: whatever
    the handler, and whether the run returns, stops early or raises, the
    stored conversation of every other user is after the request what it
    was before.  The user of a search or a follow-up request is the id the
    handler resolved, that of a chat message is the sender. *)
Theorem sessions_isolated (env : Env) (w : World) (u sender : string) :
  (forall msg, u <> _resolve_user_id (sr_user_id msg) sender ->
     _sessions (snd (handle_search env sender msg w)) !! u = _sessions w !! u)
  /\ (forall msg, u <> _resolve_user_id (fu_user_id msg) sender ->
     _sessions (snd (handle_followup env sender msg w)) !! u = _sessions w !! u)
  /\ (forall msg_id body, u <> sender ->
     _sessions (snd (handle_chat env sender msg_id body w)) !! u = _sessions w !! u).
Proof.
  split; [|split].
  - intros msg Hu. unfold handle_search.
    destruct (is_auth_query (query msg)).
    + unfold bind. rewrite get_google_auth_message_run.
      destruct (_get_user_credentials env _ _) as [[]|e]; [reflexivity|].
      destruct (auth_required e); reflexivity.
    + revert w u Hu. apply touches_only_bind.
      * apply touches_only_attempt. apply (touches_only_run_workflow env
          {| user_request := query msg;
             wi_user_id := _resolve_user_id (sr_user_id msg) sender |}).
      * intros [res|e]; apply touches_only_ret.
  - intros msg. revert w u. unfold handle_followup. apply touches_only_bind.
    + apply touches_only_attempt. apply (touches_only_resume_workflow env
        {| user_request := fu_query msg;
           wi_user_id := _resolve_user_id (fu_user_id msg) sender |}).
    + intros [res|e]; apply touches_only_ret.
  - intros msg_id body. revert w u. unfold handle_chat.
    destruct (negb _); [apply touches_only_ret|]. apply touches_only_bind.
    + apply touches_only_attempt. apply (touches_only_run_workflow env
        {| user_request := PyStr.strip body; wi_user_id := sender |}).
    + intros ran. apply touches_only_ret.
Qed.

(** The session of user [u] stays when agent [agent1] searches. *)
Lemma sessions_isolated_witness :
  _sessions (snd (handle_search Script.env0 "agent1"
                    {| query := "3 bed house in Austin TX under 600k";
                       sr_user_id := EmptyString |} Script.with_session)) !! "u"
  = Some Script.earlier.
Proof.
  rewrite (proj1 (sessions_isolated Script.env0 Script.with_session "u" "agent1")
             {| query := "3 bed house in Austin TX under 600k";
                sr_user_id := EmptyString |} ltac:(discriminate)).
  reflexivity.
Defined.

(* ------------------------------------------------------------------ *)
(** ** The price statistics of a search outcome *)

Lemma agg_min_spec zs : forall z,
  agg_min z zs <= z
  /\ (forall x, In x zs -> agg_min z zs <= x)
  /\ (agg_min z zs = z \/ In (agg_min z zs) zs).
Proof.
  unfold agg_min. induction zs as [|y zs IH]; intros z; cbn [fold_left].
  - split; [lia|]. split; [intros x []|by left].
  - destruct (IH (Z.min z y)) as (H1 & H2 & H3). split; [lia|]. split.
    + intros x [<-|Hx]; [lia|auto].
    + destruct H3 as [H3|H3]; [|right; right; exact H3].
      rewrite H3. destruct (Z.min_spec z y) as [[_ ->]|[_ ->]]; [by left|].
      right. left. reflexivity.
Qed.

Lemma agg_max_spec zs : forall z,
  z <= agg_max z zs
  /\ (forall x, In x zs -> x <= agg_max z zs)
  /\ (agg_max z zs = z \/ In (agg_max z zs) zs).
Proof.
  unfold agg_max. induction zs as [|y zs IH]; intros z; cbn [fold_left].
  - split; [lia|]. split; [intros x []|by left].
  - destruct (IH (Z.max z y)) as (H1 & H2 & H3). split; [lia|]. split.
    + intros x [<-|Hx]; [lia|auto].
    + destruct H3 as [H3|H3]; [|right; right; exact H3].
      rewrite H3. destruct (Z.max_spec z y) as [[_ ->]|[_ ->]]; [|by left].
      right. left. reflexivity.
Qed.

Lemma sum_between lo hi zs : forall acc k,
  (forall x, In x zs -> lo <= x <= hi) ->
  k * lo <= acc <= k * hi ->
  (k + Z.of_nat (length zs)) * lo <= fold_left Z.add zs acc
    <= (k + Z.of_nat (length zs)) * hi.
Proof.
  induction zs as [|y zs IH]; intros acc k Hall Hacc; cbn [fold_left length].
  - rewrite Z.add_0_r. exact Hacc.
  - replace (k + Z.of_nat (S (length zs))) with ((k + 1) + Z.of_nat (length zs)) by lia.
    apply IH; [intros x Hx; apply Hall; by right|].
    pose proof (Hall y (or_introl eq_refl)). lia.
Qed.

Lemma quot_between lo hi z zs :
  lo <= z <= hi -> (forall x, In x zs -> lo <= x <= hi) ->
  lo <= Z.quot (fold_left Z.add zs z) (Z.of_nat (S (length zs))) <= hi.
Proof.
  intros Hz Hall.
  pose proof (sum_between lo hi zs z 1 Hall ltac:(lia)) as Hs.
  replace (Z.of_nat (S (length zs))) with (1 + Z.of_nat (length zs)) by lia.
  split.
  - apply Z.quot_le_lower_bound; lia.
  - apply Z.quot_le_upper_bound; lia.
Qed.

Lemma numbers_In z cells : In z (numbers cells) <-> In (CNum z) cells.
Proof.
  unfold numbers. induction cells as [|c cells IH]; [reflexivity|].
  cbn [omap list_omap]. destruct c as [x| |]; cbn [In]; rewrite <- ?IH.
  - split; (intros [H|H]; [left; congruence|by right]).
  - split; [by right|]. by intros [|].
  - split; [by right|]. by intros [|].
Qed.

(** X14. The three price statistics of a [success] outcome.  When the
    frame has no price column they are all null.  When it has one, they are
    integers; the lowest and the highest are numbers of the column, each
    the price of a listing, and no price of the column is outside them.
    When the magnitudes of the prices add up to less than [2 ^ 53], so that
    binary floating point holds their sum, the average is their mean,
    truncated, and lies between the lowest and the highest.  The count the
    outcome reports is the length of the frame. *)
Theorem price_stats_ordered (env : Env) (s : SearchInput) (d : DataFrame)
  (j : Json) :
  success_json env s d = Ok j ->
  field "num_results" j = Some (JInt (Z.of_nat (Pandas.len d)))
  /\ match Pandas.series "Price ($)" d with
     | None =>
         field "price_min" j = Some JNull /\ field "price_max" j = Some JNull
         /\ field "price_avg" j = Some JNull
     | Some cells =>
         exists lo avg hi,
           field "price_min" j = Some (JInt lo)
           /\ field "price_avg" j = Some (JInt avg)
           /\ field "price_max" j = Some (JInt hi)
           /\ lo <= hi
           /\ In (CNum lo) cells /\ In (CNum hi) cells
           /\ (forall z, In (CNum z) cells -> lo <= z <= hi)
           /\ (fold_left (fun acc x => acc + Z.abs x) (numbers cells) 0 < 2 ^ 53 ->
               avg = Z.quot (fold_left Z.add (numbers cells) 0)
                            (Z.of_nat (length (numbers cells)))
               /\ lo <= avg <= hi)
     end.
Proof.
  unfold success_json, price_stat.
  destruct (Pandas.series "Price ($)" d) as [cells|]; cbn [rbind].
  2: { intros [= <-]. cbn. auto. }
  destruct (existsb Pandas.is_text cells) eqn:Ht; cbn [rbind]; [discriminate|].
  destruct (numbers cells) as [|z zs] eqn:En; cbn [rbind]; [discriminate|].
  destruct (agg_mean env z zs) as [avg|e] eqn:Ea; cbn [rbind]; [|discriminate].
  intros [= <-]. split; [reflexivity|].
  exists (agg_min z zs), avg, (agg_max z zs).
  destruct (agg_min_spec zs z) as (Hm1 & Hm2 & Hm3).
  destruct (agg_max_spec zs z) as (HM1 & HM2 & HM3).
  assert (Hin : forall x, In x (z :: zs) <-> In (CNum x) cells)
    by (intros x; rewrite <- En; apply numbers_In).
  do 3 (split; [reflexivity|]). split; [lia|]. split; [|split; [|split]].
  - apply Hin. destruct Hm3 as [->|H]; [by left|by right].
  - apply Hin. destruct HM3 as [->|H]; [by left|by right].
  - intros x Hx. apply Hin in Hx as [<-|Hx]; [lia|]. split; auto.
  - cbn [fold_left length]. rewrite !Z.add_0_l. intros Hsmall.
    unfold agg_mean, held_exactly in Ea.
    apply Z.ltb_lt in Hsmall. rewrite Hsmall in Ea. injection Ea as <-.
    split; [reflexivity|].
    apply quot_between; [lia|]. intros x Hx. split; auto.
Qed.

(** Three listings at 300000, 400000 and 500001: the mean is truncated. *)
Lemma price_stats_ordered_witness :
  exists j,
    success_json Script.env0 Script.renting Frames.three = Ok j
    /\ field "num_results" j = Some (JInt 3)
    /\ field "price_avg" j = Some (JInt 400000).
Proof.
  destruct (success_json Script.env0 Script.renting Frames.three) as [j|e] eqn:E;
    [|vm_compute in E; discriminate].
  exists j. split; [reflexivity|].
  split; [exact (proj1 (price_stats_ordered _ _ _ j E))|].
  vm_compute in E. injection E as <-. reflexivity.
Defined.

(* ------------------------------------------------------------------ *)
(** ** The authorization message *)

Lemma auth_text_contains denied flow t1 t2 :
  PyStr.contains "Google authorization required"
    (auth_required_text denied flow t1 t2) = true.
Proof. destruct denied; reflexivity. Qed.

Lemma auth_text_not_connected denied flow t1 t2 :
  PyStr.startswith (auth_required_text denied flow t1 t2)
    "Google is already connected" = false.
Proof. destruct denied; reflexivity. Qed.

(** X15. The text of every [GoogleAuthRequiredError] that [sheets.py]
    builds is recognised downstream.  It contains the phrase
    [Google authorization required] and does not start with
    [Google is already connected], so the reply to an authorization command
    carries it as its error; and when it is the last error of a run that
    has no sheet and the planner left no summary, the summary written for
    the run contains the phrase too, which is what [handle_search] looks
    for.  The minutes the message announces are at least 1, and are the
    minutes to the expiry, truncated, when that is more. *)
Theorem auth_message_recognised (denied : bool) (flow : Flow) (t1 t2 : Z) :
  let msg := auth_required_text denied flow t1 t2 in
  PyStr.contains "Google authorization required" msg = true
  /\ PyStr.startswith msg "Google is already connected" = false
  /\ (forall s state,
        sheet_url state = EmptyString -> last_error state = msg ->
        PyStr.contains "Google authorization required" (fallback_summary s state)
        = true)
  /\ 1 <= minutes_left flow t1 t2
  /\ (forall at_, expires_at flow = Some at_ -> 120 <= at_ - t2 ->
        60 * minutes_left flow t1 t2 <= at_ - t2 < 60 * (minutes_left flow t1 t2 + 1)).
Proof.
  intros msg.
  assert (Hc : PyStr.contains "Google authorization required" msg = true)
    by (subst msg; destruct denied; reflexivity).
  split; [exact Hc|]. split; [subst msg; destruct denied; reflexivity|].
  split; [|split].
  - intros s state Hu He. unfold fallback_summary. rewrite Hu, He. cbn [PyStr.truthy andb].
    replace (PyStr.truthy msg) with true by (subst msg; destruct denied; reflexivity).
    rewrite <- !append_assoc. by apply contains_app_r.
  - unfold minutes_left. lia.
  - intros at_ Hat Hfar. unfold minutes_left. rewrite Hat. cbn [default from_option]. unfold id.
    pose proof (Z.quot_rem' (at_ - t2) 60) as Hq.
    pose proof (Z.rem_bound_pos (at_ - t2) 60 ltac:(lia) ltac:(lia)) as Hr.
    lia.
Qed.

(** A flow that expires in 15 minutes less one second. *)
Lemma auth_message_recognised_witness :
  minutes_left {| device_code := Some "dev-1"; user_code := Some "ABCD-EFGH";
                  verification_url := None; expires_at := Some 1700000899;
                  interval := Some 5; expires_in := Some 899 |}
               1700000000 1700000000 = 14.
Proof.
  pose proof (proj2 (proj2 (proj2 (proj2
    (auth_message_recognised false
       {| device_code := Some "dev-1"; user_code := Some "ABCD-EFGH";
          verification_url := None; expires_at := Some 1700000899;
          interval := Some 5; expires_in := Some 899 |} 1700000000 1700000000))))
    1700000899 eq_refl ltac:(lia)) as H.
  lia.
Defined.

(* ------------------------------------------------------------------ *)
(** ** From a search to its follow-up *)

(** X16. A fresh run that reached the agent loop and returned leaves the
    user a stored conversation that is not empty and starts with the
    instruction of this run, the one made of the criteria the parser found
    in its request; so a follow-up of the same user, whatever it asks,
    never falls back to a fresh run: it parses the request and runs the
    agent loop on that conversation. *)
Theorem followup_after_run (env : Env) (input : WorkflowInput) (w : World)
  (res : WorkflowResult) (w' : World) :
  run_workflow env input w = (Ok res, w') ->
  session_id res <> None ->
  let uid := wi_user_id input in
  exists s rest,
    (exists parsed, extract env (trace w) (user_request input) = Ok parsed
                    /\ s = criteria parsed)
    /\ _sessions w' !! uid
       = Some ({| role := "user"; body := Text (user_prompt s) |} :: rest)
    /\ forall request,
         resume_workflow env {| user_request := request; wi_user_id := uid |} w'
         = bind (parse_search_intent env request)
                (fun s' => run_agent_loop env s' uid
                             (Some (user_turn (Text (user_prompt s)) :: rest))) w'.
Proof.
  intros E Hsid uid. rewrite run_workflow_run in E. fold uid in E.
  destruct (extract env _ _) as [parsed|e] eqn:Ex; [|discriminate].
  destruct (PyStr.truthy _); [|injection E as <- _; by destruct Hsid].
  apply run_agent_loop_inv in E as (out & w1 & Ei & _ & ->).
  apply iterations_recorded in Ei as (d & _ & _ & [rest Hpre] & _).
  exists (criteria parsed), rest. split; [by exists parsed|].
  assert (Hl : <[uid := messages out]> (_sessions w1) !! uid
               = Some (user_turn (Text (user_prompt (criteria parsed))) :: rest))
    by (rewrite lookup_insert_eq, Hpre; reflexivity).
  split; [exact Hl|]. intros request.
  unfold resume_workflow. unfold bind at 1. unfold sessions_get.
  cbn [_sessions wi_user_id user_request]. rewrite Hl. reflexivity.
Qed.

(** After the first scenario, user [u] has a session. *)
Lemma followup_after_run_witness :
  exists msgs,
    _sessions (snd (run_workflow Script.env0
                      {| user_request := "3 bed house in Austin TX under 600k";
                         wi_user_id := "u" |} boot)) !! "u" = Some msgs
    /\ msgs <> [].
Proof.
  destruct (run_workflow Script.env0
              {| user_request := "3 bed house in Austin TX under 600k";
                 wi_user_id := "u" |} boot) as [[res|e] w'] eqn:E;
    [|vm_compute in E; discriminate].
  assert (Hsid : session_id res <> None)
    by (apply (f_equal fst) in E; cbn [fst] in E; vm_compute in E;
        injection E as <-; discriminate).
  destruct (followup_after_run _ _ _ _ _ E Hsid) as (s & rest & _ & Hl & _).
  eexists. split; [exact Hl|discriminate].
Defined.

(* ------------------------------------------------------------------ *)
(** ** The credentials of a user *)

Lemma others_kept_refl uid st : Sheets.others_kept uid st st.
Proof. intros u _. split; reflexivity. Qed.

Lemma others_kept_trans uid a b c :
  Sheets.others_kept uid a b -> Sheets.others_kept uid b c ->
  Sheets.others_kept uid a c.
Proof.
  intros Hab Hbc u Hu. destruct (Hab u Hu) as [<- <-]. exact (Hbc u Hu).
Qed.

Lemma others_kept_set_token uid st info :
  Sheets.others_kept uid st (Sheets.set_token st uid info).
Proof. intros u Hu. cbn. by rewrite lookup_insert_ne. Qed.

Lemma others_kept_pop_token uid st :
  Sheets.others_kept uid st (Sheets.pop_token st uid).
Proof. intros u Hu. cbn. by rewrite lookup_delete_ne. Qed.

Lemma others_kept_set_flow uid st flow :
  Sheets.others_kept uid st (Sheets.set_flow st uid flow).
Proof. intros u Hu. cbn. by rewrite lookup_insert_ne. Qed.

Lemma others_kept_pop_flow uid st :
  Sheets.others_kept uid st (Sheets.pop_flow st uid).
Proof. intros u Hu. cbn. by rewrite lookup_delete_ne. Qed.

Section CredentialFacts.

Context {Creds : Type}.
Variable g : Sheets.Google Creds.

Lemma refresh_if_expired_spec uid creds st r st' :
  Sheets.refresh_if_expired g uid creds st = (r, st') ->
  Sheets.device_store st' = Sheets.device_store st
  /\ Sheets.others_kept uid st st'
  /\ match r with
     | Ok creds' =>
         (st' = st /\ creds' = creds)
         \/ st' = Sheets.set_token st uid (Sheets.to_json g creds')
     | Raise e => st' = st /\ Sheets.refresh g creds = Raise e
     end.
Proof.
  unfold Sheets.refresh_if_expired. destruct (_ && _).
  - destruct (Sheets.refresh g creds) as [c|e] eqn:Er; intros [= <- <-].
    + split; [reflexivity|]. split; [apply others_kept_set_token|]. by right.
    + split; [reflexivity|]. split; [apply others_kept_refl|]. auto.
  - intros [= <- <-]. split; [reflexivity|]. split; [apply others_kept_refl|]. auto.
Qed.

Lemma saved_credentials_spec uid st r st' :
  Sheets.saved_credentials g uid st = (r, st') ->
  Sheets.device_store st' = Sheets.device_store st
  /\ Sheets.others_kept uid st st'
  /\ match r with
     | Ok (Some creds) =>
         Sheets.valid g creds = true /\ is_Some (Sheets.token_store st' !! uid)
     | Ok None =>
         forall info, Sheets.token_store st' !! uid = Some info ->
                      Sheets.truthy_dict info = false
     | Raise e => Sheets.foreign_errors g -> auth_required e = false
     end.
Proof.
  unfold Sheets.saved_credentials.
  destruct (Sheets.token_store st !! uid) as [info|] eqn:El.
  2: { intros [= <- <-]. split; [reflexivity|]. split; [apply others_kept_refl|].
       intros info. rewrite El. discriminate. }
  destruct (Sheets.truthy_dict info) eqn:Ht.
  2: { intros [= <- <-]. split; [reflexivity|]. split; [apply others_kept_refl|].
       intros info'. rewrite El. by intros [= <-]. }
  destruct (Sheets.from_authorized_user_info g info) as [creds|e] eqn:Ef.
  2: { intros [= <- <-]. split; [reflexivity|]. split; [apply others_kept_refl|].
       intros (_ & Hf & _). eapply Hf, Ef. }
  destruct (Sheets.refresh_if_expired g uid creds st) as [[creds'|e] st1] eqn:Er;
    apply refresh_if_expired_spec in Er as (Hd & Ho & Hr).
  - destruct (Sheets.valid g creds') eqn:Hv; intros [= <- <-].
    + split; [exact Hd|]. split; [exact Ho|]. split; [exact Hv|].
      destruct Hr as [[-> _]| ->]; [by rewrite El|].
      cbn. by rewrite lookup_insert_eq.
    + split; [exact Hd|]. split.
      * eapply others_kept_trans; [exact Ho|apply others_kept_pop_token].
      * intros info'. cbn. by rewrite lookup_delete_eq.
  - intros [= <- <-]. split; [exact Hd|]. split; [exact Ho|].
    intros (_ & _ & Hf & _). destruct Hr as [_ Hr]. eapply Hf, Hr.
Qed.

Lemma stored_flow_spec uid st o st' :
  Sheets.stored_flow g uid st = (o, st') ->
  Sheets.token_store st' = Sheets.token_store st
  /\ Sheets.others_kept uid st st'
  /\ match o with
     | Some flow =>
         st' = st /\ Sheets.device_store st !! uid = Some flow
         /\ (Sheets.truthy_flow flow = true ->
             Sheets.now g < default 0 (expires_at flow))
     | None => Sheets.device_store st' !! uid = None
     end.
Proof.
  unfold Sheets.stored_flow.
  destruct (Sheets.device_store st !! uid) as [flow|] eqn:El.
  2: { intros [= <- <-]. split; [reflexivity|]. split; [apply others_kept_refl|].
       exact El. }
  destruct (Sheets.truthy_flow flow && _) eqn:Hc; intros [= <- <-].
  - split; [reflexivity|]. split; [apply others_kept_pop_flow|].
    cbn. by rewrite lookup_delete_eq.
  - split; [reflexivity|]. split; [apply others_kept_refl|].
    split; [reflexivity|]. split; [reflexivity|]. intros Ht.
    rewrite Ht in Hc. cbn [andb] in Hc. lia.
Qed.

Lemma ask_spec denied uid client_id st r st' :
  Sheets.ask g denied uid client_id st = (r, st') ->
  Sheets.token_store st' = Sheets.token_store st
  /\ Sheets.others_kept uid st st'
  /\ exists e, r = Raise e
       /\ (auth_required e = true -> Sheets.foreign_errors g ->
           exists flow,
             Sheets._start_device_flow g client_id = Ok flow
             /\ Sheets.device_store st' !! uid = Some flow
             /\ text e = auth_required_text denied flow (Sheets.t1 g) (Sheets.t2 g)).
Proof.
  unfold Sheets.ask. destruct (Sheets._start_device_flow g client_id) as [flow|e] eqn:Es;
    intros [= <- <-].
  - split; [reflexivity|]. split; [apply others_kept_set_flow|].
    eexists. split; [reflexivity|]. intros _ _. exists flow.
    split; [reflexivity|]. split; [|reflexivity]. cbn. by rewrite lookup_insert_eq.
  - split; [reflexivity|]. split; [apply others_kept_refl|].
    exists e. split; [reflexivity|]. intros Ha (_ & _ & _ & Hf & _).
    rewrite (Hf _ _ Es) in Ha. discriminate.
Qed.

Lemma refused_spec error token_response flow uid client_id st r st' :
  Sheets.device_store st !! uid = Some flow ->
  Sheets.refused g error token_response flow uid client_id st = (r, st') ->
  Sheets.token_store st' = Sheets.token_store st
  /\ Sheets.others_kept uid st st'
  /\ exists e, r = Raise e
       /\ (auth_required e = true -> Sheets.foreign_errors g ->
           exists denied flow',
             Sheets.device_store st' !! uid = Some flow'
             /\ text e = auth_required_text denied flow' (Sheets.t1 g) (Sheets.t2 g)
             /\ ((exists cid, Sheets._start_device_flow g cid = Ok flow')
                 \/ (denied = false
                     /\ (flow' = flow \/ flow' = Sheets.slowed flow)))).
Proof.
  intros Hl. unfold Sheets.refused. destruct (Sheets.unhashable error).
  { intros [= <- <-]. split; [reflexivity|]. split; [apply others_kept_refl|].
    eexists. split; [reflexivity|]. discriminate. }
  destruct (_ || _).
  { destruct (Sheets.is_str error "slow_down"); intros [= <- <-].
    - split; [reflexivity|]. split; [apply others_kept_set_flow|].
      eexists. split; [reflexivity|]. intros _ _. exists false, (Sheets.slowed flow).
      split; [cbn; by rewrite lookup_insert_eq|]. split; [reflexivity|]. right. auto.
    - split; [reflexivity|]. split; [apply others_kept_refl|].
      eexists. split; [reflexivity|]. intros _ _. exists false, flow.
      split; [exact Hl|]. split; [reflexivity|]. right. auto. }
  destruct (_ || _).
  { intros E. apply ask_spec in E as (Ht & Ho & e & -> & He).
    split; [exact Ht|]. split.
    - eapply others_kept_trans; [apply others_kept_pop_flow|exact Ho].
    - exists e. split; [reflexivity|]. intros Ha Hf.
      destruct (He Ha Hf) as (flow' & Hs & Hd & Hx).
      exists true, flow'. split; [exact Hd|]. split; [exact Hx|]. left. eauto. }
  intros [= <- <-]. split; [reflexivity|]. split; [apply others_kept_refl|].
  eexists. split; [reflexivity|]. discriminate.
Qed.

Lemma granted_spec saved token_response uid client_id client_secret st r st' :
  Sheets.granted g saved token_response uid client_id client_secret st = (r, st') ->
  Sheets.others_kept uid st st'
  /\ Sheets.device_store st' !! uid = None
  /\ is_Some (Sheets.token_store st' !! uid)
  /\ match r with
     | Ok creds => Sheets.valid g creds = true
     | Raise e => Sheets.foreign_errors g -> auth_required e = false
     end.
Proof.
  unfold Sheets.granted.
  set (info := Sheets._credential_info_from_token_response _ _ _ _).
  set (st0 := Sheets.pop_flow (Sheets.set_token st uid info) uid).
  assert (H0 : Sheets.others_kept uid st st0
               /\ Sheets.device_store st0 !! uid = None
               /\ is_Some (Sheets.token_store st0 !! uid)).
  { split; [|split].
    - eapply others_kept_trans; [apply others_kept_set_token|apply others_kept_pop_flow].
    - cbn. by rewrite lookup_delete_eq.
    - cbn. by rewrite lookup_insert_eq. }
  destruct H0 as (Ho0 & Hd0 & Ht0).
  destruct (Sheets.from_authorized_user_info g info) as [creds|e] eqn:Ef.
  2: { intros [= <- <-]. split; [exact Ho0|]. split; [exact Hd0|]. split; [exact Ht0|].
       intros (_ & Hf & _). eapply Hf, Ef. }
  destruct (Sheets.refresh_if_expired g uid creds st0) as [[creds'|e] st1] eqn:Er;
    apply refresh_if_expired_spec in Er as (Hd & Ho & Hr).
  - assert (H1 : is_Some (Sheets.token_store st1 !! uid)).
    { destruct Hr as [[-> _]| ->]; [exact Ht0|]. cbn. by rewrite lookup_insert_eq. }
    destruct (Sheets.valid g creds') eqn:Hv; intros [= <- <-].
    + split; [eapply others_kept_trans; eassumption|]. rewrite Hd. auto.
    + split; [eapply others_kept_trans; eassumption|]. rewrite Hd. auto.
  - intros [= <- <-]. destruct Hr as [-> Hr].
    split; [exact Ho0|]. split; [exact Hd0|]. split; [exact Ht0|].
    intros (_ & _ & Hf & _). eapply Hf, Hr.
Qed.

(** What every call of [_get_user_credentials] comes to. *)
Lemma get_user_credentials_spec uid st r st' :
  Sheets._get_user_credentials g uid st = (r, st') ->
  Sheets.others_kept uid st st'
  /\ match r with
     | Ok creds =>
         Sheets.valid g creds = true
         /\ is_Some (Sheets.token_store st' !! uid)
         /\ (Sheets.device_store st' = Sheets.device_store st
             \/ Sheets.device_store st' !! uid = None)
     | Raise e =>
         auth_required e = true -> Sheets.foreign_errors g ->
         Sheets.asks_for g uid st e st'
         /\ forall info, Sheets.token_store st' !! uid = Some info ->
                         Sheets.truthy_dict info = false
     end.
Proof.
  unfold Sheets._get_user_credentials.
  destruct (Sheets._load_oauth_client_credentials g) as [[client_id client_secret]|e]
    eqn:Ec.
  2: { intros [= <- <-]. split; [apply others_kept_refl|].
       intros Ha (Hf & _). rewrite (Hf _ Ec) in Ha. discriminate. }
  destruct (Sheets.saved_credentials g uid st) as [[[creds|]|e] st1] eqn:Es;
    apply saved_credentials_spec in Es as (Hd1 & Ho1 & Hr1).
  - intros [= <- <-]. split; [exact Ho1|]. destruct Hr1. auto.
  - destruct (Sheets.stored_flow g uid st1) as [[flow|] st2] eqn:Ef;
      apply stored_flow_spec in Ef as (Ht2 & Ho2 & Hr2).
    + destruct Hr2 as (-> & Hl & Hexp).
      assert (Hl0 : Sheets.device_store st !! uid = Some flow) by (by rewrite <- Hd1).
      destruct (Sheets.truthy_flow flow) eqn:Htf; cbn [negb].
      2: { intros E. apply ask_spec in E as (Ht & Ho & e & -> & He).
           split; [eapply others_kept_trans; eassumption|].
           intros Ha Hf. destruct (He Ha Hf) as (flow' & Hs & Hd & Hx). split.
           - exists false, flow'. split; [exact Hd|]. split; [exact Hx|]. left. eauto.
           - rewrite Ht. exact Hr1. }
      specialize (Hexp eq_refl).
      destruct (device_code flow) as [code|].
      2: { intros [= <- <-]. split; [exact Ho1|]. discriminate. }
      destruct (Sheets._poll_device_flow g client_id client_secret code)
        as [token_response|e] eqn:Ep.
      2: { intros [= <- <-]. split; [exact Ho1|].
           intros Ha (_ & _ & _ & _ & Hf). rewrite (Hf _ _ _ _ Ep) in Ha. discriminate. }
      assert (Hgranted : forall r st',
        Sheets.granted g (Sheets.token_store st !! uid) token_response uid client_id
          client_secret st1 = (r, st') ->
        Sheets.others_kept uid st st'
        /\ match r with
           | Ok creds =>
               Sheets.valid g creds = true
               /\ is_Some (Sheets.token_store st' !! uid)
               /\ (Sheets.device_store st' = Sheets.device_store st
                   \/ Sheets.device_store st' !! uid = None)
           | Raise e =>
               auth_required e = true -> Sheets.foreign_errors g ->
               Sheets.asks_for g uid st e st'
               /\ forall info, Sheets.token_store st' !! uid = Some info ->
                               Sheets.truthy_dict info = false
           end).
      { intros r0 st0 E. apply granted_spec in E as (Ho & Hd & Ht & Hr).
        split; [eapply others_kept_trans; eassumption|].
        destruct r0 as [creds|e]; [auto|].
        intros Ha Hf. rewrite (Hr Hf) in Ha. discriminate. }
      destruct (assoc "error" token_response) as [error|]; [|apply Hgranted].
      destruct (Sheets.truthy_json error); [|apply Hgranted].
      intros E. apply (refused_spec _ _ _ _ _ _ _ _ Hl) in E as (Ht & Ho & e & -> & He).
      split; [eapply others_kept_trans; eassumption|].
      intros Ha Hf. destruct (He Ha Hf) as (denied & flow' & Hd & Hx & Hwhich). split.
      * exists denied, flow'. split; [exact Hd|]. split; [exact Hx|].
        destruct Hwhich as [Hnew|[-> Hold]]; [by left|]. right.
        split; [reflexivity|]. exists flow. auto.
      * rewrite Ht. exact Hr1.
    + intros E. apply ask_spec in E as (Ht & Ho & e & -> & He).
      split; [eapply others_kept_trans; [exact Ho1|];
              eapply others_kept_trans; eassumption|].
      intros Ha Hf. destruct (He Ha Hf) as (flow' & Hs & Hd & Hx). split.
      * exists false, flow'. split; [exact Hd|]. split; [exact Hx|]. left. eauto.
      * rewrite Ht, Ht2. exact Hr1.
  - intros [= <- <-]. split; [exact Ho1|]. intros Ha Hf.
    rewrite (Hr1 Hf) in Ha. discriminate.
Qed.

End CredentialFacts.

(** X17. What a call of [_get_user_credentials] for a user comes to, when
    no call to the outside raises the module's own
    [GoogleAuthRequiredError].  The credentials it returns are valid, and a
    token is then stored for the user, the device store being as it was or
    without a flow for the user.  When it raises a
    [GoogleAuthRequiredError], a flow is stored for the user and the text
    of the error is the authorization message of that very flow, after the
    notice of denial or alone; the flow is one Google has just handed out,
    or the one the user had, with its polling interval raised or not, and
    that one has not expired; and no token is stored for the user. *)
Theorem authorization_outcomes {Creds : Type} (g : Sheets.Google Creds)
  (uid : string) (st : Sheets.Stores) :
  Sheets.foreign_errors g ->
  match Sheets._get_user_credentials g uid st with
  | (Ok creds, st') =>
      Sheets.valid g creds = true
      /\ is_Some (Sheets.token_store st' !! uid)
      /\ (Sheets.device_store st' = Sheets.device_store st
          \/ Sheets.device_store st' !! uid = None)
  | (Raise e, st') =>
      auth_required e = true ->
      Sheets.asks_for g uid st e st'
      /\ forall info, Sheets.token_store st' !! uid = Some info ->
                      Sheets.truthy_dict info = false
  end.
Proof.
  intros Hf.
  destruct (Sheets._get_user_credentials g uid st) as [[creds|e] st'] eqn:E;
    apply get_user_credentials_spec in E as (_ & Hr); [exact Hr|auto].
Qed.

Lemma first_call_foreign : Sheets.foreign_errors Sheets.first_call.
Proof. repeat split; intros; discriminate. Qed.

(** A user nobody knows is asked to authorize the flow Google hands out. *)
Lemma authorization_outcomes_witness :
  exists e st',
    Sheets._get_user_credentials Sheets.first_call "bob" Sheets.one_user = (Raise e, st')
    /\ auth_required e = true
    /\ Sheets.asks_for Sheets.first_call "bob" Sheets.one_user e st'.
Proof.
  pose proof (authorization_outcomes Sheets.first_call "bob" Sheets.one_user
                first_call_foreign) as H.
  destruct (Sheets._get_user_credentials Sheets.first_call "bob" Sheets.one_user)
    as [[creds|e] st'] eqn:E; [vm_compute in E; discriminate|].
  assert (Ha : auth_required e = true)
    by (apply (f_equal fst) in E; cbn [fst] in E; vm_compute in E;
        injection E as <-; reflexivity).
  exists e, st'. split; [reflexivity|]. split; [exact Ha|]. exact (proj1 (H Ha)).
Defined.

(** X18. A call of [_get_user_credentials] touches the entries of no other
    user: whatever the outcome, and whatever the outside answers, the token
    and the flow stored for every other user are after the call what they
    were before. *)
Theorem credentials_isolated {Creds : Type} (g : Sheets.Google Creds)
  (uid : string) (st : Sheets.Stores) :
  Sheets.others_kept uid st (snd (Sheets._get_user_credentials g uid st)).
Proof.
  destruct (Sheets._get_user_credentials g uid st) as [r st'] eqn:E.
  apply get_user_credentials_spec in E as (Ho & _). exact Ho.
Qed.

(** X19. [get_google_auth_message] answers that Google is connected only
    when the credentials are valid, a token being stored for the user; any
    other answer is the authorization message of a flow that is stored for
    the user, it contains [Google authorization required] and does not
    start with [Google is already connected], so that the handler of the
    authorization commands reports it as an error; every other failure
    escapes. *)
Theorem auth_message_outcomes {Creds : Type} (g : Sheets.Google Creds)
  (uid : string) (st : Sheets.Stores) :
  Sheets.foreign_errors g ->
  match Sheets.get_google_auth_message g uid st with
  | (Ok msg, st') =>
      (msg = "Google is already connected for this user."
       /\ is_Some (Sheets.token_store st' !! uid)
       /\ exists creds, fst (Sheets._get_user_credentials g uid st) = Ok creds
                        /\ Sheets.valid g creds = true)
      \/ (PyStr.startswith msg "Google is already connected" = false
          /\ PyStr.contains "Google authorization required" msg = true
          /\ exists denied flow,
               Sheets.device_store st' !! uid = Some flow
               /\ msg = auth_required_text denied flow (Sheets.t1 g) (Sheets.t2 g))
  | (Raise e, st') =>
      auth_required e = false
      /\ Sheets._get_user_credentials g uid st = (Raise e, st')
  end.
Proof.
  intros Hf. unfold Sheets.get_google_auth_message.
  destruct (Sheets._get_user_credentials g uid st) as [[creds|e] st'] eqn:E.
  - apply get_user_credentials_spec in E as (_ & Hv & Ht & _).
    left. split; [reflexivity|]. split; [exact Ht|]. exists creds. auto.
  - destruct (auth_required e) eqn:Ha; [|auto].
    apply get_user_credentials_spec in E as (_ & Hr).
    destruct (Hr Ha Hf) as ((denied & flow & Hd & Hx & _) & _).
    right. rewrite Hx. split; [apply auth_text_not_connected|].
    split; [apply auth_text_contains|]. eauto.
Qed.

(** The user nobody knows asks whether Google is connected. *)
Lemma auth_message_outcomes_witness :
  exists msg st',
    Sheets.get_google_auth_message Sheets.first_call "bob" Sheets.one_user
      = (Ok msg, st')
    /\ PyStr.contains "Google authorization required" msg = true.
Proof.
  pose proof (auth_message_outcomes Sheets.first_call "bob" Sheets.one_user
                first_call_foreign) as H.
  destruct (Sheets.get_google_auth_message Sheets.first_call "bob" Sheets.one_user)
    as [[msg|e] st'] eqn:E; [|vm_compute in E; discriminate].
  exists msg, st'. split; [reflexivity|].
  destruct H as [(-> & _ & creds & Hc & _)|(_ & Hc & _)]; [|exact Hc].
  vm_compute in Hc. discriminate.
Defined.

(* ------------------------------------------------------------------ *)
(** ** The calls of the scraper *)

Lemma paired_from_app a : forall armed b,
  paired_from armed a = true -> paired b = true -> paired_from armed (a ++ b) = true.
Proof.
  induction a as [|e a IH]; intros armed b Ha Hb; cbn [app paired_from] in *.
  - destruct armed; [discriminate|exact Hb].
  - destruct e; apply andb_prop in Ha as [-> Ha]; cbn [andb]; by apply IH.
Qed.

Lemma gated_ret {A} (a : A) : gated (ret a).
Proof. intros w. exists []. cbn. by rewrite app_nil_r. Qed.

Lemma gated_raise {A} e : gated (@raise A e).
Proof. intros w. exists []. cbn. by rewrite app_nil_r. Qed.

Lemma gated_lift {A} (r : Result A) : gated (lift r).
Proof. intros w. exists []. cbn. by rewrite app_nil_r. Qed.

Lemma gated_bind {A B} (m : M A) (k : A -> M B) :
  gated m -> (forall a, gated (k a)) -> gated (bind m k).
Proof.
  intros Hm Hk w. unfold bind. destruct (Hm w) as (d1 & Ht1 & Hd1).
  destruct (m w) as [[a|e] w1]; cbn [snd] in *; [|eauto].
  destruct (Hk a w1) as (d2 & Ht2 & Hd2). exists (d1 ++ d2). split.
  - rewrite Ht2, Ht1. by rewrite app_assoc.
  - by apply paired_from_app.
Qed.

Lemma gated_attempt {A} (m : M A) : gated m -> gated (attempt m).
Proof.
  intros Hm w. unfold attempt. destruct (Hm w) as (d & Ht & Hd).
  destruct (m w) as [r w1]. eauto.
Qed.

Lemma gated_log e : paired [e] = true -> gated (log e).
Proof. intros He w. exists [e]. split; [reflexivity|exact He]. Qed.

Section Gated.

Variable env : Env.

Lemma gated_call_sheet d loc ltype uid : gated (call_sheet env d loc ltype uid).
Proof. intros w. rewrite call_sheet_run. eexists [_]. split; reflexivity. Qed.

Lemma gated_call_extract request : gated (call_extract env request).
Proof. intros w. rewrite call_extract_run. eexists [_]. split; reflexivity. Qed.

Lemma gated_call_planner msgs : gated (call_planner env msgs).
Proof. intros w. rewrite call_planner_run. eexists [_]. split; reflexivity. Qed.

Lemma gated_search_listings tool_input state :
  gated (search_listings env tool_input state).
Proof.
  intros w.
  destruct (gate_closed (time_time env (trace w)) (_last_search_time w)) eqn:Hg.
  - rewrite (search_listings_closed env tool_input state w Hg).
    eexists [_]. split; reflexivity.
  - rewrite (search_listings_open env tool_input state w Hg).
    eexists [_; _; _; _]. split; reflexivity.
Qed.

Lemma gated_create_sheet state : gated (create_sheet env state).
Proof.
  unfold create_sheet. destruct (df state) as [d|]; [|apply gated_ret].
  destruct (Pandas.empty d); [apply gated_ret|].
  apply gated_bind.
  - apply gated_attempt. destruct (search state); [apply gated_call_sheet|apply gated_raise].
  - intros [url|e]; apply gated_ret.
Qed.

Lemma gated_execute_tool name input state :
  gated (_execute_tool env name input state).
Proof.
  unfold _execute_tool.
  destruct (String.eqb name "search_listings"); [apply gated_search_listings|].
  destruct (String.eqb name "create_sheet"); [apply gated_create_sheet|apply gated_ret].
Qed.

Lemma gated_run_tools bs : forall state, gated (run_tools env bs state).
Proof.
  induction bs as [|b bs IH]; intros state; cbn [run_tools]; [apply gated_ret|].
  destruct b; try apply IH.
  apply gated_bind; [apply gated_execute_tool|]. intros o.
  apply gated_bind; [apply IH|]. intros rs. apply gated_ret.
Qed.

Lemma gated_iterations n : forall msgs state, gated (iterations env n msgs state).
Proof.
  induction n as [|n IH]; intros msgs state; cbn [iterations]; [apply gated_ret|].
  apply gated_bind; [apply gated_call_planner|]. intros response.
  destruct (String.eqb (stop_reason response) "end_turn"); [apply gated_ret|].
  destruct (String.eqb (stop_reason response) "tool_use"); [|apply gated_ret].
  apply gated_bind; [apply gated_run_tools|]. intros rs. apply IH.
Qed.

Lemma gated_run_agent_loop s uid prior : gated (run_agent_loop env s uid prior).
Proof.
  apply gated_bind; [apply gated_iterations|]. intros out.
  apply gated_bind; [|intros _; apply gated_ret].
  intros w. eexists [_]. split; reflexivity.
Qed.

Lemma gated_run_workflow input : gated (run_workflow env input).
Proof.
  apply gated_bind.
  { apply gated_bind; [apply gated_call_extract|]. intros parsed. apply gated_ret. }
  intros s. destruct (negb (PyStr.truthy (location s))); [apply gated_ret|].
  apply gated_bind; [|intros _; apply gated_run_agent_loop].
  intros w. eexists [_]. split; reflexivity.
Qed.

Lemma gated_resume_workflow input : gated (resume_workflow env input).
Proof.
  apply gated_bind; [intros w; exists []; cbn; by rewrite app_nil_r|].
  intros [[|m ms]|]; try apply gated_run_workflow.
  apply gated_bind; [|intros s; apply gated_run_agent_loop].
  apply gated_bind; [apply gated_call_extract|]. intros parsed. apply gated_ret.
Qed.

End Gated.

(** X20. The scraper is called from one place only, behind the rate gate:
    in the effects of every tool call, every run and every handler, each
    call of the scraper comes right after a stamp of the timestamp, and each
    stamp is followed at once by a call of the scraper. *)
Theorem scraper_gated (env : Env) :
  (forall name input state, gated (_execute_tool env name input state))
  /\ (forall input, gated (run_workflow env input))
  /\ (forall input, gated (resume_workflow env input))
  /\ (forall sender msg, gated (handle_search env sender msg))
  /\ (forall sender msg, gated (handle_followup env sender msg))
  /\ (forall sender msg_id body, gated (handle_chat env sender msg_id body)).
Proof.
  split; [apply gated_execute_tool|]. split; [apply gated_run_workflow|].
  split; [apply gated_resume_workflow|]. split; [|split].
  - intros sender msg. unfold handle_search. destruct (is_auth_query (query msg)).
    + apply gated_bind; [|intros i; apply gated_ret].
      intros w. rewrite get_google_auth_message_run. eexists [_]. split; reflexivity.
    + apply gated_bind; [apply gated_attempt, gated_run_workflow|].
      intros [res|e]; apply gated_ret.
  - intros sender msg. unfold handle_followup.
    apply gated_bind; [apply gated_attempt, gated_resume_workflow|].
    intros [res|e]; apply gated_ret.
  - intros sender msg_id body. unfold handle_chat.
    destruct (negb _); [apply gated_ret|].
    apply gated_bind; [apply gated_attempt, gated_run_workflow|].
    intros ran. apply gated_ret.
Qed.

(* ------------------------------------------------------------------ *)
(** ** The wait a refused search announces *)

Lemma round_tenths_bounds x :
  (0 <= x)%Q -> (x <= 8 # 1)%Q -> 0 <= round_tenths x <= 80.
Proof.
  destruct x as [n d]. unfold Qle, round_tenths. cbn [Qnum Qden]. intros H0 H8.
  set (N := n * 10). set (D := Z.pos d).
  assert (HD : 0 < D) by (subst D; lia).
  assert (HN : 0 <= N <= 80 * D) by (subst N D; lia).
  pose proof (Z.div_mod N D ltac:(lia)) as Hdm.
  pose proof (Z.mod_pos_bound N D HD) as Hm.
  assert (Hq : 0 <= N / D <= 80) by (split; [apply Z.div_pos; lia|
    apply Z.div_le_upper_bound; lia]).
  assert (Hq80 : N / D = 80 -> N mod D = 0) by nia.
  destruct (Z.compare_spec (2 * (N mod D)) D) as [He|Hl|Hg].
  - destruct (Z.even (N / D)); lia.
  - lia.
  - lia.
Qed.

(** X21. Under a clock whose readings are positive and never go back, and
    in a process whose rate gate is in order, a search that the gate
    refuses is told to wait between 0 and 8 seconds: the wait announced,
    in tenths of a second, is between 0 and 80. *)
Theorem wait_bounded (env : Env) (tool_input : Fields) (state : _RunState)
  (w : World) :
  clock_ok env -> gate_ok w ->
  let t := time_time env (trace w) in
  gate_closed t (_last_search_time w) = true ->
  exists wait,
    _execute_tool env "search_listings" tool_input state w
    = (Ok (rate_limited wait, state), extend w [EvTime t])
    /\ 0 <= wait <= 80
    /\ (0 <= t - _last_search_time w)%Q.
Proof.
  intros Hc (_ & _ & _ & Hr) t Hg.
  rewrite _execute_tool_search, (search_listings_closed env tool_input state w Hg).
  fold t. eexists. split; [reflexivity|].
  apply gate_closed_true in Hg as [Hpos Hlt].
  destruct Hr as [Hr|Hr]; [lra|].
  destruct (Hc (trace w)) as [_ Hmono]. specialize (Hmono _ Hr). fold t in Hmono.
  split; [|lra]. unfold SEARCH_COOLDOWN_SECONDS in *.
  apply round_tenths_bounds; lra.
Qed.

Lemma searched_once_ok : gate_ok Clocks.searched_once.
Proof.
  split; [repeat constructor|]. split; [repeat constructor|].
  split; [repeat constructor; discriminate|]. right. right. left. reflexivity.
Qed.

(** Three seconds after a search, the next one is told to wait 5.0 s. *)
Lemma wait_bounded_witness :
  exists wait,
    _execute_tool Clocks.env_steady "search_listings" Script.austin
      (new_state Script.renting "u") Clocks.searched_once
    = (Ok (rate_limited wait, new_state Script.renting "u"),
       extend Clocks.searched_once [EvTime (10 # 1)])
    /\ 0 <= wait <= 80.
Proof.
  destruct (wait_bounded Clocks.env_steady Script.austin (new_state Script.renting "u")
              Clocks.searched_once env_steady_clock searched_once_ok eq_refl)
    as (wait & E & Hw & _).
  exists wait. split; [exact E|exact Hw].
Defined.
